(** * Verification of web_scraper.py (sitemap-driven article scraper)

    A shallow embedding of [src/web_scraper.py]: the [Article] dataclass,
    [SitemapParser], [ArticleScraper], [FileUtility] and the driver [main].

    Conventions of the embedding.
    - Python [str] values are byte strings ([string]): the UTF-8 encoding of
      the text, a lone surrogate being encoded like any other code point of
      its range (three bytes).
    - What belongs to the interpreter and not to the program is a parameter
      [py : interp]: the decimal digits of its Unicode database beyond
      ASCII, the digit limit of integer conversion and the recursion depth
      left for decoding and for encoding JSON.
    - The two regular expressions of the source are terms of a small regex
      syntax, run by a backtracking matcher with greedy repetition, which is
      how Python's [re] runs them. [\d] matches one decimal digit
      character, of one to four bytes. The matcher looks for a match at
      every byte offset and [.] advances one byte: both patterns begin with
      an ASCII character and [.] is followed by one, so the matches are
      those at character offsets.
    - [json.loads] is the decoder of the standard library, transcribed from
      its scanner (objects, arrays, strings with escapes, numbers, literals),
      with the three ways it ends: a value, [JSONDecodeError], or another
      exception ([ValueError] of the digit limit, [RecursionError]).
      Floats keep their lexeme.
    - [json.dump] to a file opened as UTF-8 either writes the whole value
      or raises ([UnicodeEncodeError] on a lone surrogate, [ValueError],
      [RecursionError]) and leaves the file cut short. A file holds the
      value dumped, whole or cut short, not its text.
    - [requests.get] followed by [BeautifulSoup(..., 'html.parser')] is a
      function of the world from URLs to parsed documents or exceptions.
    - [main] runs in a state monad over the observable effects: the URLs
      fetched, the lines printed and the files written. Standard output and
      the working directory accept what is written to them. [tqdm] yields
      the items of the list it wraps, in order, and reports progress on
      standard error, which is not part of the state. *)

From Stdlib Require Import String Ascii List ZArith NArith Bool Arith Lia.
From Stdlib Require Import DecimalString.
Import ListNotations.
Local Open Scope string_scope.
Local Open Scope list_scope.

Set Implicit Arguments.

(* ================================================================= *)
(** ** The interpreter *)

Record interp : Type := MkInterp {
  (** the code points from 128 on that are decimal digits (category Nd) *)
  unicode_nd : N -> bool;
  (** [sys.get_int_max_str_digits()]; 0 is no limit *)
  int_max_str_digits : nat;
  (** how many objects and arrays [json.loads] can be inside of at once *)
  decode_depth : nat;
  (** how many lists and mappings, below the list of records and a
      record, [json.dump] can be inside of at once *)
  encode_depth : nat
}.

(* ================================================================= *)
(** ** Strings *)

Module Str.

Fixpoint drop (n : nat) (s : string) : string :=
  match n, s with
  | O, _ => s
  | S n', String _ s' => drop n' s'
  | S _, EmptyString => EmptyString
  end.

Fixpoint take (n : nat) (s : string) : string :=
  match n, s with
  | O, _ => EmptyString
  | S n', String a s' => String a (take n' s')
  | S _, EmptyString => EmptyString
  end.

(** [s[i:j]] for [0 <= i], [0 <= j]. *)
Definition slice (i j : nat) (s : string) : string := take (j - i) (drop i s).

(** [sep.join(l)]. *)
Fixpoint join (sep : string) (l : list string) : string :=
  match l with
  | [] => ""
  | [x] => x
  | x :: rest => (x ++ sep ++ join sep rest)%string
  end.

Definition concat (l : list string) : string := fold_right append "" l.

(** [s.split(c)] for a one-character separator [c]: the pieces between
    the occurrences of [c]; always at least one piece. *)
Fixpoint split (c : ascii) (s : string) : list string :=
  match s with
  | EmptyString => [""]
  | String a s' =>
      if Ascii.eqb a c then "" :: split c s'
      else match split c s' with
           | piece :: rest => String a piece :: rest
           | [] => [String a ""]
           end
  end.

(** The double quote character, and [js]: a JSON text written with single
    quotes in place of double quotes, for readable examples. *)
Definition dquote : ascii := "034"%char.

Fixpoint js (s : string) : string :=
  match s with
  | EmptyString => EmptyString
  | String a s' => String (if Ascii.eqb a "'" then dquote else a) (js s')
  end.

(** [n] copies of a character. *)
Fixpoint repeat (a : ascii) (n : nat) : string :=
  match n with
  | O => EmptyString
  | S n' => String a (repeat a n')
  end.

(** [str(n)] for a natural number. *)
Definition of_nat (n : nat) : string := NilEmpty.string_of_uint (Nat.to_uint n).

End Str.

(* ================================================================= *)
(** ** Exceptions and results *)

Inductive exn : Type :=
| RequestException (msg : string)   (* raised by requests.get *)
| ParserError (msg : string)        (* raised by the markup parser *)
| AttributeError (msg : string)
| ValueError (msg : string)
| RecursionError (msg : string)
| UnicodeEncodeError (msg : string).

(** [str(e)]. *)
Definition exn_str (e : exn) : string :=
  match e with
  | RequestException m | ParserError m | AttributeError m | ValueError m
  | RecursionError m | UnicodeEncodeError m => m
  end.

Inductive result (A : Type) : Type :=
| Ok (a : A)
| Raise (e : exn).
Arguments Raise {A}.

(* ================================================================= *)
(** ** Regular expressions, as [re] runs them *)

Module Re.

(** One-character classes. [CAny] is [.] under [re.DOTALL]; [CDigit] is
    [\d]. *)
Inductive cclass : Type :=
| CLit (a : ascii)
| CAny
| CDigit.

(** Pattern items: one character, a greedy bounded repetition of a class
    ([hi = None] is unbounded), and a group boundary, which records the
    current position. *)
Inductive item : Type :=
| One (c : cclass)
| Rep (c : cclass) (lo : nat) (hi : option nat)
| Mark.

Definition regex := list item.

Fixpoint lits (s : string) : regex :=
  match s with
  | EmptyString => []
  | String a s' => One (CLit a) :: lits s'
  end.

(** The payload of a continuation byte of UTF-8. *)
Definition continuation (a : ascii) : option N :=
  let n := N_of_ascii a in
  if ((128 <=? n) && (n <? 192))%N then Some (n - 128)%N else None.

(** The character at the head of a text: its code point, its width in
    bytes and the rest of the text. *)
Definition decode_head (s : string) : option (N * nat * string) :=
  match s with
  | EmptyString => None
  | String a s1 =>
      let n := N_of_ascii a in
      if (n <? 128)%N then Some (n, 1, s1)
      else if (n <? 192)%N then None
      else if (n <? 224)%N then
        match s1 with
        | String b s2 =>
            match continuation b with
            | Some x =>
                let cp := ((n - 192) * 64 + x)%N in
                if (128 <=? cp)%N then Some (cp, 2, s2) else None
            | None => None
            end
        | EmptyString => None
        end
      else if (n <? 240)%N then
        match s1 with
        | String b (String c s3) =>
            match continuation b, continuation c with
            | Some x, Some y =>
                let cp := (((n - 224) * 64 + x) * 64 + y)%N in
                if (2048 <=? cp)%N then Some (cp, 3, s3) else None
            | _, _ => None
            end
        | _ => None
        end
      else if (n <? 248)%N then
        match s1 with
        | String b (String c (String d s4)) =>
            match continuation b, continuation c, continuation d with
            | Some x, Some y, Some z =>
                let cp := ((((n - 240) * 64 + x) * 64 + y) * 64 + z)%N in
                if (65536 <=? cp)%N then Some (cp, 4, s4) else None
            | _, _, _ => None
            end
        | _ => None
        end
      else None
  end.

(** Greedy choice with backtracking: try [k], then [k-1], ... down to [lo]. *)
Fixpoint try_down (A : Type) (f : nat -> option A) (lo k : nat) : option A :=
  if (k <? lo)%nat then None
  else match f k with
       | Some x => Some x
       | None => match k with
                 | O => None
                 | S k' => try_down f lo k'
                 end
       end.

Section Matcher.

Variable py : interp.

(** [\d] on a code point: [0-9], and the decimal digits of the Unicode
    database beyond ASCII. *)
Definition is_decimal (cp : N) : bool :=
  if (cp <? 128)%N then ((48 <=? cp) && (cp <=? 57))%N else unicode_nd py cp.

(** One character of class [c] at the head of [s]: its width in bytes and
    the rest of [s]. *)
Definition step (c : cclass) (s : string) : option (nat * string) :=
  match c with
  | CLit b =>
      match s with
      | String a s' => if Ascii.eqb a b then Some (1, s') else None
      | EmptyString => None
      end
  | CAny =>
      match s with
      | String _ s' => Some (1, s')
      | EmptyString => None
      end
  | CDigit =>
      match decode_head s with
      | Some (cp, w, rest) => if is_decimal cp then Some (w, rest) else None
      | None => None
      end
  end.

(** [k] characters of class [c] at the head of [s]: their width in bytes
    and the rest of [s]. *)
Fixpoint skip (c : cclass) (k : nat) (s : string) : option (nat * string) :=
  match k with
  | O => Some (0, s)
  | S k' =>
      match step c s with
      | Some (w, rest) =>
          match skip c k' rest with
          | Some (w', rest') => Some (w + w', rest')
          | None => None
          end
      | None => None
      end
  end.

(** Number of leading characters of [s] in class [c], at most [hi]. A
    character takes at least one byte, so the length of [s] bounds it. *)
Fixpoint run_length_upto (bound : nat) (c : cclass) (hi : option nat)
    (s : string) : nat :=
  match bound with
  | O => 0
  | S bound' =>
      match hi with
      | Some O => 0
      | _ =>
          match step c s with
          | Some (_, rest) =>
              S (run_length_upto bound' c (option_map Nat.pred hi) rest)
          | None => 0
          end
      end
  end.

Definition run_length (c : cclass) (hi : option nat) (s : string) : nat :=
  run_length_upto (String.length s) c hi s.

(** Match [r] at the head of [s], which starts at byte offset [pos].
    Returns the end offset and the offsets of the marks passed. *)
Fixpoint match_here (r : regex) (s : string) (pos : nat)
  : option (nat * list nat) :=
  match r with
  | [] => Some (pos, [])
  | One c :: r' =>
      match step c s with
      | Some (w, rest) => match_here r' rest (pos + w)
      | None => None
      end
  | Mark :: r' =>
      match match_here r' s pos with
      | Some (e, ms) => Some (e, pos :: ms)
      | None => None
      end
  | Rep c lo hi :: r' =>
      try_down (fun k => match skip c k s with
                         | Some (w, rest) => match_here r' rest (pos + w)
                         | None => None
                         end)
               lo (run_length c hi s)
  end.

End Matcher.

(** A match object: start, end and mark offsets in the searched string. *)
Record rmatch : Type := MkMatch {
  m_string : string;
  m_start : nat;
  m_end : nat;
  m_marks : list nat
}.

Fixpoint search_from (py : interp) (r : regex) (whole s : string) (pos : nat)
  : option rmatch :=
  match match_here py r s pos with
  | Some (e, ms) => Some (MkMatch whole pos e ms)
  | None =>
      match s with
      | String _ s' => search_from py r whole s' (S pos)
      | EmptyString => None
      end
  end.

(** [re.search(r, s)]: the leftmost match. *)
Definition search (py : interp) (r : regex) (s : string) : option rmatch :=
  search_from py r s s 0.

(** [m.group()]. *)
Definition group (m : rmatch) : string :=
  Str.slice (m_start m) (m_end m) (m_string m).

(** [m.groups()]: the marks delimit the groups pairwise. *)
Fixpoint groups_of (s : string) (ms : list nat) : list string :=
  match ms with
  | b :: e :: rest => Str.slice b e s :: groups_of s rest
  | _ => []
  end.

Definition groups (m : rmatch) : list string :=
  groups_of (m_string m) (m_marks m).

End Re.

(** [r'{.*}'] with [re.DOTALL] (extract_metadata). *)
Definition brace_pattern : Re.regex :=
  [Re.One (Re.CLit "{"); Re.Rep Re.CAny 0 None; Re.One (Re.CLit "}")].

(** [r'sitemap-(\d{4})-(\d{1,2})\.xml'] (main). *)
Definition sitemap_pattern : Re.regex :=
  Re.lits "sitemap-"
  ++ [Re.Mark; Re.Rep Re.CDigit 4 (Some 4); Re.Mark; Re.One (Re.CLit "-");
      Re.Mark; Re.Rep Re.CDigit 1 (Some 2); Re.Mark]
  ++ Re.lits ".xml".

(* ================================================================= *)
(** ** Python values and dictionaries *)

(** The values [json.loads] produces. A float keeps its lexeme. A [dict]
    is its list of items in insertion order, keys unique. *)
#[warnings="-register-all"]
Inductive pyval : Type :=
| PNone
| PBool (b : bool)
| PInt (z : Z)
| PFloat (lexeme : string)
| PStr (s : string)
| PList (l : list pyval)
| PDict (d : list (string * pyval)).

(** Mappings with string keys: [dict] values, and the working directory. *)
Module Dict.

Section Map.

Variable V : Type.

(** [d[k] = v]: replaces the value of an existing key in place, else
    appends. *)
Fixpoint set (d : list (string * V)) (k : string) (v : V) : list (string * V) :=
  match d with
  | [] => [(k, v)]
  | (k', v') :: rest =>
      if String.eqb k' k then (k, v) :: rest else (k', v') :: set rest k v
  end.

Fixpoint lookup (d : list (string * V)) (k : string) : option V :=
  match d with
  | [] => None
  | (k', v) :: rest => if String.eqb k' k then Some v else lookup rest k
  end.

(** [d.get(k, default)]; [d.get(k)] is [get d k PNone]. *)
Definition get (d : list (string * V)) (k : string) (default : V) : V :=
  match lookup d k with
  | Some v => v
  | None => default
  end.

End Map.

Definition t := list (string * pyval).

End Dict.

(* ================================================================= *)
(** ** json.loads *)

Module Json.

(** Outcome of a scanner: a value, [json.JSONDecodeError], another
    exception, or the fuel of the model ran out (shown below not to
    happen). *)
Inductive presult (A : Type) : Type :=
| POk (a : A)
| PErr
| PRaise (e : exn)
| PFuel.
Arguments PErr {A}.
Arguments PRaise {A} e.
Arguments PFuel {A}.

Definition is_digit (a : ascii) : bool :=
  let n := nat_of_ascii a in ((48 <=? n) && (n <=? 57))%nat.

Definition is_ws (a : ascii) : bool :=
  Ascii.eqb a " " || Ascii.eqb a "009" || Ascii.eqb a "010" || Ascii.eqb a "013".

Fixpoint skip_ws (s : string) : string :=
  match s with
  | String a s' => if is_ws a then skip_ws s' else s
  | EmptyString => s
  end.

(** [s.startswith(p)], giving the rest. *)
Fixpoint strip_prefix (p s : string) : option string :=
  match p, s with
  | EmptyString, _ => Some s
  | String a p', String b s' => if Ascii.eqb a b then strip_prefix p' s' else None
  | String _ _, EmptyString => None
  end.

Definition hex_val (a : ascii) : option N :=
  let n := N_of_ascii a in
  if ((48 <=? n) && (n <=? 57))%N then Some (n - 48)%N
  else if ((97 <=? n) && (n <=? 102))%N then Some (n - 87)%N
  else if ((65 <=? n) && (n <=? 70))%N then Some (n - 55)%N
  else None.

(** Four hexadecimal digits. *)
Definition hex4 (s : string) : option (N * string) :=
  match s with
  | String a (String b (String c (String d rest))) =>
      match hex_val a, hex_val b, hex_val c, hex_val d with
      | Some x, Some y, Some z, Some w =>
          Some (((x * 16 + y) * 16 + z) * 16 + w, rest)%N
      | _, _, _, _ => None
      end
  | _ => None
  end.

Definition byte (n : N) : ascii := ascii_of_N n.

(** The UTF-8 bytes of a code point (a lone surrogate is encoded like any
    other three-byte code point). *)
Definition utf8 (cp : N) : string :=
  (if cp <? 128 then String (byte cp) ""
   else if cp <? 2048 then
     String (byte (192 + cp / 64)) (String (byte (128 + cp mod 64)) "")
   else if cp <? 65536 then
     String (byte (224 + cp / 4096))
       (String (byte (128 + (cp / 64) mod 64))
          (String (byte (128 + cp mod 64)) ""))
   else
     String (byte (240 + cp / 262144))
       (String (byte (128 + (cp / 4096) mod 64))
          (String (byte (128 + (cp / 64) mod 64))
             (String (byte (128 + cp mod 64)) ""))))%N.

Definition is_high_surrogate (cp : N) : bool := ((55296 <=? cp) && (cp <=? 56319))%N.
Definition is_low_surrogate (cp : N) : bool := ((56320 <=? cp) && (cp <=? 57343))%N.
Definition join_surrogates (hi lo : N) : N :=
  (65536 + (hi - 55296) * 1024 + (lo - 56320))%N.

(** The one-character escapes (BACKSLASH of json.decoder). *)
Definition unescape (e : ascii) : option ascii :=
  if Ascii.eqb e Str.dquote then Some Str.dquote
  else if Ascii.eqb e "\" then Some "\"%char
  else if Ascii.eqb e "/" then Some "/"%char
  else if Ascii.eqb e "b" then Some "008"%char
  else if Ascii.eqb e "f" then Some "012"%char
  else if Ascii.eqb e "n" then Some "010"%char
  else if Ascii.eqb e "r" then Some "013"%char
  else if Ascii.eqb e "t" then Some "009"%char
  else None.

Definition on_ok (A B : Type) (r : presult (A * string)) (f : A -> B)
  : presult (B * string) :=
  match r with
  | POk (x, rest) => POk (f x, rest)
  | PErr => PErr
  | PRaise e => PRaise e
  | PFuel => PFuel
  end.

(** [scanstring] in strict mode, from just after the opening quote: the
    decoded string and the text after the closing quote. *)
Fixpoint scanstring (fuel : nat) (s : string) : presult (string * string) :=
  match fuel with
  | O => PFuel
  | S f =>
      match s with
      | EmptyString => PErr
      | String a s1 =>
          if Ascii.eqb a Str.dquote then POk ("", s1)
          else if Ascii.eqb a "\" then
            match s1 with
            | EmptyString => PErr
            | String e s2 =>
                if Ascii.eqb e "u" then
                  match hex4 s2 with
                  | None => PErr
                  | Some (cp, s3) =>
                      if is_high_surrogate cp then
                        match strip_prefix "\u" s3 with
                        | Some s4 =>
                            match hex4 s4 with
                            | None => PErr
                            | Some (cp2, s5) =>
                                if is_low_surrogate cp2
                                then on_ok (scanstring f s5)
                                       (append (utf8 (join_surrogates cp cp2)))
                                else on_ok (scanstring f s3) (append (utf8 cp))
                            end
                        | None => on_ok (scanstring f s3) (append (utf8 cp))
                        end
                      else on_ok (scanstring f s3) (append (utf8 cp))
                  end
                else
                  match unescape e with
                  | Some c => on_ok (scanstring f s2) (String c)
                  | None => PErr
                  end
            end
          else if (nat_of_ascii a <? 32)%nat then PErr
          else on_ok (scanstring f s1) (String a)
      end
  end.

(** The longest prefix of decimal digits, and the rest. *)
Fixpoint span_digits (s : string) : string * string :=
  match s with
  | String a s' =>
      if is_digit a
      then let (ds, rest) := span_digits s' in (String a ds, rest)
      else ("", s)
  | EmptyString => ("", "")
  end.

Fixpoint digits_value (acc : Z) (ds : string) : Z :=
  match ds with
  | EmptyString => acc
  | String a ds' => digits_value (acc * 10 + Z.of_nat (nat_of_ascii a - 48)) ds'
  end.

(** The number grammar of the scanner: an optional minus sign; a zero, or
    a non-zero digit and more digits; optionally a dot and digits;
    optionally [e] or [E], a sign and digits. A lexeme with a fraction or an
    exponent is a float, any other an int. Each part gives its lexeme and
    the rest of the text. *)
Definition sign_part (s : string) : string * string :=
  match s with
  | String a s' => if Ascii.eqb a "-" then ("-", s') else ("", s)
  | EmptyString => ("", s)
  end.

Definition int_part (s : string) : option (string * string) :=
  match s with
  | String d s' =>
      if Ascii.eqb d "0" then Some ("0", s')
      else if is_digit d
           then let (ds, rest) := span_digits s' in Some (String d ds, rest)
           else None
  | EmptyString => None
  end.

Definition frac_part (s : string) : string * string :=
  match s with
  | String a (String d r) =>
      if Ascii.eqb a "." && is_digit d
      then let (ds, rest) := span_digits r in (String a (String d ds), rest)
      else ("", s)
  | _ => ("", s)
  end.

Definition exp_sign (s : string) : string * string :=
  match s with
  | String a s' =>
      if Ascii.eqb a "+" || Ascii.eqb a "-" then (String a "", s') else ("", s)
  | EmptyString => ("", s)
  end.

Definition exp_part (s : string) : string * string :=
  match s with
  | String e r =>
      if Ascii.eqb e "e" || Ascii.eqb e "E" then
        let (sg, r1) := exp_sign r in
        match span_digits r1 with
        | (EmptyString, _) => ("", s)
        | (ds, rest) => (String e (sg ++ ds)%string, rest)
        end
      else ("", s)
  | EmptyString => ("", s)
  end.

(** [int(lexeme)] under the digit limit of the interpreter. *)
Definition digit_limit_message (limit digits : nat) : string :=
  ("Exceeds the limit (" ++ Str.of_nat limit
   ++ " digits) for integer string conversion: value has "
   ++ Str.of_nat digits
   ++ " digits; use sys.set_int_max_str_digits() to increase the limit")%string.

Definition over_digit_limit (py : interp) (digits : nat) : bool :=
  ((640 <? digits) && (0 <? int_max_str_digits py)
   && (int_max_str_digits py <? digits))%nat.

Definition match_number (py : interp) (s : string) : presult (pyval * string) :=
  let (sign, s1) := sign_part s in
  match int_part s1 with
  | None => PErr
  | Some (ip, s2) =>
      let (frac, s3) := frac_part s2 in
      let (exp, s4) := exp_part s3 in
      match frac, exp with
      | EmptyString, EmptyString =>
          if over_digit_limit py (String.length ip)
          then PRaise (ValueError (digit_limit_message (int_max_str_digits py)
                                     (String.length ip)))
          else
            let v := digits_value 0 ip in
            POk (PInt (if String.eqb sign "-" then - v else v), s4)
      | _, _ => POk (PFloat (sign ++ ip ++ frac ++ exp)%string, s4)
      end
  end.

(** The literals tried before a number, in the scanner's order. *)
Definition scan_literal (py : interp) (s : string) : presult (pyval * string) :=
  match strip_prefix "null" s with
  | Some r => POk (PNone, r)
  | None =>
  match strip_prefix "true" s with
  | Some r => POk (PBool true, r)
  | None =>
  match strip_prefix "false" s with
  | Some r => POk (PBool false, r)
  | None =>
  match strip_prefix "NaN" s with
  | Some r => POk (PFloat "NaN", r)
  | None =>
  match strip_prefix "Infinity" s with
  | Some r => POk (PFloat "Infinity", r)
  | None =>
  match strip_prefix "-Infinity" s with
  | Some r => POk (PFloat "-Infinity", r)
  | None => match_number py s
  end end end end end end.

Definition recursion_message (what : string) : string :=
  ("maximum recursion depth exceeded while decoding a JSON " ++ what
   ++ " from a unicode string")%string.

(** [scan_once], with the loops of [JSONObject] and [JSONArray]. The loops
    start at the first item, after the opening bracket and white space.
    [depth] is the number of objects and arrays that can still be entered:
    entering one more raises [RecursionError]. *)
Fixpoint scan_once (py : interp) (fuel depth : nat) (s : string)
  : presult (pyval * string) :=
  match fuel with
  | O => PFuel
  | S f =>
      match s with
      | EmptyString => PErr
      | String a s1 =>
          if Ascii.eqb a Str.dquote then
            on_ok (scanstring (S (String.length s1)) s1) PStr
          else if Ascii.eqb a "{" then
            match depth with
            | O => PRaise (RecursionError (recursion_message "object"))
            | S depth' =>
                match skip_ws s1 with
                | String "}" r => POk (PDict [], r)
                | s2 => object_loop py f depth' s2 []
                end
            end
          else if Ascii.eqb a "[" then
            match depth with
            | O => PRaise (RecursionError (recursion_message "array"))
            | S depth' =>
                match skip_ws s1 with
                | String "]" r => POk (PList [], r)
                | s2 => array_loop py f depth' s2 []
                end
            end
          else scan_literal py s
      end
  end

with object_loop (py : interp) (fuel depth : nat) (s : string)
    (pairs : list (string * pyval)) : presult (pyval * string) :=
  match fuel with
  | O => PFuel
  | S f =>
      match s with
      | EmptyString => PErr
      | String q s1 =>
          if Ascii.eqb q Str.dquote then
            match scanstring (S (String.length s1)) s1 with
            | POk (key, s2) =>
                match skip_ws s2 with
                | String ":" s3 =>
                    match scan_once py f depth (skip_ws s3) with
                    | POk (v, s4) =>
                        let pairs' := Dict.set pairs key v in
                        match skip_ws s4 with
                        | String "}" r => POk (PDict pairs', r)
                        | String "," s5 =>
                            object_loop py f depth (skip_ws s5) pairs'
                        | _ => PErr
                        end
                    | PErr => PErr
                    | PRaise e => PRaise e
                    | PFuel => PFuel
                    end
                | _ => PErr
                end
            | PErr => PErr
            | PRaise e => PRaise e
            | PFuel => PFuel
            end
          else PErr
      end
  end

with array_loop (py : interp) (fuel depth : nat) (s : string)
    (values : list pyval) : presult (pyval * string) :=
  match fuel with
  | O => PFuel
  | S f =>
      match scan_once py f depth s with
      | POk (v, s1) =>
          match skip_ws s1 with
          | String "]" r => POk (PList (values ++ [v]), r)
          | String "," s2 => array_loop py f depth (skip_ws s2) (values ++ [v])
          | _ => PErr
          end
      | PErr => PErr
      | PRaise e => PRaise e
      | PFuel => PFuel
      end
  end.

(** [json.loads(s)]: white space, one value, white space, end of text. *)
Definition loads_fuel (py : interp) (fuel : nat) (s : string) : presult pyval :=
  match scan_once py fuel (decode_depth py) (skip_ws s) with
  | POk (v, rest) =>
      match skip_ws rest with
      | EmptyString => POk v
      | String _ _ => PErr
      end
  | PErr => PErr
  | PRaise e => PRaise e
  | PFuel => PFuel
  end.

Definition loads (py : interp) (s : string) : presult pyval :=
  loads_fuel py (2 * String.length s + 1) s.

End Json.


(** How [json.loads] ends. *)
Inductive loads_result : Type :=
| Loaded (v : pyval)
| JSONDecodeError
| Raised (e : exn).

(** [json.loads] as the code sees it. *)
Definition json_loads (py : interp) (s : string) : loads_result :=
  match Json.loads py s with
  | Json.POk v => Loaded v
  | Json.PErr => JSONDecodeError
  | Json.PRaise e => Raised e
  | Json.PFuel => JSONDecodeError
  end.

(* ================================================================= *)
(** ** Attribute access on Python values *)

Definition type_name (v : pyval) : string :=
  match v with
  | PNone => "NoneType"
  | PBool _ => "bool"
  | PInt _ => "int"
  | PFloat _ => "float"
  | PStr _ => "str"
  | PList _ => "list"
  | PDict _ => "dict"
  end.

Definition no_attribute (v : pyval) (attr : string) : exn :=
  AttributeError ("'" ++ type_name v ++ "' object has no attribute '" ++ attr ++ "'")%string.

(** [v.get(k, default)]: defined on a dict only. *)
Definition py_get (v : pyval) (k : string) (default : pyval) : result pyval :=
  match v with
  | PDict d => Ok (Dict.get d k default)
  | _ => Raise (no_attribute v "get")
  end.

(** [v.split(',')]: defined on a str only. *)
Definition py_split_comma (v : pyval) : result (list string) :=
  match v with
  | PStr s => Ok (Str.split "," s)
  | _ => Raise (no_attribute v "split")
  end.

(* ================================================================= *)
(** ** Parsed documents (BeautifulSoup) *)

Module Soup.

(** The classes of string a parsed document holds. *)
Inductive strkind : Type :=
| KString | KCData | KComment | KScript | KStylesheet | KTemplate | KOther.

Definition strkind_eqb (a b : strkind) : bool :=
  match a, b with
  | KString, KString | KCData, KCData | KComment, KComment
  | KScript, KScript | KStylesheet, KStylesheet | KTemplate, KTemplate
  | KOther, KOther => true
  | _, _ => false
  end.

#[warnings="-register-all"]
Inductive node : Type :=
| NText (k : strkind) (s : string)
| NTag (name : string) (attrs : list (string * string)) (children : list node).

(** A document: its top-level nodes. *)
Definition t := list node.

Fixpoint attr (attrs : list (string * string)) (k : string) : option string :=
  match attrs with
  | [] => None
  | (k', v) :: rest => if String.eqb k' k then Some v else attr rest k
  end.

(** The tags under (and including) [n] that satisfy [p], in document
    order. *)
Fixpoint tags (p : string -> list (string * string) -> bool) (n : node)
  : list node :=
  match n with
  | NText _ _ => []
  | NTag name attrs children =>
      (if p name attrs then [n] else []) ++ flat_map (tags p) children
  end.

(** [soup.find_all(name)]. *)
Definition find_all (name : string) (doc : t) : list node :=
  flat_map (tags (fun n _ => String.eqb n name)) doc.

(** [soup.find(name, id=v)]: the first such tag, or [None]. *)
Definition find_id (name v : string) (doc : t) : option node :=
  hd_error
    (flat_map
       (tags (fun n attrs =>
                String.eqb n name &&
                match attr attrs "id" with
                | Some v' => String.eqb v' v
                | None => false
                end))
       doc).

(** The string classes a tag's text is made of. *)
Definition interesting (name : string) : list strkind :=
  if String.eqb name "script" then [KScript]
  else if String.eqb name "style" then [KStylesheet]
  else if String.eqb name "template" then [KTemplate]
  else [KString; KCData].

Fixpoint strings (kinds : list strkind) (n : node) : list string :=
  match n with
  | NText k s => if existsb (strkind_eqb k) kinds then [s] else []
  | NTag _ _ children => flat_map (strings kinds) children
  end.

(** [tag.text] and [tag.get_text()]. *)
Definition get_text (n : node) : string :=
  match n with
  | NText _ s => s
  | NTag name _ children =>
      Str.concat (flat_map (strings (interesting name)) children)
  end.

End Soup.

(* ================================================================= *)
(** ** The Article dataclass *)

Record Article : Type := MkArticle {
  type : pyval;
  postid : pyval;
  title : pyval;
  url : pyval;
  keywords : list string;
  thumbnail : pyval;
  video_duration : pyval;
  word_count : pyval;
  lang : pyval;
  published_time : pyval;
  last_updated : pyval;
  description : pyval;
  author : pyval;
  classes : pyval;
  html : pyval;
  lite_url : pyval
}.

(** [dataclasses.asdict(article)]: the fields in declaration order. *)
Definition asdict (a : Article) : Dict.t :=
  [ ("type", type a);
    ("postid", postid a);
    ("title", title a);
    ("url", url a);
    ("keywords", PList (map PStr (keywords a)));
    ("thumbnail", thumbnail a);
    ("video_duration", video_duration a);
    ("word_count", word_count a);
    ("lang", lang a);
    ("published_time", published_time a);
    ("last_updated", last_updated a);
    ("description", description a);
    ("author", author a);
    ("classes", classes a);
    ("html", html a);
    ("lite_url", lite_url a) ].

(** The names of the declared fields. *)
Definition field_names : list string := map fst (asdict
  (MkArticle PNone PNone PNone PNone [] PNone PNone PNone PNone PNone PNone
             PNone PNone PNone PNone PNone)).

(* ================================================================= *)
(** ** json.dump to a UTF-8 file *)

Module Dump.

(** A text holds a lone surrogate: the lead byte 237 followed by a byte
    from 160 on. Such a text has no UTF-8 encoding. *)
Fixpoint lone_surrogate (s : string) : bool :=
  match s with
  | String a s' =>
      match s' with
      | String b _ =>
          ((N_of_ascii a =? 237) && (160 <=? N_of_ascii b))%N || lone_surrogate s'
      | EmptyString => false
      end
  | EmptyString => false
  end.

(** The number of decimal digits of an integer. *)
Definition int_digits (z : Z) : nat :=
  String.length (NilEmpty.string_of_uint (N.to_uint (Z.abs_N z))).

Definition over_digit_limit (py : interp) (digits : nat) : bool :=
  ((640 <? digits) && (0 <? int_max_str_digits py)
   && (int_max_str_digits py <? digits))%nat.

(** The message of the interpreter also names the character and its
    position. *)
Definition surrogate_error : exn :=
  UnicodeEncodeError "'utf-8' codec can't encode character: surrogates not allowed".

Definition digit_error (py : interp) : exn :=
  ValueError ("Exceeds the limit (" ++ Str.of_nat (int_max_str_digits py)
              ++ " digits) for integer string conversion; "
              ++ "use sys.set_int_max_str_digits() to increase the limit")%string.

Definition depth_error : exn :=
  RecursionError "maximum recursion depth exceeded".

Definition text_error (s : string) : option exn :=
  if lone_surrogate s then Some surrogate_error else None.

(** The first of two outcomes that is an exception. *)
Definition first_error (a b : option exn) : option exn :=
  match a with
  | Some e => Some e
  | None => b
  end.

(** The exception that writing [v] raises, if any, in the order the
    encoder writes: [depth] lists and mappings can still be entered. *)
Fixpoint error (py : interp) (depth : nat) (v : pyval) : option exn :=
  match v with
  | PNone | PBool _ | PFloat _ => None
  | PInt z => if over_digit_limit py (int_digits z) then Some (digit_error py) else None
  | PStr s => text_error s
  | PList l =>
      match depth with
      | O => Some depth_error
      | S depth' =>
          (fix items (l : list pyval) : option exn :=
             match l with
             | [] => None
             | x :: rest => first_error (error py depth' x) (items rest)
             end) l
      end
  | PDict d =>
      match depth with
      | O => Some depth_error
      | S depth' =>
          (fix items (d : list (string * pyval)) : option exn :=
             match d with
             | [] => None
             | (k, x) :: rest =>
                 first_error (text_error k)
                   (first_error (error py depth' x) (items rest))
             end) d
      end
  end.

End Dump.

(** The exception [json.dump(value, f, ensure_ascii=False, indent=4)]
    raises, if any, for the list of records [value]: the list and the
    records can always be entered. *)
Definition dump_error (py : interp) (value : pyval) : option exn :=
  Dump.error py (2 + encode_depth py) value.

(** What a file holds: the whole dump of a value, or the beginning of it,
    left behind by a dump that raised. *)
Inductive file_content : Type :=
| Dumped (value : pyval)
| Truncated (value : pyval).

(* ================================================================= *)
(** ** Effects: fetches, printed lines, files *)

(** What a run does to the outside: the URLs requested, the lines printed
    and the files in the working directory. *)
Record state : Type := MkState {
  fetched : list string;
  stdout : list string;
  files : list (string * file_content)
}.

Definition initial : state := MkState [] [] [].

(** A computation: a result or an exception, and the state it leaves. *)
Definition M (A : Type) : Type := state -> result A * state.

Definition ret (A : Type) (a : A) : M A := fun st => (Ok a, st).

Definition raise (A : Type) (e : exn) : M A := fun st => (Raise e, st).
Arguments raise {A} e.

Definition bind (A B : Type) (m : M A) (k : A -> M B) : M B :=
  fun st =>
    match m st with
    | (Ok a, st') => k a st'
    | (Raise e, st') => (Raise e, st')
    end.

(** [try: m  except Exception as e: h e]. *)
Definition try_except (A : Type) (m : M A) (h : exn -> M A) : M A :=
  fun st =>
    match m st with
    | (Ok a, st') => (Ok a, st')
    | (Raise e, st') => h e st'
    end.

Definition lift (A : Type) (r : result A) : M A := fun st => (r, st).

Declare Scope monad_scope.
Delimit Scope monad_scope with monad.
Notation "x <- m ;; k" := (bind m (fun x => k))
  (at level 61, m at next level, right associativity) : monad_scope.
Notation "m ;;; k" := (bind m (fun _ => k))
  (at level 61, right associativity) : monad_scope.
Local Open Scope monad_scope.

Definition print (line : string) : M unit :=
  fun st => (Ok tt, MkState (fetched st) (stdout st ++ [line]) (files st)).

(** [with open(filename, 'w', encoding='utf-8') as f: json.dump(value, f,
    ensure_ascii=False, indent=4)]: the file is created or emptied, then
    written; a dump that raises leaves it cut short. *)
Definition write_json (py : interp) (filename : string) (value : pyval)
  : M unit :=
  fun st =>
    match dump_error py value with
    | None =>
        (Ok tt,
         MkState (fetched st) (stdout st)
           (Dict.set (files st) filename (Dumped value)))
    | Some e =>
        (Raise e,
         MkState (fetched st) (stdout st)
           (Dict.set (files st) filename (Truncated value)))
    end.

(** [for x in xs: body x]. *)
Fixpoint for_each (A : Type) (xs : list A) (body : A -> M unit) : M unit :=
  match xs with
  | [] => ret tt
  | x :: rest => body x ;;; for_each rest body
  end.

(* ================================================================= *)
(** ** The program *)

Section Program.

(** The interpreter that runs the program. *)
Variable py : interp.

(** The world: what [requests.get(url)] and the markup parser give for
    each URL, a parsed document or the exception raised. *)
Variable world : string -> result Soup.t.

(** [BeautifulSoup(requests.get(url).content, 'html.parser')]. *)
Definition get_soup (url : string) : M Soup.t :=
  fun st => (world url, MkState (fetched st ++ [url]) (stdout st) (files st)).

(** *** SitemapParser *)

Definition get_monthly_sitemaps (sitemap_index_url : string) : M (list string) :=
  soup <- get_soup sitemap_index_url ;;
  ret (map Soup.get_text (Soup.find_all "loc" soup)).

Definition get_article_urls (sitemap_url : string) : M (list string) :=
  soup <- get_soup sitemap_url ;;
  ret (map Soup.get_text (Soup.find_all "loc" soup)).

(** *** ArticleScraper *)

(** An exception of [json.loads] other than [json.JSONDecodeError] is
    not caught. *)
Definition extract_metadata (script_content : string) : result pyval :=
  match Re.search py brace_pattern script_content with
  | Some json_data =>
      match json_loads py (Re.group json_data) with
      | Loaded metadata => Ok metadata
      | JSONDecodeError => Ok (PDict [])
      | Raised e => Raise e
      end
  | None => Ok (PDict [])
  end.

(** The part of [scrape_article] after the fetch. *)
Definition article_of_soup (soup : Soup.t) : result Article :=
  let script_tag := Soup.find_id "script" "tawsiyat-metadata" soup in
  match
    match script_tag with
    | Some tag => extract_metadata (Soup.get_text tag)
    | None => Ok (PDict [])
    end
  with
  | Raise e => Raise e
  | Ok metadata =>
  let paragraphs := Soup.find_all "p" soup in
  let content := Str.join (String "010" "") (map Soup.get_text paragraphs) in
  let get k default (k' : pyval -> result Article) :=
    match py_get metadata k default with
    | Ok v => k' v
    | Raise e => Raise e
    end in
  get "type" PNone (fun a_type =>
  get "postid" PNone (fun a_postid =>
  get "title" PNone (fun a_title =>
  get "url" PNone (fun a_url =>
  get "keywords" (PStr "") (fun kw =>
  match py_split_comma kw with
  | Raise e => Raise e
  | Ok a_keywords =>
  get "thumbnail" PNone (fun a_thumbnail =>
  get "video_duration" PNone (fun a_video_duration =>
  get "word_count" PNone (fun a_word_count =>
  get "lang" PNone (fun a_lang =>
  get "published_time" PNone (fun a_published_time =>
  get "last_updated" PNone (fun a_last_updated =>
  get "description" PNone (fun a_description =>
  get "author" PNone (fun a_author =>
  get "classes" (PList []) (fun a_classes =>
  get "html" (PStr "") (fun a_html =>
  get "lite_url" PNone (fun a_lite_url =>
  Ok (MkArticle a_type a_postid a_title a_url a_keywords a_thumbnail
        a_video_duration a_word_count a_lang a_published_time a_last_updated
        a_description a_author a_classes a_html a_lite_url))))))))))))
  end)))))
  end.

Definition scrape_article (url : string) : M Article :=
  soup <- get_soup url ;;
  lift (article_of_soup soup).

(** *** FileUtility *)

Definition save_to_json (data : list Article) (year month : string) : M unit :=
  let filename := ("articles_" ++ year ++ "_" ++ month ++ ".json")%string in
  write_json py filename (PList (map (fun article => PDict (asdict article)) data)).

(** *** main *)

(** The loop over the article URLs of a month, from counter [i] and the
    articles collected so far. *)
Fixpoint scrape_loop (article_urls : list string) (i : nat)
    (articles : list Article) : M (list Article) :=
  match article_urls with
  | [] => ret articles
  | url :: rest =>
      if (10 <? i)%nat then ret articles
      else
        articles' <-
          try_except
            (article <- scrape_article url ;;
             ret (articles ++ [article]))
            (fun e =>
               print ("Failed to scrape " ++ url ++ ": " ++ exn_str e)%string ;;;
               ret articles) ;;
        scrape_loop rest (S i) articles'
  end.

(** The body of the loop over the monthly sitemaps. *)
Definition process_sitemap (sitemap_url : string) : M unit :=
  match Re.search py sitemap_pattern sitemap_url with
  | Some m =>
      match Re.groups m with
      | [year; month] =>
          print (String "010" "Processing articles for " ++ year ++ "-" ++ month ++ "...")%string ;;;
          article_urls <- get_article_urls sitemap_url ;;
          articles <- scrape_loop article_urls 0 [] ;;
          save_to_json articles year month ;;;
          print ("Saved articles for " ++ year ++ "-" ++ month ++ ".")%string
      | _ => raise (ValueError "not enough values to unpack")
      end
  | None => ret tt
  end.

Definition sitemap_index_url : string :=
  "https://www.almayadeen.net/sitemaps/all.xml".

Definition main : M unit :=
  print "Retrieving monthly sitemaps..." ;;;
  monthly_sitemaps <- get_monthly_sitemaps sitemap_index_url ;;
  for_each monthly_sitemaps process_sitemap.

End Program.


(* ================================================================= *)
(** ** Reference definitions for the statements *)

(** The text of [s] up to and including its last [c], if [c] occurs. *)
Fixpoint upto_last (c : ascii) (s : string) : option string :=
  match s with
  | EmptyString => None
  | String a s' =>
      match upto_last c s' with
      | Some t => Some (String a t)
      | None => if Ascii.eqb a c then Some (String a "") else None
      end
  end.

(** The greedy brace span, as the specification words it: from the first
    opening brace of [s] to the last closing brace after it. *)
Fixpoint greedy_brace_span (s : string) : option string :=
  match s with
  | EmptyString => None
  | String a s' =>
      if Ascii.eqb a "{"
      then option_map (String a) (upto_last "}" s')
      else greedy_brace_span s'
  end.

(** [c in s]. *)
Fixpoint occurs (c : ascii) (s : string) : bool :=
  match s with
  | EmptyString => false
  | String a s' => Ascii.eqb a c || occurs c s'
  end.

(** The metadata [scrape_article] works from (lines 58-59). *)
Definition metadata_of (py : interp) (soup : Soup.t) : result pyval :=
  match Soup.find_id "script" "tawsiyat-metadata" soup with
  | Some tag => extract_metadata py (Soup.get_text tag)
  | None => Ok (PDict [])
  end.

(** The record built from a metadata dictionary and a keyword list. *)
Definition record_of (d : Dict.t) (kws : list string) : Article :=
  MkArticle
    (Dict.get d "type" PNone)
    (Dict.get d "postid" PNone)
    (Dict.get d "title" PNone)
    (Dict.get d "url" PNone)
    kws
    (Dict.get d "thumbnail" PNone)
    (Dict.get d "video_duration" PNone)
    (Dict.get d "word_count" PNone)
    (Dict.get d "lang" PNone)
    (Dict.get d "published_time" PNone)
    (Dict.get d "last_updated" PNone)
    (Dict.get d "description" PNone)
    (Dict.get d "author" PNone)
    (Dict.get d "classes" (PList []))
    (Dict.get d "html" (PStr ""))
    (Dict.get d "lite_url" PNone).

(** The record of a page without metadata. *)
Definition default_article : Article :=
  MkArticle PNone PNone PNone PNone [""] PNone PNone PNone PNone PNone PNone
            PNone PNone (PList []) (PStr "") PNone.

(** The metadata script element, with text [text]. *)
Definition metadata_script (text : string) : Soup.node :=
  Soup.NTag "script" [("id", "tawsiyat-metadata"); ("type", "text/tawsiyat")]
    [Soup.NText Soup.KScript text].

Definition paragraph (text : string) : Soup.node :=
  Soup.NTag "p" [] [Soup.NText Soup.KString text].

(** *** An interpreter for the examples *)

(** Some of the decimal digits beyond ASCII: Arabic-Indic, extended
    Arabic-Indic, Devanagari and fullwidth digits. *)
Definition sample_nd (cp : N) : bool :=
  ((1632 <=? cp) && (cp <=? 1641) || (1776 <=? cp) && (cp <=? 1785)
   || (2406 <=? cp) && (cp <=? 2415) || (65296 <=? cp) && (cp <=? 65305))%N.

(** The default digit limit, and room for 990 nested containers. *)
Definition sample_interp : interp := MkInterp sample_nd 4300 990 990.

(** *** Example pages *)

(** A metadata text with all sixteen keys, of the declared types. *)
Definition full_metadata_text : string :=
  Str.js ("{'type': 'article', 'postid': '4711', 'title': 'T', "
       ++ "'url': 'https://www.almayadeen.net/news/t', 'keywords': 'a,b', "
       ++ "'thumbnail': 'https://img/t.jpg', 'video_duration': null, "
       ++ "'word_count': '120', 'lang': 'ar', "
       ++ "'published_time': '2023-07-01T10:00:00', "
       ++ "'last_updated': '2023-07-02T11:30:00', 'description': 'D', "
       ++ "'author': 'A', 'classes': [{'mapping': 'category', 'value': 'news'}], "
       ++ "'html': '<p>body</p>', 'lite_url': null}")%string.

Definition full_metadata : Dict.t :=
  [ ("type", PStr "article"); ("postid", PStr "4711"); ("title", PStr "T");
    ("url", PStr "https://www.almayadeen.net/news/t");
    ("keywords", PStr "a,b");
    ("thumbnail", PStr "https://img/t.jpg"); ("video_duration", PNone);
    ("word_count", PStr "120"); ("lang", PStr "ar");
    ("published_time", PStr "2023-07-01T10:00:00");
    ("last_updated", PStr "2023-07-02T11:30:00"); ("description", PStr "D");
    ("author", PStr "A");
    ("classes", PList [PDict [("mapping", PStr "category"); ("value", PStr "news")]]);
    ("html", PStr "<p>body</p>"); ("lite_url", PNone) ].

(** A metadata text whose keywords entry is null, and one whose keywords
    entry is an array. *)
Definition null_keywords_text : string :=
  Str.js "{'title': 'T', 'keywords': null}".

Definition array_keywords_text : string :=
  Str.js "{'title': 'T', 'keywords': ['a', 'b']}".

(** A metadata text that is not JSON (a key without quotes). *)
Definition malformed_text : string :=
  Str.js "var meta = {title: 'T', 'keywords': 'a,b'};".

Definition keywords_text : string :=
  Str.js "{'title': 'T', 'keywords': 'a,b,c'}".

(** A metadata text that is not JSON (the object is not closed where it
    should be) and in which an integer of 5000 digits comes first. *)
Definition long_integer_text : string :=
  (Str.js "{'n': " ++ Str.repeat "1" 5000 ++ " oops}")%string.

(** A metadata text whose title is a lone surrogate, written as an
    escape. *)
Definition surrogate_text : string :=
  Str.js "{'title': '\ud800'}".

(** A page without the metadata script: paragraphs and another script. *)
Definition plain_page : Soup.t :=
  [ Soup.NTag "html" []
      [ Soup.NTag "head" []
          [ Soup.NTag "script" [("id", "analytics")]
              [Soup.NText Soup.KScript "{'type': 'article'}"] ];
        Soup.NTag "body" [] [paragraph "first"; paragraph "second"] ] ].

(** A page with the metadata script in its head and paragraphs [ps] in
    its body. *)
Definition article_page (text : string) (ps : list string) : Soup.t :=
  [ Soup.NTag "html" []
      [ Soup.NTag "head" [] [metadata_script text];
        Soup.NTag "body" [] (map paragraph ps) ] ].

(** The number of group boundaries of a pattern. *)
Fixpoint count_marks (r : Re.regex) : nat :=
  match r with
  | [] => 0
  | Re.Mark :: r' => S (count_marks r')
  | _ :: r' => count_marks r'
  end.

(** The class [c] does not accept the ASCII character [a]. *)
Definition class_rejects (c : Re.cclass) (a : ascii) : bool :=
  match c with
  | Re.CLit b => negb (Ascii.eqb a b)
  | Re.CAny => false
  | Re.CDigit => negb (Json.is_digit a)
  end.

(** [a] is an ASCII character that no class of [r] accepts. *)
Fixpoint rejects (a : ascii) (r : Re.regex) : bool :=
  match r with
  | [] => (N_of_ascii a <? 128)%N
  | Re.One c :: r' => class_rejects c a && rejects a r'
  | Re.Rep c _ _ :: r' => class_rejects c a && rejects a r'
  | Re.Mark :: r' => rejects a r'
  end.

(** [hi] allows [k] repetitions. *)
Definition within (hi : option nat) (k : nat) : Prop :=
  match hi with
  | Some h => k <= h
  | None => True
  end.

(** *** The driver's loop, as the specification words it *)

(** What extracting [url] gives in [world]. *)
Definition outcome (py : interp) (world : string -> result Soup.t)
    (url : string) : result Article :=
  match world url with
  | Ok soup => article_of_soup py soup
  | Raise e => Raise e
  end.

(** The records of the URLs whose extraction succeeds, in order. *)
Definition successes (py : interp) (world : string -> result Soup.t)
    (urls : list string) : list Article :=
  flat_map (fun u => match outcome py world u with
                     | Ok a => [a]
                     | Raise _ => []
                     end) urls.

(** The lines printed for the URLs whose extraction raises, in order. *)
Definition failure_lines (py : interp) (world : string -> result Soup.t)
    (urls : list string) : list string :=
  flat_map (fun u => match outcome py world u with
                     | Ok _ => []
                     | Raise e => [("Failed to scrape " ++ u ++ ": " ++ exn_str e)%string]
                     end) urls.

(** The value [save_to_json] hands to [json.dump]. *)
Definition dumped (articles : list Article) : pyval :=
  PList (map (fun article => PDict (asdict article)) articles).

(** *** A world for the end-to-end scenario: one monthly sitemap listing
    fifteen articles, of which those at indices 5 and 9 fail to fetch. *)

Definition loc (u : string) : Soup.node :=
  Soup.NTag "loc" [] [Soup.NText Soup.KString u].

Definition month_url : string :=
  "https://www.almayadeen.net/sitemaps/sitemap-2023-7.xml".

Definition article_names : list string :=
  ["a00"; "a01"; "a02"; "a03"; "a04"; "a05"; "a06"; "a07"; "a08"; "a09";
   "a10"; "a11"; "a12"; "a13"; "a14"].

Definition article_url (name : string) : string :=
  ("https://www.almayadeen.net/news/" ++ name)%string.

Definition scenario_text (name : string) : string :=
  (String "{" (String Str.dquote "title") ++ String Str.dquote ": "
   ++ String Str.dquote name ++ String Str.dquote "}")%string.

Definition scenario_world (u : string) : result Soup.t :=
  if String.eqb u sitemap_index_url then
    Ok [Soup.NTag "sitemapindex" [] [Soup.NTag "sitemap" [] [loc month_url]]]
  else if String.eqb u month_url then
    Ok [Soup.NTag "urlset" []
          (map (fun n => Soup.NTag "url" [] [loc (article_url n)]) article_names)]
  else if String.eqb u (article_url "a05") || String.eqb u (article_url "a09")
  then Raise (RequestException "connection timed out")
  else
    match find (fun n => String.eqb u (article_url n)) article_names with
    | Some n => Ok (article_page (scenario_text n) ["text of"; n])
    | None => Raise (RequestException "no such host")
    end.

Definition titled (name : string) : Article :=
  record_of [("title", PStr name)] [""].

(** *** Further reference definitions *)

(** [s] is exactly [n] decimal digit characters. *)
Definition is_digits (py : interp) (n : nat) (s : string) : bool :=
  match Re.skip py Re.CDigit n s with
  | Some (_, EmptyString) => true
  | _ => false
  end.

(** The text the sitemap pattern matches, for a year and a month. *)
Definition month_file (year month : string) : string :=
  ("sitemap-" ++ year ++ "-" ++ month ++ ".xml")%string.

(** The name of the file [save_to_json] writes. *)
Definition output_name (year month : string) : string :=
  ("articles_" ++ year ++ "_" ++ month ++ ".json")%string.

(** The number of occurrences of [c] in [s]. *)
Fixpoint count_char (c : ascii) (s : string) : nat :=
  match s with
  | EmptyString => 0
  | String a s' => (if Ascii.eqb a c then 1 else 0) + count_char c s'
  end.

(** The value of a field whose key the metadata lacks. *)
Definition default_of (field : string) : pyval :=
  if String.eqb field "classes" then PList []
  else if String.eqb field "html" then PStr ""
  else PNone.

(** A sitemap document listing [urls], one [url/loc] entry each. *)
Definition urlset (urls : list string) : Soup.t :=
  [Soup.NTag "urlset" []
     (map (fun u => Soup.NTag "url" [] [loc u]) urls)].

(** Two more monthly sitemaps, which the scenario's world cannot fetch,
    and the state the scenario is in after its one good month. *)
Definition august_url : string :=
  "https://www.almayadeen.net/sitemaps/sitemap-2023-8.xml".

Definition september_url : string :=
  "https://www.almayadeen.net/sitemaps/sitemap-2023-9.xml".

Definition after_july : state :=
  snd (for_each [month_url] (process_sitemap sample_interp scenario_world) initial).

(** The keywords text with one more key, which no field reads. *)
Definition extra_key_text : string :=
  Str.js "{'title': 'T', 'keywords': 'a,b,c', 'tracking': {'id': 7}}".

(** A world whose one monthly sitemap lists two articles, neither of which
    can be fetched. *)
Definition barren_world (u : string) : result Soup.t :=
  if String.eqb u month_url
  then Ok (urlset [article_url "a00"; article_url "a01"])
  else Raise (RequestException "connection refused").

(** The monthly sitemap URLs the driver processes: those the pattern
    matches. *)
Definition is_month_url (py : interp) (u : string) : bool :=
  match Re.search py sitemap_pattern u with
  | Some _ => true
  | None => false
  end.

(** *** Sitemap documents *)

(** [lists_locs nodes urls]: in document order, the [loc] elements of
    [nodes] hold the strings [urls], one string each, and no [loc] element
    lies in another; anything else may surround them: other elements,
    attributes, white space, comments, declarations. *)
Inductive lists_locs : list Soup.node -> list string -> Prop :=
| LL_nil : lists_locs [] []
| LL_text k s rest urls :
    lists_locs rest urls -> lists_locs (Soup.NText k s :: rest) urls
| LL_loc attrs k u rest urls :
    k = Soup.KString \/ k = Soup.KCData ->
    lists_locs rest urls ->
    lists_locs (Soup.NTag "loc" attrs [Soup.NText k u] :: rest) (u :: urls)
| LL_tag name attrs children rest urls1 urls2 :
    name <> "loc" ->
    lists_locs children urls1 ->
    lists_locs rest urls2 ->
    lists_locs (Soup.NTag name attrs children :: rest) (urls1 ++ urls2).

(** A sitemap as the parser gives it: a declaration, white space between
    the elements, and a [lastmod] beside each [loc]. *)
Definition newline : Soup.node := Soup.NText Soup.KString (String "010" "  ").

Definition url_entry (u : string) : Soup.node :=
  Soup.NTag "url" []
    [ newline; Soup.NTag "loc" [] [Soup.NText Soup.KString u]; newline;
      Soup.NTag "lastmod" [] [Soup.NText Soup.KString "2023-07-01"]; newline ].

Definition parsed_sitemap (urls : list string) : Soup.t :=
  [ Soup.NText Soup.KOther "xml version='1.0' encoding='UTF-8'";
    newline;
    Soup.NTag "urlset" [("xmlns", "http://www.sitemaps.org/schemas/sitemap/0.9")]
      (newline :: flat_map (fun u => [url_entry u; newline]) urls) ].

(** *** Worlds for the ways a run can fail *)

(** One monthly sitemap with one article, whose title is a lone
    surrogate. *)
Definition surrogate_world (u : string) : result Soup.t :=
  if String.eqb u month_url then Ok (urlset [article_url "a00"])
  else if String.eqb u (article_url "a00")
  then Ok (article_page surrogate_text ["text"])
  else Raise (RequestException "no such host").

(** A monthly sitemap whose year and month are written in Arabic-Indic
    digits (2023 and 7), two bytes each. *)
Definition arabic_digit (d : nat) : string :=
  String "217" (String (ascii_of_nat (160 + d)) "").

Definition arabic_year : string :=
  (arabic_digit 2 ++ arabic_digit 0 ++ arabic_digit 2 ++ arabic_digit 3)%string.

Definition arabic_month_url : string :=
  ("https://www.almayadeen.net/sitemaps/sitemap-" ++ arabic_year ++ "-"
   ++ arabic_digit 7 ++ ".xml")%string.

(** A URL that ends like the scenario's monthly sitemap and holds the
    file name of another month before. *)
Definition two_months_url : string :=
  "https://h/sitemap-1999-1.xml/sitemap-2023-7.xml".

(** The records of a month whose sitemap is [soup]: those of the first
    eleven URLs it lists whose extraction succeeds. *)
Definition month_records (py : interp) (world : string -> result Soup.t)
    (soup : Soup.t) : list Article :=
  successes py world (firstn 11 (map Soup.get_text (Soup.find_all "loc" soup))).

(** The sitemap [u] can be fetched and the dump of its records does not
    raise. *)
Definition month_ok (py : interp) (world : string -> result Soup.t)
    (u : string) : Prop :=
  exists soup,
    world u = Ok soup /\ dump_error py (dumped (month_records py world soup)) = None.

(** *** Worlds with a sitemap index *)

(** A sitemap index listing [urls]. *)
Definition index_of (urls : list string) : Soup.t :=
  [Soup.NTag "sitemapindex" []
     (map (fun u => Soup.NTag "sitemap" [] [loc u]) urls)].

(** The world [world] with a sitemap index listing [urls]. *)
Definition with_index (urls : list string) (world : string -> result Soup.t)
    (u : string) : result Soup.t :=
  if String.eqb u sitemap_index_url then Ok (index_of urls) else world u.

(** A month written in Arabic-Indic digits, with no article. *)
Definition arabic_world : string -> result Soup.t :=
  with_index [arabic_month_url]
    (fun u => if String.eqb u arabic_month_url then Ok (urlset [])
              else Raise (RequestException "no such host")).

(** The name of the file of that month. *)
Definition arabic_file : string :=
  ("articles_" ++ arabic_year ++ "_" ++ arabic_digit 7 ++ ".json")%string.

(** Splitting on the first character of a text, when the code matches it
    against a literal character. *)
Ltac char_cases c lit :=
  let E := fresh "E" in
  destruct (Ascii.eqb c lit) eqn:E;
  [ apply Ascii.eqb_eq in E; subst c
  | destruct c as [[] [] [] [] [] [] [] []]; try discriminate E; clear E ].

(* ================================================================= *)
(** * Properties *)

Unset Implicit Arguments.

(** ** Strings *)

Lemma drop_nil n : Str.drop n "" = "".
Proof. destruct n; reflexivity. Qed.

Lemma take_nil n : Str.take n "" = "".
Proof. destruct n; reflexivity. Qed.

Lemma drop_drop n m s : Str.drop n (Str.drop m s) = Str.drop (m + n) s.
Proof.
  revert s; induction m as [|m IH]; intros s; simpl; [reflexivity|].
  destruct s as [|a s]; [now rewrite drop_nil | apply IH].
Qed.

Lemma drop_succ n s a s' :
  Str.drop n s = String a s' -> Str.drop (S n) s = s'.
Proof.
  revert s; induction n as [|n IH]; intros s H; simpl in *.
  - now subst s.
  - destruct s as [|b s]; [discriminate | now apply IH].
Qed.

Lemma take_length s : Str.take (String.length s) s = s.
Proof. induction s as [|a s IH]; simpl; [reflexivity | now rewrite IH]. Qed.

Lemma split_nonempty c s : Str.split c s <> [].
Proof.
  induction s as [|a s IH]; simpl; [discriminate|].
  destruct (Ascii.eqb a c); [discriminate|].
  destruct (Str.split c s); [contradiction | discriminate].
Qed.

(** ** The matcher *)

Lemma try_down_ext A (f g : nat -> option A) lo : forall n,
  (forall k, k <= n -> f k = g k) -> Re.try_down f lo n = Re.try_down g lo n.
Proof.
  induction n as [|n IH]; intros H; cbn [Re.try_down].
  - now rewrite (H 0 (le_n 0)).
  - rewrite (H (S n) (le_n _)). rewrite IH; [reflexivity|].
    intros k Hk. apply H. lia.
Qed.

Lemma skip_any py : forall k s,
  k <= String.length s -> Re.skip py Re.CAny k s = Some (k, Str.drop k s).
Proof.
  induction k as [|k IH]; intros s H; [reflexivity|].
  destruct s as [|a s]; [cbn in H; lia|].
  cbn [Re.skip Re.step Str.drop]. rewrite IH by (cbn in H; lia). reflexivity.
Qed.

Lemma run_length_any py s :
  Re.run_length py Re.CAny None s = String.length s.
Proof.
  unfold Re.run_length.
  induction s as [|a s IH]; [reflexivity|].
  cbn [String.length Re.run_length_upto Re.step option_map]. now rewrite IH.
Qed.

(** ** The brace pattern *)

Lemma upto_last_none_tail c a s :
  upto_last c (String a s) = None -> upto_last c s = None.
Proof. simpl. destruct (upto_last c s); [discriminate | reflexivity]. Qed.

Lemma upto_last_take_S c k : forall s,
  upto_last c (Str.take (S k) s) =
  match Str.drop k s with
  | String a _ =>
      if Ascii.eqb a c then Some (Str.take (S k) s)
      else upto_last c (Str.take k s)
  | EmptyString => upto_last c (Str.take k s)
  end.
Proof.
  induction k as [|k IH]; intros s.
  - destruct s as [|a s]; simpl; [reflexivity|].
    destruct (Ascii.eqb a c); reflexivity.
  - destruct s as [|a s]; [reflexivity|].
    change (Str.take (S (S k)) (String a s)) with (String a (Str.take (S k) s)).
    change (Str.drop (S k) (String a s)) with (Str.drop k s).
    change (Str.take (S k) (String a s)) with (String a (Str.take k s)) at 2.
    cbn [upto_last]. rewrite IH.
    destruct (Str.drop k s) as [|b r].
    + reflexivity.
    + destruct (Ascii.eqb b c); reflexivity.
Qed.

Lemma take_all n s : String.length s <= n -> Str.take n s = s.
Proof.
  revert n; induction s as [|a s IH]; intros n H.
  - apply take_nil.
  - destruct n as [|n]; simpl in *; [lia|]. rewrite IH; [reflexivity | lia].
Qed.

Lemma take_drop_length k : forall s a r,
  Str.drop k s = String a r -> String.length (Str.take (S k) s) = S k.
Proof.
  induction k as [|k IH]; intros s a r H.
  - simpl in H. subst s. reflexivity.
  - destruct s as [|b s]; [discriminate|].
    change (Str.take (S (S k)) (String b s)) with (String b (Str.take (S k) s)).
    simpl String.length. f_equal. eapply IH. exact H.
Qed.

Lemma upto_last_prefix c : forall s t,
  upto_last c s = Some t -> Str.take (String.length t) s = t.
Proof.
  induction s as [|a s IH]; intros t H; simpl in H; [discriminate|].
  destruct (upto_last c s) as [t'|].
  - injection H as <-. simpl. f_equal. now apply IH.
  - destruct (Ascii.eqb a c); [|discriminate]. injection H as <-. reflexivity.
Qed.

Lemma greedy_none_of_upto_last : forall s,
  upto_last "}" s = None -> greedy_brace_span s = None.
Proof.
  induction s as [|a s IH]; intros H; [reflexivity|].
  pose proof (upto_last_none_tail _ _ _ H) as Ht.
  simpl. rewrite Ht. destruct (Ascii.eqb a "{"); [reflexivity | now apply IH].
Qed.

Lemma match_here_lit py b r a s pos :
  Re.match_here py (Re.One (Re.CLit b) :: r) (String a s) pos =
  if Ascii.eqb a b then Re.match_here py r s (pos + 1) else None.
Proof. cbn [Re.match_here Re.step]. destruct (Ascii.eqb a b); reflexivity. Qed.

Lemma match_here_rep py c lo hi r s pos :
  Re.match_here py (Re.Rep c lo hi :: r) s pos =
  Re.try_down
    (fun k => match Re.skip py c k s with
              | Some (w, rest) => Re.match_here py r rest (pos + w)
              | None => None
              end)
    lo (Re.run_length py c hi s).
Proof. reflexivity. Qed.

Lemma match_here_close py s pos :
  Re.match_here py [Re.One (Re.CLit "}")] s pos =
  match s with
  | String a _ => if Ascii.eqb a "}" then Some (pos + 1, []) else None
  | EmptyString => None
  end.
Proof.
  cbn [Re.match_here Re.step]. destruct s as [|a r]; [reflexivity|].
  destruct (Ascii.eqb a "}"); reflexivity.
Qed.

(** Backtracking from the longest candidate finds the last closing brace. *)
Lemma close_try_down py s p : forall k,
  Re.try_down
    (fun j => Re.match_here py [Re.One (Re.CLit "}")] (Str.drop j s) (p + j)) 0 k
  = match upto_last "}" (Str.take (S k) s) with
    | Some t => Some (p + String.length t, [])
    | None => None
    end.
Proof.
  induction k as [|k IH].
  - cbn [Re.try_down Nat.ltb Nat.leb Str.drop]. rewrite match_here_close.
    destruct s as [|a r]; [reflexivity|].
    cbn [Str.take upto_last].
    destruct (Ascii.eqb a "}"); [|reflexivity].
    cbn [String.length]. do 2 f_equal. lia.
  - cbn [Re.try_down Nat.ltb Nat.leb]. rewrite IH, (upto_last_take_S "}" (S k) s).
    rewrite match_here_close.
    destruct (Str.drop (S k) s) as [|a r] eqn:Hd; [reflexivity|].
    destruct (Ascii.eqb a "}"); [|reflexivity].
    rewrite (take_drop_length _ _ _ _ Hd). do 2 f_equal. lia.
Qed.

Lemma match_here_brace py a s pos :
  Re.match_here py brace_pattern (String a s) pos =
  if Ascii.eqb a "{"
  then match upto_last "}" s with
       | Some t => Some (pos + 1 + String.length t, [])
       | None => None
       end
  else None.
Proof.
  unfold brace_pattern. rewrite match_here_lit.
  destruct (Ascii.eqb a "{"); [|reflexivity].
  rewrite match_here_rep, run_length_any.
  rewrite (try_down_ext _ _
             (fun j => Re.match_here py [Re.One (Re.CLit "}")] (Str.drop j s)
                         (pos + 1 + j))).
  - rewrite close_try_down. rewrite take_all by lia. reflexivity.
  - intros k Hk. now rewrite skip_any.
Qed.

Lemma slice_drop pos n whole s :
  Str.drop pos whole = s -> Str.slice pos (pos + n) whole = Str.take n s.
Proof.
  intros <-. unfold Str.slice. f_equal. lia.
Qed.

(** The regular expression search computes the greedy brace span. *)
Lemma search_from_brace py whole : forall s pos,
  Str.drop pos whole = s ->
  option_map Re.group (Re.search_from py brace_pattern whole s pos)
  = greedy_brace_span s.
Proof.
  induction s as [|a s IH]; intros pos Hd.
  - reflexivity.
  - cbn [Re.search_from greedy_brace_span]. rewrite match_here_brace.
    pose proof (IH (S pos) (drop_succ _ _ _ _ Hd)) as IH'.
    destruct (Ascii.eqb a "{") eqn:Ea; [|exact IH'].
    destruct (upto_last "}" s) as [t|] eqn:Hu.
    + cbn [option_map]. unfold Re.group. cbn [Re.m_start Re.m_end Re.m_string].
      replace (pos + 1 + String.length t) with (pos + S (String.length t)) by lia.
      rewrite (slice_drop _ _ _ _ Hd). cbn [Str.take].
      now rewrite (upto_last_prefix _ _ _ Hu).
    + rewrite IH'. cbn [option_map]. now apply greedy_none_of_upto_last.
Qed.

Lemma search_brace py s :
  option_map Re.group (Re.search py brace_pattern s) = greedy_brace_span s.
Proof. unfold Re.search. now apply search_from_brace. Qed.

Lemma greedy_brace_span_head : forall s t,
  greedy_brace_span s = Some t -> exists r, t = String "{" r.
Proof.
  induction s as [|a s IH]; intros t H; [discriminate|].
  simpl in H. destruct (Ascii.eqb a "{") eqn:Ea.
  - apply Ascii.eqb_eq in Ea. subst a.
    destruct (upto_last "}" s) as [u|]; [|discriminate].
    injection H as <-. now exists u.
  - now apply IH.
Qed.

Lemma upto_last_snoc c : forall b,
  upto_last c (b ++ String c "") = Some (b ++ String c "")%string.
Proof.
  induction b as [|a b IH]; simpl.
  - now rewrite Ascii.eqb_refl.
  - now rewrite IH.
Qed.

(** A text that opens with a brace and closes with one is its own span. *)
Lemma greedy_brace_span_object body :
  greedy_brace_span (String "{" (body ++ String "}" ""))
  = Some (String "{" (body ++ String "}" "")).
Proof. simpl. now rewrite upto_last_snoc. Qed.

(** ** The decoder *)

Lemma object_loop_dict py : forall fuel depth s pairs v r,
  Json.object_loop py fuel depth s pairs = Json.POk (v, r) ->
  exists d, v = PDict d.
Proof.
  induction fuel as [|f IH]; intros depth s pairs v r H; [discriminate|].
  cbn [Json.object_loop] in H.
  destruct s as [|q s1]; [discriminate|].
  destruct (Ascii.eqb q Str.dquote); [|discriminate].
  destruct (Json.scanstring _ s1) as [[key s2]| | |]; try discriminate.
  destruct (Json.skip_ws s2) as [|c s3]; [discriminate|].
  char_cases c ":"%char; try discriminate H.
  destruct (Json.scan_once py f depth _) as [[v' s4]| | |]; try discriminate.
  destruct (Json.skip_ws s4) as [|c s5]; [discriminate|].
  char_cases c "}"%char;
    [ injection H as <- _; eauto
    | try discriminate H; eapply IH; exact H .. ].
Qed.

Lemma scan_once_brace_dict py fuel depth s v r :
  Json.scan_once py fuel depth (String "{" s) = Json.POk (v, r) ->
  exists d, v = PDict d.
Proof.
  destruct fuel as [|f]; [discriminate|].
  cbn [Json.scan_once].
  change (Ascii.eqb "{" Str.dquote) with false.
  change (Ascii.eqb "{" "{") with true. cbv iota.
  destruct depth as [|depth']; [discriminate|].
  intros H.
  destruct (Json.skip_ws s) as [|c s2] eqn:Es.
  - now apply object_loop_dict in H.
  - char_cases c "}"%char;
      [ injection H as <- _; eauto
      | now apply object_loop_dict in H .. ].
Qed.

Lemma json_loads_brace_dict py s v :
  json_loads py (String "{" s) = Loaded v -> exists d, v = PDict d.
Proof.
  unfold json_loads, Json.loads, Json.loads_fuel.
  change (Json.skip_ws (String "{" s)) with (String "{" s).
  destruct (Json.scan_once _ _ _ _) as [[v' r]| | |] eqn:E; try discriminate.
  destruct (Json.skip_ws r); [|discriminate].
  intros H; injection H as <-. eapply scan_once_brace_dict; exact E.
Qed.

(** [extract_metadata] on the greedy brace span. *)
Lemma extract_metadata_span py s :
  extract_metadata py s =
  match greedy_brace_span s with
  | Some t =>
      match json_loads py t with
      | Loaded metadata => Ok metadata
      | JSONDecodeError => Ok (PDict [])
      | Raised e => Raise e
      end
  | None => Ok (PDict [])
  end.
Proof.
  unfold extract_metadata. rewrite <- (search_brace py).
  destruct (Re.search py brace_pattern s); reflexivity.
Qed.

(** When [extract_metadata] returns, it returns a dictionary. *)
Lemma extract_metadata_dict py s v :
  extract_metadata py s = Ok v -> exists d, v = PDict d.
Proof.
  rewrite extract_metadata_span.
  destruct (greedy_brace_span s) as [t|] eqn:E.
  - destruct (greedy_brace_span_head _ _ E) as [r ->].
    destruct (json_loads py (String "{" r)) as [v'| |e] eqn:El.
    + intros H; injection H as <-. now apply json_loads_brace_dict in El.
    + intros H; injection H as <-. eauto.
    + discriminate.
  - intros H; injection H as <-. eauto.
Qed.

Lemma metadata_of_dict py soup v :
  metadata_of py soup = Ok v -> exists d, v = PDict d.
Proof.
  unfold metadata_of.
  destruct (Soup.find_id _ _ soup); [apply extract_metadata_dict|].
  intros H; injection H as <-. eauto.
Qed.

(** ** The decoder never runs out of fuel *)

Lemma skip_ws_length s : String.length (Json.skip_ws s) <= String.length s.
Proof.
  induction s as [|a s IH]; cbn [Json.skip_ws String.length]; [lia|].
  destruct (Json.is_ws a); cbn [String.length]; lia.
Qed.

Lemma strip_prefix_length : forall p s r,
  Json.strip_prefix p s = Some r ->
  String.length s = String.length p + String.length r.
Proof.
  induction p as [|a p IH]; intros s r H; cbn [Json.strip_prefix] in H.
  - now injection H as ->.
  - destruct s as [|b s]; [discriminate|].
    destruct (Ascii.eqb a b); [|discriminate].
    cbn [String.length]. rewrite (IH _ _ H). lia.
Qed.

Lemma hex4_length s cp r :
  Json.hex4 s = Some (cp, r) -> String.length s = 4 + String.length r.
Proof.
  unfold Json.hex4.
  destruct s as [|a [|b [|c [|d rest]]]]; try discriminate.
  destruct (Json.hex_val a), (Json.hex_val b), (Json.hex_val c),
    (Json.hex_val d); try discriminate.
  intros H; injection H as _ <-. reflexivity.
Qed.

Lemma on_ok_fuel A B (x : Json.presult (A * string)) (f : A -> B) :
  Json.on_ok x f = Json.PFuel -> x = Json.PFuel.
Proof. destruct x as [[a r]| | |]; try discriminate; reflexivity. Qed.

Lemma on_ok_ok A B (x : Json.presult (A * string)) (f : A -> B) y r :
  Json.on_ok x f = Json.POk (y, r) -> exists a, x = Json.POk (a, r).
Proof.
  destruct x as [[a r']| | |]; try discriminate.
  intros H; injection H as _ <-. eauto.
Qed.

Lemma scanstring_rest : forall fuel s x r,
  Json.scanstring fuel s = Json.POk (x, r) -> String.length r < String.length s.
Proof.
  induction fuel as [|f IH]; intros s x r H; [discriminate|].
  cbn [Json.scanstring] in H.
  destruct s as [|a s1]; [discriminate|]. cbn [String.length].
  destruct (Ascii.eqb a Str.dquote).
  { injection H as _ <-. lia. }
  destruct (Ascii.eqb a "\").
  - destruct s1 as [|e s2]; [discriminate|]. cbn [String.length].
    destruct (Ascii.eqb e "u").
    + destruct (Json.hex4 s2) as [[cp s3]|] eqn:Eh; [|discriminate].
      apply hex4_length in Eh.
      assert (Hplain : forall y,
                 Json.on_ok (Json.scanstring f s3) (append (Json.utf8 cp))
                 = Json.POk (y, r) -> String.length r < S (S (String.length s2))).
      { intros y Hy. apply on_ok_ok in Hy as [z Hz]. apply IH in Hz. lia. }
      destruct (Json.is_high_surrogate cp); [|now apply (Hplain x)].
      destruct (Json.strip_prefix "\u" s3) as [s4|] eqn:Ep;
        [|now apply (Hplain x)].
      destruct (Json.hex4 s4) as [[cp2 s5]|] eqn:Eh2; [|discriminate].
      destruct (Json.is_low_surrogate cp2); [|now apply (Hplain x)].
      apply on_ok_ok in H as [z Hz]. apply IH in Hz.
      apply hex4_length in Eh2. apply strip_prefix_length in Ep.
      cbn [String.length] in Ep. lia.
    + destruct (Json.unescape e); [|discriminate].
      apply on_ok_ok in H as [z Hz]. apply IH in Hz. lia.
  - destruct (nat_of_ascii a <? 32)%nat; [discriminate|].
    apply on_ok_ok in H as [z Hz]. apply IH in Hz. lia.
Qed.

Lemma scanstring_fuel : forall fuel s,
  String.length s < fuel -> Json.scanstring fuel s <> Json.PFuel.
Proof.
  induction fuel as [|f IH]; intros s Hl; [lia|].
  cbn [Json.scanstring].
  destruct s as [|a s1]; [discriminate|]. cbn [String.length] in Hl.
  destruct (Ascii.eqb a Str.dquote); [discriminate|].
  destruct (Ascii.eqb a "\").
  - destruct s1 as [|e s2]; [discriminate|]. cbn [String.length] in Hl.
    destruct (Ascii.eqb e "u").
    + destruct (Json.hex4 s2) as [[cp s3]|] eqn:Eh; [|discriminate].
      apply hex4_length in Eh.
      assert (Hplain :
                Json.on_ok (Json.scanstring f s3) (append (Json.utf8 cp))
                <> Json.PFuel).
      { intros Hy. apply on_ok_fuel in Hy. revert Hy. apply IH. lia. }
      destruct (Json.is_high_surrogate cp); [|exact Hplain].
      destruct (Json.strip_prefix "\u" s3) as [s4|] eqn:Ep; [|exact Hplain].
      destruct (Json.hex4 s4) as [[cp2 s5]|] eqn:Eh2; [|discriminate].
      destruct (Json.is_low_surrogate cp2); [|exact Hplain].
      intros Hy. apply on_ok_fuel in Hy. revert Hy. apply IH.
      apply hex4_length in Eh2. apply strip_prefix_length in Ep.
      cbn [String.length] in Ep. lia.
    + destruct (Json.unescape e); [|discriminate].
      intros Hy. apply on_ok_fuel in Hy. revert Hy. apply IH. lia.
  - destruct (nat_of_ascii a <? 32)%nat; [discriminate|].
    intros Hy. apply on_ok_fuel in Hy. revert Hy. apply IH. lia.
Qed.

Lemma span_digits_length : forall s ds r,
  Json.span_digits s = (ds, r) -> String.length r <= String.length s.
Proof.
  induction s as [|a s IH]; intros ds r H; cbn [Json.span_digits] in H.
  - injection H as _ <-. cbn. lia.
  - destruct (Json.is_digit a).
    + destruct (Json.span_digits s) as [ds' r'] eqn:E.
      injection H as _ <-. cbn [String.length].
      specialize (IH _ _ eq_refl). lia.
    + injection H as _ <-. lia.
Qed.

Lemma match_number_rest py s v r :
  Json.match_number py s = Json.POk (v, r) -> String.length r < String.length s.
Proof.
  unfold Json.match_number.
  destruct (Json.sign_part s) as [sign s1] eqn:Es.
  assert (H1 : String.length s1 <= String.length s).
  { unfold Json.sign_part in Es. destruct s as [|a s']; [injection Es as _ <-; lia|].
    destruct (Ascii.eqb a "-"); injection Es as _ <-; cbn; lia. }
  destruct (Json.int_part s1) as [[ip s2]|] eqn:Ei; [|discriminate].
  assert (H2 : String.length s2 < String.length s1).
  { unfold Json.int_part in Ei. destruct s1 as [|d s']; [discriminate|].
    destruct (Ascii.eqb d "0"); [injection Ei as _ <-; cbn; lia|].
    destruct (Json.is_digit d); [|discriminate].
    destruct (Json.span_digits s') as [ds rest] eqn:Ed.
    injection Ei as _ <-. apply span_digits_length in Ed. cbn. lia. }
  destruct (Json.frac_part s2) as [frac s3] eqn:Ef.
  assert (H3 : String.length s3 <= String.length s2).
  { unfold Json.frac_part in Ef.
    destruct s2 as [|a [|d r']]; try (injection Ef as _ <-; lia).
    destruct (Ascii.eqb a "." && Json.is_digit d); [|injection Ef as _ <-; lia].
    destruct (Json.span_digits r') as [ds rest] eqn:Ed.
    injection Ef as _ <-. apply span_digits_length in Ed. cbn. lia. }
  destruct (Json.exp_part s3) as [exp s4] eqn:Ee.
  assert (H4 : String.length s4 <= String.length s3).
  { unfold Json.exp_part in Ee.
    destruct s3 as [|e r']; [injection Ee as _ <-; lia|].
    destruct (Ascii.eqb e "e" || Ascii.eqb e "E"); [|injection Ee as _ <-; lia].
    destruct (Json.exp_sign r') as [sg r1] eqn:Eg.
    assert (String.length r1 <= String.length r').
    { unfold Json.exp_sign in Eg. destruct r' as [|a r'']; [injection Eg as _ <-; lia|].
      destruct (Ascii.eqb a "+" || Ascii.eqb a "-"); injection Eg as _ <-; cbn; lia. }
    destruct (Json.span_digits r1) as [ds rest] eqn:Ed.
    apply span_digits_length in Ed.
    destruct ds; injection Ee as _ <-; cbn; lia. }
  intros H.
  assert (r = s4).
  { destruct frac, exp; try (injection H as _ <-; reflexivity).
    destruct (Json.over_digit_limit py _); [discriminate|].
    injection H as _ <-; reflexivity. }
  subst r. lia.
Qed.

Lemma match_number_fuel py s : Json.match_number py s <> Json.PFuel.
Proof.
  unfold Json.match_number.
  destruct (Json.sign_part s) as [sign s1].
  destruct (Json.int_part s1) as [[ip s2]|]; [|discriminate].
  destruct (Json.frac_part s2) as [frac s3].
  destruct (Json.exp_part s3) as [exp s4].
  destruct frac, exp; try discriminate.
  destruct (Json.over_digit_limit py _); discriminate.
Qed.

Lemma scan_literal_rest py s v r :
  Json.scan_literal py s = Json.POk (v, r) -> String.length r < String.length s.
Proof.
  unfold Json.scan_literal.
  repeat match goal with
         | |- context [Json.strip_prefix ?p s] =>
             let E := fresh "E" in
             destruct (Json.strip_prefix p s) eqn:E;
             [ apply strip_prefix_length in E; cbn [String.length] in E;
               intros H; injection H as _ <-; lia | ]
         end.
  apply match_number_rest.
Qed.

Lemma scan_literal_fuel py s : Json.scan_literal py s <> Json.PFuel.
Proof.
  unfold Json.scan_literal.
  repeat match goal with
         | |- context [Json.strip_prefix ?p s] =>
             destruct (Json.strip_prefix p s); [discriminate|]
         end.
  apply match_number_fuel.
Qed.

Lemma scan_rest py : forall fuel,
  (forall depth s v r, Json.scan_once py fuel depth s = Json.POk (v, r) ->
                       String.length r < String.length s) /\
  (forall depth s pairs v r,
      Json.object_loop py fuel depth s pairs = Json.POk (v, r) ->
      String.length r < String.length s) /\
  (forall depth s values v r,
      Json.array_loop py fuel depth s values = Json.POk (v, r) ->
      String.length r < String.length s).
Proof.
  induction fuel as [|f (IHs & IHo & IHa)].
  { repeat split; intros; discriminate. }
  repeat split.
  - intros depth s v r H. cbn [Json.scan_once] in H.
    destruct s as [|a s1]; [discriminate|]. cbn [String.length].
    destruct (Ascii.eqb a Str.dquote).
    { apply on_ok_ok in H as [x Hx]. apply scanstring_rest in Hx. lia. }
    destruct (Ascii.eqb a "{").
    { destruct depth as [|depth']; [discriminate|].
      pose proof (skip_ws_length s1) as Hw.
      destruct (Json.skip_ws s1) as [|c s2]; [now apply IHo in H|].
      cbn [String.length] in Hw.
      char_cases c "}"%char;
        [ injection H as _ <-; lia
        | apply IHo in H; cbn [String.length] in H; lia .. ]. }
    destruct (Ascii.eqb a "[").
    { destruct depth as [|depth']; [discriminate|].
      pose proof (skip_ws_length s1) as Hw.
      destruct (Json.skip_ws s1) as [|c s2]; [now apply IHa in H|].
      cbn [String.length] in Hw.
      char_cases c "]"%char;
        [ injection H as _ <-; lia
        | apply IHa in H; cbn [String.length] in H; lia .. ]. }
    apply scan_literal_rest in H. exact H.
  - intros depth s pairs v r H. cbn [Json.object_loop] in H.
    destruct s as [|q s1]; [discriminate|]. cbn [String.length].
    destruct (Ascii.eqb q Str.dquote); [|discriminate].
    destruct (Json.scanstring _ s1) as [[key s2]| | |] eqn:Ek; try discriminate.
    apply scanstring_rest in Ek.
    pose proof (skip_ws_length s2) as Hw2.
    destruct (Json.skip_ws s2) as [|c s3]; [discriminate|].
    cbn [String.length] in Hw2.
    char_cases c ":"%char; try discriminate H.
    destruct (Json.scan_once py f depth (Json.skip_ws s3)) as [[v' s4]| | |] eqn:Ev;
      try discriminate.
    apply IHs in Ev. pose proof (skip_ws_length s3) as Hw3.
    pose proof (skip_ws_length s4) as Hw4.
    destruct (Json.skip_ws s4) as [|c s5]; [discriminate|].
    cbn [String.length] in Hw4.
    char_cases c "}"%char;
      [ injection H as _ <-; lia
      | try discriminate H;
        apply IHo in H; pose proof (skip_ws_length s5); lia .. ].
  - intros depth s values v r H. cbn [Json.array_loop] in H.
    destruct (Json.scan_once py f depth s) as [[v' s1]| | |] eqn:Ev;
      try discriminate.
    apply IHs in Ev. pose proof (skip_ws_length s1) as Hw1.
    destruct (Json.skip_ws s1) as [|c s2]; [discriminate|].
    cbn [String.length] in Hw1.
    char_cases c "]"%char;
      [ injection H as _ <-; lia
      | try discriminate H;
        apply IHa in H; pose proof (skip_ws_length s2); lia .. ].
Qed.

Lemma scan_fuel py : forall fuel,
  (forall depth s, 2 * String.length s < fuel ->
                   Json.scan_once py fuel depth s <> Json.PFuel) /\
  (forall depth s pairs, 2 * String.length s + 1 < fuel ->
                         Json.object_loop py fuel depth s pairs <> Json.PFuel) /\
  (forall depth s values, 2 * String.length s + 1 < fuel ->
                          Json.array_loop py fuel depth s values <> Json.PFuel).
Proof.
  induction fuel as [|f (IHs & IHo & IHa)].
  { repeat split; intros; lia. }
  repeat split.
  - intros depth s Hl. cbn [Json.scan_once].
    destruct s as [|a s1]; [discriminate|]. cbn [String.length] in Hl.
    destruct (Ascii.eqb a Str.dquote).
    { intros H. apply on_ok_fuel in H. revert H. apply scanstring_fuel. lia. }
    destruct (Ascii.eqb a "{").
    { destruct depth as [|depth']; [discriminate|].
      pose proof (skip_ws_length s1) as Hw.
      destruct (Json.skip_ws s1) as [|c s2]; [apply IHo; cbn; lia|].
      cbn [String.length] in Hw.
      char_cases c "}"%char;
        [ discriminate | apply IHo; cbn [String.length]; lia .. ]. }
    destruct (Ascii.eqb a "[").
    { destruct depth as [|depth']; [discriminate|].
      pose proof (skip_ws_length s1) as Hw.
      destruct (Json.skip_ws s1) as [|c s2]; [apply IHa; cbn; lia|].
      cbn [String.length] in Hw.
      char_cases c "]"%char;
        [ discriminate | apply IHa; cbn [String.length]; lia .. ]. }
    apply scan_literal_fuel.
  - intros depth s pairs Hl. cbn [Json.object_loop].
    destruct s as [|q s1]; [discriminate|]. cbn [String.length] in Hl.
    destruct (Ascii.eqb q Str.dquote); [|discriminate].
    pose proof (scanstring_fuel (S (String.length s1)) s1 (Nat.lt_succ_diag_r _))
      as Hsf.
    destruct (Json.scanstring _ s1) as [[key s2]| | |] eqn:Ek;
      [|discriminate|discriminate|contradiction].
    apply scanstring_rest in Ek.
    pose proof (skip_ws_length s2) as Hw2.
    destruct (Json.skip_ws s2) as [|c s3]; [discriminate|].
    cbn [String.length] in Hw2.
    char_cases c ":"%char; try discriminate.
    pose proof (skip_ws_length s3) as Hw3.
    pose proof (IHs depth (Json.skip_ws s3)) as Hv.
    destruct (Json.scan_once py f depth (Json.skip_ws s3)) as [[v' s4]| | |] eqn:Ev;
      [|discriminate|discriminate|exfalso; apply Hv; [lia|reflexivity]].
    apply (proj1 (scan_rest py f)) in Ev.
    pose proof (skip_ws_length s4) as Hw4.
    destruct (Json.skip_ws s4) as [|c s5]; [discriminate|].
    cbn [String.length] in Hw4.
    char_cases c "}"%char;
      [ discriminate
      | try discriminate;
        apply IHo; pose proof (skip_ws_length s5); lia .. ].
  - intros depth s values Hl. cbn [Json.array_loop].
    pose proof (IHs depth s) as Hv.
    destruct (Json.scan_once py f depth s) as [[v' s1]| | |] eqn:Ev;
      [|discriminate|discriminate|exfalso; apply Hv; [lia|reflexivity]].
    apply (proj1 (scan_rest py f)) in Ev.
    pose proof (skip_ws_length s1) as Hw1.
    destruct (Json.skip_ws s1) as [|c s2]; [discriminate|].
    cbn [String.length] in Hw1.
    char_cases c "]"%char;
      [ discriminate
      | try discriminate;
        apply IHa; pose proof (skip_ws_length s2); lia .. ].
Qed.

(** The fuel given to the decoder is always enough: [json.loads] ends
    with a value, [JSONDecodeError] or another exception. *)
Theorem loads_total py s : Json.loads py s <> Json.PFuel.
Proof.
  unfold Json.loads, Json.loads_fuel.
  pose proof (proj1 (scan_fuel py (2 * String.length s + 1))
                (decode_depth py) (Json.skip_ws s)) as H.
  pose proof (skip_ws_length s) as Hw.
  destruct (Json.scan_once _ _ _ (Json.skip_ws s)) as [[v r]| | |];
    [|discriminate|discriminate|exfalso; apply H; [lia|reflexivity]].
  destruct (Json.skip_ws r); discriminate.
Qed.

Corollary json_loads_decode_error py s :
  json_loads py s = JSONDecodeError <-> Json.loads py s = Json.PErr.
Proof.
  unfold json_loads. pose proof (loads_total py s) as H.
  destruct (Json.loads py s); split; intros; congruence.
Qed.

(** ** scrape_article *)

Lemma article_of_soup_eq py soup d :
  metadata_of py soup = Ok (PDict d) ->
  article_of_soup py soup =
  match py_split_comma (Dict.get d "keywords" (PStr "")) with
  | Ok kws => Ok (record_of d kws)
  | Raise e => Raise e
  end.
Proof.
  unfold metadata_of, article_of_soup. intros ->.
  cbn [py_get]. destruct (py_split_comma _); reflexivity.
Qed.

Lemma article_of_soup_raise py soup e :
  metadata_of py soup = Raise e -> article_of_soup py soup = Raise e.
Proof. unfold metadata_of, article_of_soup. now intros ->. Qed.

Lemma scrape_article_fst py world u st :
  fst (scrape_article py world u st) =
  match world u with
  | Ok soup => article_of_soup py soup
  | Raise e => Raise e
  end.
Proof.
  unfold scrape_article, bind, get_soup, lift.
  destruct (world u); reflexivity.
Qed.

Lemma article_of_soup_no_script py soup :
  Soup.find_id "script" "tawsiyat-metadata" soup = None ->
  article_of_soup py soup = Ok default_article.
Proof.
  intros H. rewrite (article_of_soup_eq py soup []).
  - reflexivity.
  - unfold metadata_of. now rewrite H.
Qed.

Lemma metadata_of_span py soup tag m :
  Soup.find_id "script" "tawsiyat-metadata" soup = Some tag ->
  Re.search py brace_pattern (Soup.get_text tag) = Some m ->
  metadata_of py soup =
  match json_loads py (Re.group m) with
  | Loaded metadata => Ok metadata
  | JSONDecodeError => Ok (PDict [])
  | Raised e => Raise e
  end.
Proof.
  intros Hf Hs. unfold metadata_of, extract_metadata. now rewrite Hf, Hs.
Qed.

Lemma dict_get_lookup d k (v : pyval) default :
  Dict.lookup d k = Some v -> Dict.get d k default = v.
Proof. unfold Dict.get. now intros ->. Qed.

Lemma metadata_of_object py soup tag body M :
  Soup.find_id "script" "tawsiyat-metadata" soup = Some tag ->
  Soup.get_text tag = String "{" (body ++ String "}" "") ->
  json_loads py (Soup.get_text tag) = Loaded (PDict M) ->
  metadata_of py soup = Ok (PDict M).
Proof.
  intros Hf Ht Hj. unfold metadata_of. rewrite Hf, extract_metadata_span.
  rewrite Ht in *. rewrite greedy_brace_span_object. now rewrite Hj.
Qed.

(** When the metadata cannot be had, [json.loads] raised on the brace
    span of the metadata script. *)
Lemma metadata_of_raise py soup e :
  metadata_of py soup = Raise e ->
  exists tag m,
    Soup.find_id "script" "tawsiyat-metadata" soup = Some tag /\
    Re.search py brace_pattern (Soup.get_text tag) = Some m /\
    json_loads py (Re.group m) = Raised e.
Proof.
  unfold metadata_of, extract_metadata.
  destruct (Soup.find_id _ _ soup) as [tag|]; [|discriminate].
  destruct (Re.search py brace_pattern _) as [m|] eqn:Es; [|discriminate].
  destruct (json_loads py (Re.group m)) as [v| |e'] eqn:E; try discriminate.
  intros H; injection H as ->. exists tag, m. repeat split; assumption.
Qed.

(** ** extract_metadata *)

Lemma upto_last_none_occurs c : forall s,
  upto_last c s = None -> occurs c s = false.
Proof.
  induction s as [|a s IH]; intros H; [reflexivity|].
  cbn [upto_last] in H. cbn [occurs].
  destruct (upto_last c s); [discriminate|].
  destruct (Ascii.eqb a c); [discriminate|]. now apply IH.
Qed.

Lemma upto_last_split c : forall s t,
  upto_last c s = Some t ->
  exists body post,
    s = (body ++ String c post)%string /\
    t = (body ++ String c "")%string /\
    occurs c post = false.
Proof.
  induction s as [|a s IH]; intros t H; [discriminate|].
  cbn [upto_last] in H.
  destruct (upto_last c s) as [t'|] eqn:E.
  - injection H as <-. destruct (IH _ eq_refl) as (body & post & -> & -> & Ho).
    exists (String a body), post. repeat split. exact Ho.
  - destruct (Ascii.eqb a c) eqn:Ea; [|discriminate].
    apply Ascii.eqb_eq in Ea. subst a. injection H as <-.
    exists "", s. repeat split. now apply upto_last_none_occurs.
Qed.

(** The greedy span runs from the first opening brace of the text to its
    last closing brace. *)
Lemma greedy_brace_span_split : forall s t,
  greedy_brace_span s = Some t ->
  exists pre body post,
    s = (pre ++ String "{" (body ++ String "}" post))%string /\
    t = String "{" (body ++ String "}" "") /\
    occurs "{" pre = false /\
    occurs "}" post = false.
Proof.
  induction s as [|a s IH]; intros t H; [discriminate|].
  cbn [greedy_brace_span] in H.
  destruct (Ascii.eqb a "{") eqn:Ea.
  - apply Ascii.eqb_eq in Ea. subst a.
    destruct (upto_last "}" s) as [u|] eqn:Eu; [|discriminate].
    injection H as <-.
    destruct (upto_last_split _ _ _ Eu) as (body & post & -> & -> & Ho).
    exists "", body, post. repeat split. exact Ho.
  - destruct (IH _ H) as (pre & body & post & -> & -> & Hp & Ho).
    exists (String a pre), body, post. repeat split; [|exact Ho].
    cbn [occurs]. now rewrite Ea, Hp.
Qed.

(** ** Claims about scrape_article *)

Lemma full_metadata_loads :
  json_loads sample_interp full_metadata_text = Loaded (PDict full_metadata).
Proof. vm_compute. reflexivity. Qed.

(** C1, as stated, fails: for a page embedding a mapping with all sixteen
    keys, the record's [keywords] is the list of the pieces, not the
    mapping's keyword string. *)
Lemma C1_counterexample :
  exists a,
    json_loads sample_interp full_metadata_text = Loaded (PDict full_metadata) /\
    fst (scrape_article sample_interp
           (fun _ => Ok [metadata_script full_metadata_text])
           "https://www.almayadeen.net/news/t" initial) = Ok a /\
    Dict.lookup full_metadata "keywords" = Some (PStr "a,b") /\
    Dict.lookup (asdict a) "keywords" = Some (PList [PStr "a"; PStr "b"]) /\
    ~ (forall f, In f field_names ->
         Dict.lookup (asdict a) f = Dict.lookup full_metadata f).
Proof.
  eexists. split; [exact full_metadata_loads|].
  split; [vm_compute; reflexivity|].
  split; [reflexivity|]. split; [reflexivity|].
  intros H. specialize (H "keywords").
  assert (Hin : In "keywords" field_names) by (vm_compute; tauto).
  specialize (H Hin). discriminate H.
Qed.

(** C1 (amended): when the metadata script holds the JSON text of a
    mapping [M] whose keywords entry, if any, is a string, [scrape_article]
    returns a record whose every field other than [keywords] equals [M]'s
    value for the key of that name, and whose [keywords] is the comma-split
    of [M]'s keyword string. *)
Theorem C1_metadata_roundtrip py world u soup tag body M st :
  world u = Ok soup ->
  Soup.find_id "script" "tawsiyat-metadata" soup = Some tag ->
  Soup.get_text tag = String "{" (body ++ String "}" "") ->
  json_loads py (Soup.get_text tag) = Loaded (PDict M) ->
  (forall v, Dict.lookup M "keywords" = Some v -> exists s, v = PStr s) ->
  exists a,
    fst (scrape_article py world u st) = Ok a /\
    (forall f v, In f field_names -> f <> "keywords" ->
       Dict.lookup M f = Some v -> Dict.lookup (asdict a) f = Some v) /\
    (forall s, Dict.lookup M "keywords" = Some (PStr s) ->
       keywords a = Str.split "," s).
Proof.
  intros Hw Hf Ht Hj Hk.
  pose proof (metadata_of_object _ _ _ _ _ Hf Ht Hj) as Hm.
  rewrite scrape_article_fst, Hw, (article_of_soup_eq _ _ _ Hm).
  assert (Hs : exists s, Dict.get M "keywords" (PStr "") = PStr s).
  { unfold Dict.get. destruct (Dict.lookup M "keywords") as [v|]; eauto. }
  destruct Hs as [s0 Hs0]. rewrite Hs0. cbn [py_split_comma].
  eexists. split; [reflexivity|]. split.
  - intros f v Hin Hne Hl.
    unfold field_names in Hin. cbn [asdict map fst] in Hin.
    repeat (destruct Hin as [<- | Hin];
            [ first [ now contradiction Hne
                    | cbn; f_equal; now apply dict_get_lookup ] | ]).
    destruct Hin.
  - intros s Hl. cbn [keywords record_of].
    rewrite (dict_get_lookup _ _ _ _ Hl) in Hs0. now injection Hs0 as ->.
Qed.

Lemma C1_metadata_roundtrip_witness :
  exists a,
    fst (scrape_article sample_interp
           (fun _ => Ok [metadata_script full_metadata_text])
           "https://www.almayadeen.net/news/t" initial) = Ok a /\
    (forall f v, In f field_names -> f <> "keywords" ->
       Dict.lookup full_metadata f = Some v ->
       Dict.lookup (asdict a) f = Some v) /\
    (forall s, Dict.lookup full_metadata "keywords" = Some (PStr s) ->
       keywords a = Str.split "," s).
Proof.
  apply (C1_metadata_roundtrip sample_interp
           (fun _ => Ok [metadata_script full_metadata_text])
           "https://www.almayadeen.net/news/t"
           [metadata_script full_metadata_text]
           (metadata_script full_metadata_text)
           (Str.take (String.length full_metadata_text - 2)
              (Str.drop 1 full_metadata_text))
           full_metadata initial).
  - reflexivity.
  - reflexivity.
  - vm_compute. reflexivity.
  - vm_compute. reflexivity.
  - intros v Hv. vm_compute in Hv. injection Hv as <-. eauto.
Defined.

(** C2, as stated, fails: the fetch succeeds and the metadata is a
    well-formed JSON mapping, yet [scrape_article] raises, because the
    keywords entry is null. *)
Lemma C2_counterexample :
  json_loads sample_interp null_keywords_text
    = Loaded (PDict [("title", PStr "T"); ("keywords", PNone)]) /\
  fst (scrape_article sample_interp
         (fun _ => Ok (article_page null_keywords_text ["text"]))
         "https://www.almayadeen.net/news/t" initial)
    = Raise (AttributeError "'NoneType' object has no attribute 'split'").
Proof. split; vm_compute; reflexivity. Qed.

(** C2 (amended): [scrape_article] raises exactly in three cases: the
    fetch (or the markup parser) raises; [json.loads] raises, on the brace
    span of the metadata script, an exception that is not
    [JSONDecodeError] (the digit limit of integers, the recursion limit);
    the metadata has a keywords entry that is not a string. The exception
    is then that of the fetch, that of [json.loads], and the
    [AttributeError] of [.split]. In every other case, whichever keys are
    present or absent, it returns a record. *)
Theorem C2_scrape_article_outcome py world u st :
  match world u with
  | Raise e => fst (scrape_article py world u st) = Raise e
  | Ok soup =>
      match metadata_of py soup with
      | Raise e =>
          fst (scrape_article py world u st) = Raise e /\
          exists tag m,
            Soup.find_id "script" "tawsiyat-metadata" soup = Some tag /\
            Re.search py brace_pattern (Soup.get_text tag) = Some m /\
            json_loads py (Re.group m) = Raised e
      | Ok metadata =>
          exists d,
            metadata = PDict d /\
            fst (scrape_article py world u st) =
            match Dict.lookup d "keywords" with
            | None => Ok (record_of d [""])
            | Some (PStr s) => Ok (record_of d (Str.split "," s))
            | Some v => Raise (no_attribute v "split")
            end
      end
  end.
Proof.
  rewrite scrape_article_fst.
  destruct (world u) as [soup|e]; [|reflexivity].
  destruct (metadata_of py soup) as [v|e] eqn:Em.
  - destruct (metadata_of_dict _ _ _ Em) as [d ->].
    exists d. split; [reflexivity|].
    rewrite (article_of_soup_eq _ _ _ Em). unfold Dict.get.
    destruct (Dict.lookup d "keywords") as [[]|]; reflexivity.
  - split; [now apply article_of_soup_raise|].
    now apply metadata_of_raise.
Qed.

(** The three ways of raising and the plain case, on concrete pages. *)
Lemma C2_scrape_article_outcome_witness :
  fst (scrape_article sample_interp
         (fun _ => Raise (RequestException "connection timed out"))
         "https://www.almayadeen.net/news/t" initial)
    = Raise (RequestException "connection timed out") /\
  fst (scrape_article sample_interp
         (fun _ => Ok (article_page long_integer_text ["text"]))
         "https://www.almayadeen.net/news/t" initial)
    = Raise (ValueError
        ("Exceeds the limit (4300 digits) for integer string conversion: "
         ++ "value has 5000 digits; use sys.set_int_max_str_digits() "
         ++ "to increase the limit")) /\
  fst (scrape_article sample_interp
         (fun _ => Ok (article_page array_keywords_text ["text"]))
         "https://www.almayadeen.net/news/t" initial)
    = Raise (AttributeError "'list' object has no attribute 'split'") /\
  fst (scrape_article sample_interp
         (fun _ => Ok (article_page keywords_text ["text"]))
         "https://www.almayadeen.net/news/t" initial)
    = Ok (record_of [("title", PStr "T"); ("keywords", PStr "a,b,c")]
            ["a"; "b"; "c"]).
Proof.
  split; [|split; [|split]].
  - exact (C2_scrape_article_outcome sample_interp
             (fun _ => Raise (RequestException "connection timed out"))
             "https://www.almayadeen.net/news/t" initial).
  - pose proof (C2_scrape_article_outcome sample_interp
                  (fun _ => Ok (article_page long_integer_text ["text"]))
                  "https://www.almayadeen.net/news/t" initial) as H.
    cbv beta iota in H.
    assert (E : metadata_of sample_interp (article_page long_integer_text ["text"])
                = Raise (ValueError
                    ("Exceeds the limit (4300 digits) for integer string conversion: "
                     ++ "value has 5000 digits; use sys.set_int_max_str_digits() "
                     ++ "to increase the limit")))
      by (vm_compute; reflexivity).
    rewrite E in H. exact (proj1 H).
  - pose proof (C2_scrape_article_outcome sample_interp
                  (fun _ => Ok (article_page array_keywords_text ["text"]))
                  "https://www.almayadeen.net/news/t" initial) as H.
    cbv beta iota in H.
    assert (E : metadata_of sample_interp (article_page array_keywords_text ["text"])
                = Ok (PDict [("title", PStr "T");
                             ("keywords", PList [PStr "a"; PStr "b"])]))
      by (vm_compute; reflexivity).
    rewrite E in H. destruct H as (d & Hd & H).
    injection Hd as <-. exact H.
  - pose proof (C2_scrape_article_outcome sample_interp
                  (fun _ => Ok (article_page keywords_text ["text"]))
                  "https://www.almayadeen.net/news/t" initial) as H.
    cbv beta iota in H.
    assert (E : metadata_of sample_interp (article_page keywords_text ["text"])
                = Ok (PDict [("title", PStr "T"); ("keywords", PStr "a,b,c")]))
      by (vm_compute; reflexivity).
    rewrite E in H. destruct H as (d & Hd & H).
    injection Hd as <-. exact H.
Defined.

(** C3, as stated, fails: on a page without the metadata script the
    record's keywords, classes and html are not null. *)
Lemma C3_counterexample :
  Soup.find_id "script" "tawsiyat-metadata" plain_page = None /\
  exists a,
    fst (scrape_article sample_interp (fun _ => Ok plain_page)
           "https://www.almayadeen.net/news/t" initial) = Ok a /\
    Dict.lookup (asdict a) "keywords" = Some (PList [PStr ""]) /\
    Dict.lookup (asdict a) "classes" = Some (PList []) /\
    Dict.lookup (asdict a) "html" = Some (PStr "") /\
    ~ (forall f, In f field_names -> Dict.lookup (asdict a) f = Some PNone).
Proof.
  split; [reflexivity|]. eexists.
  split; [vm_compute; reflexivity|].
  repeat (split; [reflexivity|]).
  intros H. specialize (H "html").
  assert (Hin : In "html" field_names) by (vm_compute; tauto).
  specialize (H Hin). discriminate H.
Qed.

(** C3 (amended): for a page without the metadata script [scrape_article]
    does not raise and returns the record whose fields are all null, except
    keywords, the one-element list of the empty string, classes, the empty
    list, and html, the empty string. *)
Theorem C3_no_metadata_script py world u soup st :
  world u = Ok soup ->
  Soup.find_id "script" "tawsiyat-metadata" soup = None ->
  fst (scrape_article py world u st) = Ok default_article.
Proof.
  intros Hw Hf. rewrite scrape_article_fst, Hw.
  now apply article_of_soup_no_script.
Qed.

Lemma C3_no_metadata_script_witness :
  fst (scrape_article sample_interp (fun _ => Ok plain_page)
         "https://www.almayadeen.net/news/t" initial) = Ok default_article.
Proof.
  apply (C3_no_metadata_script sample_interp (fun _ => Ok plain_page)
           "https://www.almayadeen.net/news/t" plain_page initial);
    reflexivity.
Defined.

(** C4, as stated, fails: the brace span of the metadata script is not
    JSON (without a digit limit the decoder rejects it with
    [JSONDecodeError]), yet [scrape_article] raises: the integer of 5000
    digits that comes before the error trips the digit limit, and the
    [ValueError] is not caught by [extract_metadata]. *)
Lemma C4_counterexample :
  option_map Re.group
    (Re.search sample_interp brace_pattern
       (Soup.get_text (metadata_script long_integer_text)))
    = Some long_integer_text /\
  json_loads (MkInterp sample_nd 0 990 990) long_integer_text
    = JSONDecodeError /\
  fst (scrape_article sample_interp
         (fun _ => Ok (article_page long_integer_text ["text"]))
         "https://www.almayadeen.net/news/t" initial)
    = Raise (ValueError
        ("Exceeds the limit (4300 digits) for integer string conversion: "
         ++ "value has 5000 digits; use sys.set_int_max_str_digits() "
         ++ "to increase the limit")) /\
  fst (scrape_article sample_interp (fun _ => Ok plain_page)
         "https://www.almayadeen.net/news/t" initial) = Ok default_article.
Proof. repeat split; vm_compute; reflexivity. Qed.

(** C4 (amended): when [json.loads] rejects the brace span of the
    metadata script with [JSONDecodeError], [scrape_article] does not raise
    and returns the record it returns for any page without the metadata
    script; when [json.loads] raises another exception on the span,
    [scrape_article] raises that exception. *)
Theorem C4_malformed_json py world u soup tag m st :
  world u = Ok soup ->
  Soup.find_id "script" "tawsiyat-metadata" soup = Some tag ->
  Re.search py brace_pattern (Soup.get_text tag) = Some m ->
  (json_loads py (Re.group m) = JSONDecodeError ->
   fst (scrape_article py world u st) = Ok default_article /\
   forall world' u' soup' st',
     world' u' = Ok soup' ->
     Soup.find_id "script" "tawsiyat-metadata" soup' = None ->
     fst (scrape_article py world' u' st') = fst (scrape_article py world u st)) /\
  (forall e, json_loads py (Re.group m) = Raised e ->
   fst (scrape_article py world u st) = Raise e).
Proof.
  intros Hw Hf Hs.
  pose proof (metadata_of_span py _ _ _ Hf Hs) as Hm.
  split.
  - intros Hj. rewrite Hj in Hm.
    assert (E : fst (scrape_article py world u st) = Ok default_article).
    { rewrite scrape_article_fst, Hw. now rewrite (article_of_soup_eq _ _ _ Hm). }
    split; [exact E|].
    intros world' u' soup' st' Hw' Hf'.
    rewrite E, scrape_article_fst, Hw'. now apply article_of_soup_no_script.
  - intros e Hj. rewrite Hj in Hm.
    rewrite scrape_article_fst, Hw. now apply article_of_soup_raise.
Qed.

Lemma C4_malformed_json_witness :
  (fst (scrape_article sample_interp
          (fun _ => Ok (article_page malformed_text ["text"]))
          "https://www.almayadeen.net/news/t" initial) = Ok default_article /\
   forall world' u' soup' st',
     world' u' = Ok soup' ->
     Soup.find_id "script" "tawsiyat-metadata" soup' = None ->
     fst (scrape_article sample_interp world' u' st')
     = fst (scrape_article sample_interp
              (fun _ => Ok (article_page malformed_text ["text"]))
              "https://www.almayadeen.net/news/t" initial)) /\
  fst (scrape_article sample_interp
         (fun _ => Ok (article_page long_integer_text ["text"]))
         "https://www.almayadeen.net/news/t" initial)
    = Raise (ValueError
        ("Exceeds the limit (4300 digits) for integer string conversion: "
         ++ "value has 5000 digits; use sys.set_int_max_str_digits() "
         ++ "to increase the limit")).
Proof.
  split.
  - apply (C4_malformed_json sample_interp
             (fun _ => Ok (article_page malformed_text ["text"]))
             "https://www.almayadeen.net/news/t"
             (article_page malformed_text ["text"])
             (metadata_script malformed_text)
             (Re.MkMatch malformed_text 11 42 [])
             initial).
    + reflexivity.
    + reflexivity.
    + vm_compute. reflexivity.
    + vm_compute. reflexivity.
  - apply (C4_malformed_json sample_interp
             (fun _ => Ok (article_page long_integer_text ["text"]))
             "https://www.almayadeen.net/news/t"
             (article_page long_integer_text ["text"])
             (metadata_script long_integer_text)
             (Re.MkMatch long_integer_text 0 (String.length long_integer_text) [])
             initial).
    + reflexivity.
    + reflexivity.
    + vm_compute. reflexivity.
    + vm_compute. reflexivity.
Defined.

(** C6: the record's keywords are the comma-split of the metadata's
    keyword string, the default being the empty string: [a,b,c] gives the
    three pieces, and an absent or empty entry gives the one-element list of
    the empty string. *)
Theorem C6_keywords_split py soup d s :
  metadata_of py soup = Ok (PDict d) ->
  Dict.get d "keywords" (PStr "") = PStr s ->
  exists a,
    article_of_soup py soup = Ok a /\
    keywords a = Str.split "," s /\
    (s = "a,b,c" -> keywords a = ["a"; "b"; "c"]) /\
    (s = "" -> keywords a = [""]) /\
    (Dict.lookup d "keywords" = None -> keywords a = [""]).
Proof.
  intros Hm Hk. rewrite (article_of_soup_eq _ _ _ Hm), Hk. cbn [py_split_comma].
  eexists. split; [reflexivity|]. cbn [keywords record_of].
  split; [reflexivity|]. split; [|split].
  - now intros ->.
  - now intros ->.
  - intros Hn. unfold Dict.get in Hk. rewrite Hn in Hk.
    now injection Hk as <-.
Qed.

Lemma C6_keywords_split_witness :
  exists a,
    article_of_soup sample_interp (article_page keywords_text ["text"]) = Ok a /\
    keywords a = Str.split "," "a,b,c" /\
    ("a,b,c" = "a,b,c" -> keywords a = ["a"; "b"; "c"]) /\
    ("a,b,c" = "" -> keywords a = [""]) /\
    (Dict.lookup [("title", PStr "T"); ("keywords", PStr "a,b,c")] "keywords"
       = None -> keywords a = [""]).
Proof.
  apply (C6_keywords_split sample_interp (article_page keywords_text ["text"])
           [("title", PStr "T"); ("keywords", PStr "a,b,c")] "a,b,c").
  - vm_compute. reflexivity.
  - reflexivity.
Defined.

(** C7: the record depends on the page through its metadata script only:
    two pages with the same metadata script, whatever their paragraphs,
    give the same record, and the record's html is the metadata's html
    entry, or the empty string when there is none. The text joined from the
    paragraphs is not part of the record. *)
Theorem C7_html_from_metadata py soup soup' :
  Soup.find_id "script" "tawsiyat-metadata" soup'
    = Soup.find_id "script" "tawsiyat-metadata" soup ->
  article_of_soup py soup' = article_of_soup py soup /\
  forall a, article_of_soup py soup = Ok a ->
    exists d, metadata_of py soup = Ok (PDict d) /\
              html a = Dict.get d "html" (PStr "").
Proof.
  intros Hf.
  assert (Hm : metadata_of py soup' = metadata_of py soup).
  { unfold metadata_of. now rewrite Hf. }
  split.
  - destruct (metadata_of py soup) as [v|e] eqn:Em.
    + destruct (metadata_of_dict _ _ _ Em) as [d ->].
      now rewrite (article_of_soup_eq _ _ _ Em), (article_of_soup_eq _ _ _ Hm).
    + now rewrite (article_of_soup_raise _ _ _ Em),
        (article_of_soup_raise _ _ _ Hm).
  - intros a Ha. destruct (metadata_of py soup) as [v|e] eqn:Em.
    + destruct (metadata_of_dict _ _ _ Em) as [d ->].
      exists d. split; [reflexivity|].
      rewrite (article_of_soup_eq _ _ _ Em) in Ha.
      destruct (py_split_comma _); [|discriminate].
      now injection Ha as <-.
    + rewrite (article_of_soup_raise _ _ _ Em) in Ha. discriminate.
Qed.

Lemma C7_html_from_metadata_witness :
  article_of_soup sample_interp
    (article_page full_metadata_text ["one"; "two"; "three"])
    = article_of_soup sample_interp (article_page full_metadata_text []) /\
  forall a,
    article_of_soup sample_interp (article_page full_metadata_text []) = Ok a ->
    exists d,
      metadata_of sample_interp (article_page full_metadata_text [])
        = Ok (PDict d) /\
      html a = Dict.get d "html" (PStr "").
Proof.
  apply (C7_html_from_metadata sample_interp
           (article_page full_metadata_text [])
           (article_page full_metadata_text ["one"; "two"; "three"])).
  reflexivity.
Defined.

(** C10: there is a page whose metadata script holds well-formed JSON with
    an array under keywords, on which [scrape_article] raises instead of
    returning a record. *)
Theorem C10_keywords_not_string_raises :
  exists soup tag d l,
    Soup.find_id "script" "tawsiyat-metadata" soup = Some tag /\
    json_loads sample_interp (Soup.get_text tag) = Loaded (PDict d) /\
    Dict.lookup d "keywords" = Some (PList l) /\
    fst (scrape_article sample_interp (fun _ => Ok soup)
           "https://www.almayadeen.net/news/t" initial)
    = Raise (AttributeError "'list' object has no attribute 'split'").
Proof.
  exists (article_page array_keywords_text ["text"]),
         (metadata_script array_keywords_text),
         [("title", PStr "T"); ("keywords", PList [PStr "a"; PStr "b"])],
         [PStr "a"; PStr "b"].
  repeat split; vm_compute; reflexivity.
Qed.

(** C8: the text [extract_metadata] hands to [json.loads] is the greedy
    brace span of the script text, from its first opening brace to its last
    closing brace; the result is what the decoder makes of the span, a
    mapping whenever it decodes (the empty mapping on [JSONDecodeError];
    any other exception of the decoder is raised); when the text has no
    such span, the result is the empty mapping. *)
Theorem C8_extract_metadata py s :
  option_map Re.group (Re.search py brace_pattern s) = greedy_brace_span s /\
  (forall t, greedy_brace_span s = Some t ->
     (exists pre body post,
        s = (pre ++ String "{" (body ++ String "}" post))%string /\
        t = String "{" (body ++ String "}" "") /\
        occurs "{" pre = false /\ occurs "}" post = false) /\
     extract_metadata py s = match json_loads py t with
                             | Loaded metadata => Ok metadata
                             | JSONDecodeError => Ok (PDict [])
                             | Raised e => Raise e
                             end /\
     (forall metadata, json_loads py t = Loaded metadata ->
        exists d, metadata = PDict d)) /\
  (greedy_brace_span s = None -> extract_metadata py s = Ok (PDict [])) /\
  (forall metadata, extract_metadata py s = Ok metadata ->
     exists d, metadata = PDict d).
Proof.
  split; [apply search_brace|]. split; [|split].
  - intros t Ht. split; [now apply greedy_brace_span_split|].
    split; [now rewrite extract_metadata_span, Ht|].
    destruct (greedy_brace_span_head _ _ Ht) as [r ->].
    intros metadata. apply json_loads_brace_dict.
  - intros Hn. now rewrite extract_metadata_span, Hn.
  - apply extract_metadata_dict.
Qed.

(** On a script text with code around the object, the span is the object
    and the result its entries, nested values included. *)
Lemma C8_extract_metadata_witness :
  greedy_brace_span
    (Str.js "window.meta = {'title': 'T', 'n': [1, {'k': null}]}; init();")
    = Some (Str.js "{'title': 'T', 'n': [1, {'k': null}]}") /\
  extract_metadata sample_interp
    (Str.js "window.meta = {'title': 'T', 'n': [1, {'k': null}]}; init();")
    = Ok (PDict [("title", PStr "T");
                 ("n", PList [PInt 1; PDict [("k", PNone)]])]) /\
  extract_metadata sample_interp "no object here" = Ok (PDict []).
Proof.
  split; [vm_compute; reflexivity|]. split.
  - destruct (C8_extract_metadata sample_interp
                (Str.js "window.meta = {'title': 'T', 'n': [1, {'k': null}]}; init();"))
      as (_ & H & _).
    destruct (H (Str.js "{'title': 'T', 'n': [1, {'k': null}]}"))
      as (_ & E & _); [vm_compute; reflexivity|].
    rewrite E. vm_compute. reflexivity.
  - apply (C8_extract_metadata sample_interp "no object here").
    vm_compute. reflexivity.
Defined.

(** ** The driver *)

Lemma dict_lookup_set V (d : list (string * V)) k v :
  Dict.lookup (Dict.set d k v) k = Some v.
Proof.
  induction d as [|[k' v'] d IH]; simpl.
  - now rewrite String.eqb_refl.
  - destruct (String.eqb k' k) eqn:E; simpl.
    + now rewrite String.eqb_refl.
    + now rewrite E.
Qed.

Lemma scrape_article_run py world u st :
  scrape_article py world u st =
  (outcome py world u, MkState (fetched st ++ [u]) (stdout st) (files st)).
Proof.
  unfold scrape_article, outcome, bind, get_soup, lift.
  destruct (world u); reflexivity.
Qed.

(** The loop from counter [i]: it attempts the next [11 - i] URLs. *)
Lemma scrape_loop_run py world : forall urls i articles st,
  scrape_loop py world urls i articles st =
  (Ok (articles ++ successes py world (firstn (11 - i) urls)),
   MkState (fetched st ++ firstn (11 - i) urls)
           (stdout st ++ failure_lines py world (firstn (11 - i) urls))
           (files st)).
Proof.
  induction urls as [|u rest IH]; intros i articles [fe so fi].
  - cbn [scrape_loop ret]. rewrite firstn_nil. cbn.
    now rewrite !app_nil_r.
  - cbn [scrape_loop]. destruct (10 <? i)%nat eqn:Ei.
    + apply Nat.ltb_lt in Ei. replace (11 - i) with 0 by lia.
      cbn. now rewrite !app_nil_r.
    + apply Nat.ltb_ge in Ei. replace (11 - i) with (S (11 - S i)) by lia.
      cbn [firstn]. unfold bind at 1. unfold try_except, bind at 1.
      rewrite scrape_article_run. cbn [fetched stdout files].
      unfold successes, failure_lines. cbn [flat_map].
      fold (successes py world (firstn (11 - S i) rest)).
      fold (failure_lines py world (firstn (11 - S i) rest)).
      destruct (outcome py world u) as [a|e].
      * cbn [ret]. rewrite IH. cbn [fetched stdout files].
        now rewrite <- !app_assoc.
      * unfold bind, print, ret. cbn [fetched stdout files].
        rewrite IH. cbn [fetched stdout files].
        now rewrite <- !app_assoc.
Qed.

(** A month whose sitemap can be fetched: what the run does, when the
    dump of the records succeeds and when it raises. *)
Lemma process_sitemap_run py world sitemap_url m year month soup st :
  Re.search py sitemap_pattern sitemap_url = Some m ->
  Re.groups m = [year; month] ->
  world sitemap_url = Ok soup ->
  process_sitemap py world sitemap_url st =
  let attempted := firstn 11 (map Soup.get_text (Soup.find_all "loc" soup)) in
  let value := dumped (successes py world attempted) in
  let lines :=
    stdout st
    ++ [(String "010" "Processing articles for " ++ year ++ "-" ++ month ++ "...")%string]
    ++ failure_lines py world attempted in
  match dump_error py value with
  | None =>
      (Ok tt,
       MkState (fetched st ++ sitemap_url :: attempted)
         (lines ++ [("Saved articles for " ++ year ++ "-" ++ month ++ ".")%string])
         (Dict.set (files st) (output_name year month) (Dumped value)))
  | Some e =>
      (Raise e,
       MkState (fetched st ++ sitemap_url :: attempted) lines
         (Dict.set (files st) (output_name year month) (Truncated value)))
  end.
Proof.
  intros Hs Hg Hw. unfold process_sitemap. rewrite Hs, Hg.
  unfold bind at 1. unfold print at 1.
  unfold bind at 1. unfold get_article_urls, bind at 1, get_soup.
  rewrite Hw. cbn [fetched stdout files ret].
  unfold bind at 1. rewrite scrape_loop_run. cbn [fetched stdout files].
  unfold bind, save_to_json, write_json, print. cbn [fetched stdout files].
  cbv zeta. unfold dumped, output_name.
  destruct (dump_error py _); cbn [fetched stdout files];
    rewrite <- ?app_assoc; reflexivity.
Qed.

Lemma process_sitemap_skip py world sitemap_url st :
  Re.search py sitemap_pattern sitemap_url = None ->
  process_sitemap py world sitemap_url st = (Ok tt, st).
Proof. intros H. unfold process_sitemap. now rewrite H. Qed.

(** A month whose sitemap cannot be fetched. *)
Lemma process_sitemap_fetch_fails py world u m year month e st :
  Re.search py sitemap_pattern u = Some m ->
  Re.groups m = [year; month] ->
  world u = Raise e ->
  process_sitemap py world u st =
  (Raise e,
   MkState (fetched st ++ [u])
     (stdout st
      ++ [(String "010" "Processing articles for " ++ year ++ "-" ++ month ++ "...")%string])
     (files st)).
Proof.
  intros Hs Hg Hw. unfold process_sitemap. rewrite Hs, Hg.
  unfold bind at 1. unfold print at 1.
  unfold bind at 1. unfold get_article_urls, bind at 1, get_soup.
  rewrite Hw. reflexivity.
Qed.

(** C5, as stated, fails: the month's one article is extracted, but its
    title is a lone surrogate, which the UTF-8 file cannot take: the dump
    raises, nothing catches it, and the file is left cut short instead of
    holding the record. *)
Lemma C5_counterexample :
  let run := process_sitemap sample_interp surrogate_world month_url initial in
  exists a,
    map Soup.get_text
      (Soup.find_all "loc" (urlset [article_url "a00"])) = [article_url "a00"] /\
    fst (scrape_article sample_interp surrogate_world (article_url "a00") initial)
      = Ok a /\
    successes sample_interp surrogate_world [article_url "a00"] = [a] /\
    fst run = Raise Dump.surrogate_error /\
    files (snd run) = [("articles_2023_7.json", Truncated (dumped [a]))] /\
    Dict.lookup (files (snd run)) "articles_2023_7.json"
      <> Some (Dumped (dumped [a])).
Proof.
  cbv zeta. eexists.
  split; [reflexivity|].
  split; [vm_compute; reflexivity|].
  split; [vm_compute; reflexivity|].
  split; [vm_compute; reflexivity|].
  split; [vm_compute; reflexivity|].
  vm_compute. discriminate.
Qed.

(** C5 (amended): for a monthly sitemap listing [n] article URLs, the
    driver fetches the first [min n 11] of them, in order, and no other,
    and prints a line for each one whose extraction raises. When the dump
    of the records does not raise, the run of the month succeeds and the
    file of the month holds exactly the records of the attempted URLs whose
    extraction succeeded, in sitemap order. When the dump raises, the run
    ends with that exception, no line tells of the saving, and the file of
    the month is left cut short. *)
Theorem C5_first_eleven_in_order py world sitemap_url m year month soup st :
  Re.search py sitemap_pattern sitemap_url = Some m ->
  Re.groups m = [year; month] ->
  world sitemap_url = Ok soup ->
  let urls := map Soup.get_text (Soup.find_all "loc" soup) in
  let attempted := firstn 11 urls in
  let records := successes py world attempted in
  let run := process_sitemap py world sitemap_url st in
  let processing :=
    (String "010" "Processing articles for " ++ year ++ "-" ++ month ++ "...")%string in
  let saved := ("Saved articles for " ++ year ++ "-" ++ month ++ ".")%string in
  let name := ("articles_" ++ year ++ "_" ++ month ++ ".json")%string in
  length attempted = Nat.min (length urls) 11 /\
  fetched (snd run) = fetched st ++ sitemap_url :: attempted /\
  match dump_error py (dumped records) with
  | None =>
      fst run = Ok tt /\
      stdout (snd run)
        = stdout st ++ [processing] ++ failure_lines py world attempted ++ [saved] /\
      Dict.lookup (files (snd run)) name = Some (Dumped (dumped records))
  | Some e =>
      fst run = Raise e /\
      stdout (snd run)
        = stdout st ++ [processing] ++ failure_lines py world attempted /\
      Dict.lookup (files (snd run)) name = Some (Truncated (dumped records))
  end.
Proof.
  intros Hs Hg Hw urls attempted records run processing saved name.
  subst run. rewrite (process_sitemap_run _ _ _ _ _ _ _ _ Hs Hg Hw).
  cbv zeta. fold urls. fold attempted. fold records.
  split.
  { subst attempted. rewrite length_firstn. apply Nat.min_comm. }
  destruct (dump_error py (dumped records));
    cbn [fst snd fetched stdout files];
    (split; [reflexivity|]); (split; [reflexivity|]);
    (split; [now rewrite <- ?app_assoc|]); apply dict_lookup_set.
Qed.

(** The scenario of the claim: fifteen URLs, those at indices 5 and 9
    failing; and the month whose record cannot be written. *)
Lemma C5_first_eleven_in_order_witness :
  (let run := process_sitemap sample_interp scenario_world month_url initial in
   let attempted := map article_url
     ["a00"; "a01"; "a02"; "a03"; "a04"; "a05"; "a06"; "a07"; "a08"; "a09"; "a10"] in
   length attempted = Nat.min 15 11 /\
   fetched (snd run) = month_url :: attempted /\
   fst run = Ok tt /\
   stdout (snd run)
     = [ String "010" "Processing articles for 2023-7...";
         "Failed to scrape https://www.almayadeen.net/news/a05: connection timed out";
         "Failed to scrape https://www.almayadeen.net/news/a09: connection timed out";
         "Saved articles for 2023-7." ] /\
   Dict.lookup (files (snd run)) "articles_2023_7.json"
   = Some (Dumped (dumped (map titled
             ["a00"; "a01"; "a02"; "a03"; "a04"; "a06"; "a07"; "a08"; "a10"])))) /\
  (let run := process_sitemap sample_interp surrogate_world month_url initial in
   fst run = Raise Dump.surrogate_error /\
   stdout (snd run) = [String "010" "Processing articles for 2023-7..."] /\
   exists value,
     Dict.lookup (files (snd run)) "articles_2023_7.json"
     = Some (Truncated value)).
Proof.
  split.
  - pose proof (C5_first_eleven_in_order sample_interp scenario_world month_url
                  (Re.MkMatch month_url 36 54 [44; 48; 49; 50]) "2023" "7"
                  [Soup.NTag "urlset" []
                     (map (fun n => Soup.NTag "url" [] [loc (article_url n)])
                        article_names)]
                  initial) as H.
    cbv zeta in H.
    destruct H as (Hl & Hf & H);
      [vm_compute; reflexivity | reflexivity | reflexivity |].
    assert (E : dump_error sample_interp
                  (dumped (successes sample_interp scenario_world
                     (firstn 11 (map Soup.get_text (Soup.find_all "loc"
                        [Soup.NTag "urlset" []
                           (map (fun n => Soup.NTag "url" [] [loc (article_url n)])
                              article_names)]))))) = None)
      by (vm_compute; reflexivity).
    rewrite E in H. destruct H as (H1 & H2 & H3).
    cbv zeta. split; [reflexivity|].
    split; [rewrite Hf; vm_compute; reflexivity|].
    split; [exact H1|].
    split; [rewrite H2; vm_compute; reflexivity|].
    etransitivity; [exact H3|]. vm_compute. reflexivity.
  - pose proof (C5_first_eleven_in_order sample_interp surrogate_world month_url
                  (Re.MkMatch month_url 36 54 [44; 48; 49; 50]) "2023" "7"
                  (urlset [article_url "a00"])
                  initial) as H.
    cbv zeta in H.
    destruct H as (Hl & Hf & H);
      [vm_compute; reflexivity | reflexivity | reflexivity |].
    assert (E : dump_error sample_interp
                  (dumped (successes sample_interp surrogate_world
                     (firstn 11 (map Soup.get_text (Soup.find_all "loc"
                        (urlset [article_url "a00"]))))))
                = Some Dump.surrogate_error)
      by (vm_compute; reflexivity).
    rewrite E in H. destruct H as (H1 & H2 & H3).
    cbv zeta. split; [exact H1|].
    split; [rewrite H2; vm_compute; reflexivity|].
    eexists. exact H3.
Defined.

(** The end-to-end scenario, run from [main]. *)
Example main_scenario :
  main sample_interp scenario_world initial =
  (Ok tt,
   MkState
     (sitemap_index_url :: month_url :: map article_url
        ["a00"; "a01"; "a02"; "a03"; "a04"; "a05"; "a06"; "a07"; "a08"; "a09"; "a10"])
     [ "Retrieving monthly sitemaps...";
       String "010" "Processing articles for 2023-7...";
       "Failed to scrape https://www.almayadeen.net/news/a05: connection timed out";
       "Failed to scrape https://www.almayadeen.net/news/a09: connection timed out";
       "Saved articles for 2023-7." ]
     [ ("articles_2023_7.json",
        Dumped (dumped (map titled
          ["a00"; "a01"; "a02"; "a03"; "a04"; "a06"; "a07"; "a08"; "a10"]))) ]).
Proof. vm_compute. reflexivity. Qed.

(** ** Characters and runs of characters *)

Lemma string_app_assoc : forall a b c : string,
  ((a ++ b) ++ c)%string = (a ++ (b ++ c))%string.
Proof. induction a as [|x a IH]; intros b c; cbn; [reflexivity | now rewrite IH]. Qed.

Lemma string_app_length : forall a b : string,
  String.length (a ++ b) = String.length a + String.length b.
Proof. induction a as [|x a IH]; intros b; cbn; [reflexivity | now rewrite IH]. Qed.

Lemma string_app_nil_r : forall a : string, (a ++ "")%string = a.
Proof. induction a as [|x a IH]; cbn; [reflexivity | now rewrite IH]. Qed.

Lemma continuation_ascii a :
  (N_of_ascii a <? 128)%N = true -> Re.continuation a = None.
Proof.
  unfold Re.continuation. cbv zeta. intros H.
  apply N.ltb_lt in H.
  destruct (128 <=? N_of_ascii a)%N eqn:E; [|reflexivity].
  apply N.leb_le in E. lia.
Qed.

(** The character at the head of a text is a prefix of the text, of one
    to four bytes. *)
Lemma decode_head_split s cp w rest :
  Re.decode_head s = Some (cp, w, rest) ->
  exists d, s = (d ++ rest)%string /\ String.length d = w /\ 1 <= w /\
            Re.decode_head d = Some (cp, w, "").
Proof.
  unfold Re.decode_head. destruct s as [|a s1]; [discriminate|]. cbv zeta.
  destruct (N_of_ascii a <? 128)%N eqn:E1.
  { intros H; injection H as <- <- <-. exists (String a "").
    rewrite E1. repeat split; auto. }
  destruct (N_of_ascii a <? 192)%N eqn:E2; [discriminate|].
  destruct (N_of_ascii a <? 224)%N eqn:E3.
  { destruct s1 as [|b s2]; [discriminate|].
    destruct (Re.continuation b) as [x|] eqn:Eb; [|discriminate].
    destruct (128 <=? _)%N eqn:Ec; [|discriminate].
    intros H; injection H as <- <- <-.
    exists (String a (String b "")).
    rewrite E1, E2, E3, Eb, Ec. repeat split; auto. }
  destruct (N_of_ascii a <? 240)%N eqn:E4.
  { destruct s1 as [|b [|c s3]]; try discriminate.
    destruct (Re.continuation b) as [x|] eqn:Eb; [|discriminate].
    destruct (Re.continuation c) as [y|] eqn:Ec; [|discriminate].
    destruct (2048 <=? _)%N eqn:El; [|discriminate].
    intros H; injection H as <- <- <-.
    exists (String a (String b (String c ""))).
    rewrite E1, E2, E3, E4, Eb, Ec, El. repeat split; auto. }
  destruct (N_of_ascii a <? 248)%N eqn:E5; [|discriminate].
  destruct s1 as [|b [|c [|d s4]]]; try discriminate.
  destruct (Re.continuation b) as [x|] eqn:Eb; [|discriminate].
  destruct (Re.continuation c) as [y|] eqn:Ec; [|discriminate].
  destruct (Re.continuation d) as [z|] eqn:Ed; [|discriminate].
  destruct (65536 <=? _)%N eqn:El; [|discriminate].
  intros H; injection H as <- <- <-.
  exists (String a (String b (String c (String d "")))).
  rewrite E1, E2, E3, E4, E5, Eb, Ec, Ed, El. repeat split; auto.
Qed.

(** What follows a character does not change it. *)
Lemma decode_head_app s t cp w rest :
  Re.decode_head s = Some (cp, w, rest) ->
  Re.decode_head (s ++ t) = Some (cp, w, (rest ++ t)%string).
Proof.
  unfold Re.decode_head. destruct s as [|a s1]; [discriminate|].
  cbn [append]. cbv zeta.
  destruct (N_of_ascii a <? 128)%N eqn:E1.
  { intros H; injection H as <- <- <-. reflexivity. }
  destruct (N_of_ascii a <? 192)%N eqn:E2; [discriminate|].
  destruct (N_of_ascii a <? 224)%N eqn:E3.
  { destruct s1 as [|b s2]; [discriminate|]. cbn [append].
    destruct (Re.continuation b) as [x|] eqn:Eb; [|discriminate].
    destruct (128 <=? _)%N eqn:Ec; [|discriminate].
    intros H; injection H as <- <- <-. reflexivity. }
  destruct (N_of_ascii a <? 240)%N eqn:E4.
  { destruct s1 as [|b [|c s3]]; try discriminate. cbn [append].
    destruct (Re.continuation b) as [x|] eqn:Eb; [|discriminate].
    destruct (Re.continuation c) as [y|] eqn:Ec; [|discriminate].
    destruct (2048 <=? _)%N eqn:El; [|discriminate].
    intros H; injection H as <- <- <-. reflexivity. }
  destruct (N_of_ascii a <? 248)%N eqn:E5; [|discriminate].
  destruct s1 as [|b [|c [|d s4]]]; try discriminate. cbn [append].
  destruct (Re.continuation b) as [x|] eqn:Eb; [|discriminate].
  destruct (Re.continuation c) as [y|] eqn:Ec; [|discriminate].
  destruct (Re.continuation d) as [z|] eqn:Ed; [|discriminate].
  destruct (65536 <=? _)%N eqn:El; [|discriminate].
  intros H; injection H as <- <- <-. reflexivity.
Qed.

(** An ASCII character is not part of the character before it. *)
Lemma decode_head_app_inv a s t cp w rest' :
  (N_of_ascii a <? 128)%N = true ->
  Re.decode_head (s ++ String a t) = Some (cp, w, rest') ->
  (s = "" /\ cp = N_of_ascii a /\ w = 1 /\ rest' = t) \/
  exists rest, Re.decode_head s = Some (cp, w, rest) /\
               rest' = (rest ++ String a t)%string.
Proof.
  intros Ha. pose proof (continuation_ascii a Ha) as Hc.
  destruct s as [|b s1].
  { cbn [append]. unfold Re.decode_head. cbv zeta. rewrite Ha.
    intros H; injection H as <- <- <-. left. auto. }
  right. revert H. unfold Re.decode_head. cbn [append]. cbv zeta.
  destruct (N_of_ascii b <? 128)%N eqn:E1.
  { intros H; injection H as <- <- <-. eauto. }
  destruct (N_of_ascii b <? 192)%N eqn:E2; [discriminate|].
  destruct (N_of_ascii b <? 224)%N eqn:E3.
  { destruct s1 as [|b2 s2]; cbn [append]; [rewrite Hc; discriminate|].
    destruct (Re.continuation b2) as [x|] eqn:Eb; [|discriminate].
    destruct (128 <=? _)%N eqn:Ec; [|discriminate].
    intros H; injection H as <- <- <-. eauto. }
  destruct (N_of_ascii b <? 240)%N eqn:E4.
  { destruct s1 as [|b2 [|b3 s3]]; cbn [append].
    - destruct t; [|rewrite Hc]; discriminate.
    - rewrite Hc. destruct (Re.continuation b2); discriminate.
    - destruct (Re.continuation b2) as [x|] eqn:Eb; [|discriminate].
      destruct (Re.continuation b3) as [y|] eqn:Ec; [|discriminate].
      destruct (2048 <=? _)%N eqn:El; [|discriminate].
      intros H; injection H as <- <- <-. eauto. }
  destruct (N_of_ascii b <? 248)%N eqn:E5; [|discriminate].
  destruct s1 as [|b2 [|b3 [|b4 s4]]]; cbn [append].
  - rewrite Hc. destruct t as [|? [|? ?]]; discriminate.
  - rewrite Hc. destruct t; [discriminate|].
    destruct (Re.continuation b2); discriminate.
  - rewrite Hc. destruct (Re.continuation b2); [|discriminate].
    destruct (Re.continuation b3); discriminate.
  - destruct (Re.continuation b2) as [x|] eqn:Eb; [|discriminate].
    destruct (Re.continuation b3) as [y|] eqn:Ec; [|discriminate].
    destruct (Re.continuation b4) as [z|] eqn:Ed; [|discriminate].
    destruct (65536 <=? _)%N eqn:El; [|discriminate].
    intros H; injection H as <- <- <-. eauto.
Qed.

(** On ASCII, [\d] is [0-9]. *)
Lemma is_decimal_ascii py a :
  (N_of_ascii a <? 128)%N = true ->
  Re.is_decimal py (N_of_ascii a) = Json.is_digit a.
Proof.
  intros H. unfold Re.is_decimal. rewrite H. clear H.
  destruct a as [[] [] [] [] [] [] [] []]; vm_compute; reflexivity.
Qed.

Lemma step_split py c s w rest :
  Re.step py c s = Some (w, rest) ->
  exists d, s = (d ++ rest)%string /\ String.length d = w /\ 1 <= w /\
            Re.step py c d = Some (w, "").
Proof.
  destruct c as [b| |]; cbn [Re.step].
  - destruct s as [|a s']; [discriminate|].
    destruct (Ascii.eqb a b) eqn:E; [|discriminate].
    intros H; injection H as <- <-. exists (String a "").
    rewrite E. repeat split; auto.
  - destruct s as [|a s']; [discriminate|].
    intros H; injection H as <- <-. exists (String a "").
    repeat split; auto.
  - destruct (Re.decode_head s) as [[[cp w'] r]|] eqn:E; [|discriminate].
    destruct (Re.is_decimal py cp) eqn:Ed; [|discriminate].
    intros H; injection H as <- <-.
    destruct (decode_head_split _ _ _ _ E) as (d & Hs & Hl & Hw & Hd).
    exists d. rewrite Hd, Ed. repeat split; auto.
Qed.

Lemma step_app py c s t w rest :
  Re.step py c s = Some (w, rest) ->
  Re.step py c (s ++ t) = Some (w, (rest ++ t)%string).
Proof.
  destruct c as [b| |]; cbn [Re.step].
  - destruct s as [|a s']; [discriminate|]. cbn [append].
    destruct (Ascii.eqb a b); [|discriminate].
    intros H; injection H as <- <-. reflexivity.
  - destruct s as [|a s']; [discriminate|]. cbn [append].
    intros H; injection H as <- <-. reflexivity.
  - destruct (Re.decode_head s) as [[[cp w'] r]|] eqn:E; [|discriminate].
    rewrite (decode_head_app _ t _ _ _ E).
    destruct (Re.is_decimal py cp); [|discriminate].
    intros H; injection H as <- <-. reflexivity.
Qed.

(** A character of the class before an ASCII character that is not of
    the class lies before it. *)
Lemma step_app_inv py c a s t w rest' :
  class_rejects c a = true ->
  (N_of_ascii a <? 128)%N = true ->
  Re.step py c (s ++ String a t) = Some (w, rest') ->
  exists rest, Re.step py c s = Some (w, rest) /\
               rest' = (rest ++ String a t)%string.
Proof.
  intros Hr Ha. destruct c as [b| |]; cbn [Re.step class_rejects] in *.
  - destruct s as [|x s']; cbn [append].
    + apply negb_true_iff in Hr. rewrite Hr. discriminate.
    + destruct (Ascii.eqb x b); [|discriminate].
      intros H; injection H as <- <-. eauto.
  - discriminate.
  - destruct (Re.decode_head (s ++ String a t)) as [[[cp w'] r]|] eqn:E;
      [|discriminate].
    destruct (Re.is_decimal py cp) eqn:Ed; [|discriminate].
    intros H; injection H as <- <-.
    destruct (decode_head_app_inv _ _ _ _ _ _ Ha E)
      as [(-> & -> & -> & ->) | (rest & Hd & ->)].
    + rewrite (is_decimal_ascii py a Ha) in Ed.
      rewrite Ed in Hr. discriminate.
    + exists rest. rewrite Hd, Ed. auto.
Qed.

Lemma skip_split py c : forall k s w rest,
  Re.skip py c k s = Some (w, rest) ->
  exists d, s = (d ++ rest)%string /\ String.length d = w /\ k <= w /\
            Re.skip py c k d = Some (w, "").
Proof.
  induction k as [|k IH]; intros s w rest H; cbn [Re.skip] in *.
  - injection H as <- <-. exists "". repeat split; auto.
  - destruct (Re.step py c s) as [[w1 r1]|] eqn:E1; [|discriminate].
    destruct (Re.skip py c k r1) as [[w2 r2]|] eqn:E2; [|discriminate].
    injection H as <- <-.
    destruct (step_split _ _ _ _ _ E1) as (d1 & -> & Hl1 & Hw1 & Hd1).
    destruct (IH _ _ _ E2) as (d2 & -> & Hl2 & Hw2 & Hd2).
    exists (d1 ++ d2)%string.
    rewrite string_app_assoc, string_app_length.
    rewrite (step_app _ _ _ d2 _ _ Hd1). cbn [append]. rewrite Hd2.
    repeat split; auto; lia.
Qed.

Lemma skip_app py c t : forall k s w rest,
  Re.skip py c k s = Some (w, rest) ->
  Re.skip py c k (s ++ t) = Some (w, (rest ++ t)%string).
Proof.
  induction k as [|k IH]; intros s w rest H; cbn [Re.skip] in *.
  - injection H as <- <-. reflexivity.
  - destruct (Re.step py c s) as [[w1 r1]|] eqn:E1; [|discriminate].
    destruct (Re.skip py c k r1) as [[w2 r2]|] eqn:E2; [|discriminate].
    injection H as <- <-.
    now rewrite (step_app _ _ _ t _ _ E1), (IH _ _ _ E2).
Qed.

Lemma skip_app_inv py c a t :
  class_rejects c a = true ->
  (N_of_ascii a <? 128)%N = true ->
  forall k s w rest',
    Re.skip py c k (s ++ String a t) = Some (w, rest') ->
    exists rest, Re.skip py c k s = Some (w, rest) /\
                 rest' = (rest ++ String a t)%string.
Proof.
  intros Hr Ha. induction k as [|k IH]; intros s w rest' H; cbn [Re.skip] in *.
  - injection H as <- <-. eauto.
  - destruct (Re.step py c (s ++ String a t)) as [[w1 r1]|] eqn:E1; [|discriminate].
    destruct (step_app_inv _ _ _ _ _ _ _ Hr Ha E1) as (r & Hs & ->).
    destruct (Re.skip py c k (r ++ String a t)) as [[w2 r2]|] eqn:E2;
      [|discriminate].
    injection H as <- <-.
    destruct (IH _ _ _ E2) as (r' & Hk & ->).
    exists r'. now rewrite Hs, Hk.
Qed.

Lemma run_length_upto_skip py c : forall k s w rest bound hi,
  Re.skip py c k s = Some (w, rest) ->
  within hi k ->
  String.length s <= bound ->
  k <= Re.run_length_upto py bound c hi s.
Proof.
  induction k as [|k IH]; intros s w rest bound hi H Hh Hb; [lia|].
  cbn [Re.skip] in H.
  destruct (Re.step py c s) as [[w1 r1]|] eqn:E1; [|discriminate].
  destruct (Re.skip py c k r1) as [[w2 r2]|] eqn:E2; [|discriminate].
  destruct (step_split _ _ _ _ _ E1) as (d1 & Hs & Hl1 & Hw1 & _).
  assert (Hlen : String.length s = w1 + String.length r1).
  { rewrite Hs, string_app_length. lia. }
  destruct bound as [|bound]; [lia|].
  cbn [Re.run_length_upto]. rewrite E1.
  destruct hi as [[|h]|]; cbn [within] in Hh; [lia| |];
    apply le_n_S; (eapply IH; [exact E2 | cbn; lia || exact I | lia]).
Qed.

Lemma run_length_skip py c k s w rest hi :
  Re.skip py c k s = Some (w, rest) -> within hi k ->
  k <= Re.run_length py c hi s.
Proof.
  intros H Hh. unfold Re.run_length.
  eapply run_length_upto_skip; [exact H | exact Hh | lia].
Qed.

Lemma run_length_upto_hi py c : forall bound s h,
  Re.run_length_upto py bound c (Some h) s <= h.
Proof.
  induction bound as [|b IH]; intros s h; cbn [Re.run_length_upto]; [lia|].
  destruct h as [|h]; [lia|].
  destruct (Re.step py c s) as [[w r]|]; [|lia].
  cbn [option_map Nat.pred]. apply le_n_S, IH.
Qed.

Lemma run_length_within py c hi s : within hi (Re.run_length py c hi s).
Proof.
  destruct hi as [h|]; cbn [within]; [|exact I].
  apply run_length_upto_hi.
Qed.

(** ** Backtracking *)

Lemma try_down_none A (f : nat -> option A) lo : forall n,
  Re.try_down f lo n = None -> forall k, lo <= k <= n -> f k = None.
Proof.
  induction n as [|n IH]; intros H k Hk; cbn [Re.try_down] in H.
  - destruct (0 <? lo)%nat eqn:E; [apply Nat.ltb_lt in E; lia|].
    assert (k = 0) by lia. subst k. destruct (f 0); [discriminate | reflexivity].
  - destruct (S n <? lo)%nat eqn:E; [apply Nat.ltb_lt in E; lia|].
    destruct (f (S n)) eqn:Ef; [discriminate|].
    destruct (Nat.eq_dec k (S n)) as [->|Hne]; [exact Ef|].
    apply IH; [exact H | lia].
Qed.

Lemma try_down_all_none A (f : nat -> option A) lo : forall n,
  (forall k, lo <= k <= n -> f k = None) -> Re.try_down f lo n = None.
Proof.
  induction n as [|n IH]; intros H; cbn [Re.try_down].
  - destruct (0 <? lo)%nat eqn:E; [reflexivity|].
    apply Nat.ltb_ge in E. rewrite H by lia. reflexivity.
  - destruct (S n <? lo)%nat eqn:E; [reflexivity|].
    apply Nat.ltb_ge in E. rewrite H by lia.
    apply IH. intros k Hk. apply H. lia.
Qed.

Lemma try_down_some_bounds A (f : nat -> option A) lo x : forall n,
  Re.try_down f lo n = Some x -> exists k, lo <= k <= n /\ f k = Some x.
Proof.
  induction n as [|n IH]; intros H; cbn [Re.try_down] in H.
  - destruct (0 <? lo)%nat eqn:E; [discriminate|]. apply Nat.ltb_ge in E.
    destruct (f 0) eqn:Ef; [|discriminate]. injection H as ->.
    exists 0. split; [lia | exact Ef].
  - destruct (S n <? lo)%nat eqn:E; [discriminate|]. apply Nat.ltb_ge in E.
    destruct (f (S n)) eqn:Ef.
    + injection H as ->. exists (S n). split; [lia | exact Ef].
    + destruct (IH H) as (k & Hk & Hf). exists k. split; [lia | exact Hf].
Qed.

(** A repetition fails exactly when every allowed number of repetitions
    fails. *)
Lemma match_here_rep_none py c lo hi r s pos :
  Re.match_here py (Re.Rep c lo hi :: r) s pos = None <->
  forall k w rest,
    lo <= k -> within hi k -> Re.skip py c k s = Some (w, rest) ->
    Re.match_here py r rest (pos + w) = None.
Proof.
  rewrite match_here_rep. split.
  - intros H k w rest Hlo Hhi Hs.
    pose proof (try_down_none _ _ _ _ H k) as Hk. cbv beta in Hk.
    rewrite Hs in Hk. apply Hk. split; [exact Hlo|].
    eapply run_length_skip; eassumption.
  - intros H. apply try_down_all_none. intros k [Hlo Hk].
    destruct (Re.skip py c k s) as [[w rest]|] eqn:Es; [|reflexivity].
    apply (H k w rest Hlo); [|exact Es].
    pose proof (run_length_within py c hi s) as Hw.
    destruct hi as [h|]; cbn [within] in *; [lia | exact I].
Qed.

Lemma match_here_rep_some py c lo hi r s pos x :
  Re.match_here py (Re.Rep c lo hi :: r) s pos = Some x ->
  exists k w rest,
    lo <= k /\ within hi k /\ Re.skip py c k s = Some (w, rest) /\
    Re.match_here py r rest (pos + w) = Some x.
Proof.
  rewrite match_here_rep. intros H.
  apply try_down_some_bounds in H as (k & [Hlo Hk] & Hf).
  destruct (Re.skip py c k s) as [[w rest]|] eqn:Es; [|discriminate].
  exists k, w, rest. repeat split; try assumption.
  pose proof (run_length_within py c hi s) as Hw.
  destruct hi as [h|]; cbn [within] in *; [lia | exact I].
Qed.

Lemma match_here_one py c r s pos :
  Re.match_here py (Re.One c :: r) s pos =
  match Re.step py c s with
  | Some (w, rest) => Re.match_here py r rest (pos + w)
  | None => None
  end.
Proof. reflexivity. Qed.

Lemma match_here_mark py r s pos :
  Re.match_here py (Re.Mark :: r) s pos =
  match Re.match_here py r s pos with
  | Some (e, ms) => Some (e, pos :: ms)
  | None => None
  end.
Proof. reflexivity. Qed.

(** ** The sitemap pattern *)

(** Text appended after an ASCII character the pattern rejects cannot
    turn a failed match into a match. *)
Lemma match_here_extend_none py a t : forall r,
  rejects a r = true ->
  forall s pos,
    Re.match_here py r s pos = None ->
    Re.match_here py r (s ++ String a t) pos = None.
Proof.
  assert (Hascii : forall r, rejects a r = true -> (N_of_ascii a <? 128)%N = true).
  { induction r as [|[c|c lo hi|] r IH]; cbn [rejects]; intros H;
      [exact H | apply andb_prop in H as [_ H]; auto
      | apply andb_prop in H as [_ H]; auto | auto]. }
  induction r as [|[c|c lo hi|] r IH]; intros Hr s pos H.
  - discriminate.
  - pose proof (Hascii _ Hr) as Ha.
    cbn [rejects] in Hr. apply andb_prop in Hr as [Hc Hr].
    rewrite match_here_one in *.
    destruct (Re.step py c (s ++ String a t)) as [[w rest']|] eqn:E;
      [|reflexivity].
    destruct (step_app_inv _ _ _ _ _ _ _ Hc Ha E) as (rest & Hs & ->).
    rewrite Hs in H. now apply IH.
  - pose proof (Hascii _ Hr) as Ha.
    cbn [rejects] in Hr. apply andb_prop in Hr as [Hc Hr].
    apply match_here_rep_none. intros k w rest' Hlo Hhi Hs.
    destruct (skip_app_inv py _ _ _ Hc Ha _ _ _ _ Hs) as (rest & Hk & ->).
    apply IH; [exact Hr|].
    exact (proj1 (match_here_rep_none _ _ _ _ _ _ _) H k w rest Hlo Hhi Hk).
  - cbn [rejects] in Hr. rewrite match_here_mark in *.
    destruct (Re.match_here py r s pos) as [[e ms]|] eqn:E; [discriminate|].
    now rewrite (IH Hr _ _ E).
Qed.

Lemma search_from_unfold py r whole a s pos :
  Re.search_from py r whole (String a s) pos =
  match Re.match_here py r (String a s) pos with
  | Some (e, ms) => Some (Re.MkMatch whole pos e ms)
  | None => Re.search_from py r whole s (S pos)
  end.
Proof. reflexivity. Qed.

Lemma search_from_extend py r a t whole whole' :
  rejects a r = true ->
  forall s pos,
    Re.search_from py r whole s pos = None ->
    Re.search_from py r whole' (s ++ String a t) pos
    = Re.search_from py r whole' (String a t) (pos + String.length s).
Proof.
  intros Hr. induction s as [|b s IH]; intros pos H.
  - cbn [append String.length]. now rewrite Nat.add_0_r.
  - rewrite search_from_unfold in H.
    destruct (Re.match_here py r (String b s) pos) as [[e ms]|] eqn:E;
      [discriminate|].
    cbn [append String.length]. rewrite search_from_unfold.
    change (String b (s ++ String a t)) with (String b s ++ String a t)%string.
    rewrite (match_here_extend_none _ _ _ _ Hr _ _ E), (IH _ H).
    f_equal. lia.
Qed.

Lemma drop_app_length n : forall s t,
  Str.drop (String.length s + n) (s ++ t) = Str.drop n t.
Proof. induction s as [|a s IH]; intros t; cbn; [reflexivity | apply IH]. Qed.

Lemma slice_app_length s t i j :
  Str.slice (String.length s + i) (String.length s + j) (s ++ t)
  = Str.slice i j t.
Proof.
  unfold Str.slice. rewrite drop_app_length. f_equal. lia.
Qed.

Lemma take_app_length : forall s t, Str.take (String.length s) (s ++ t) = s.
Proof. induction s as [|a s IH]; intros t; cbn; [reflexivity | now rewrite IH]. Qed.

(** The part [b] of [a ++ b ++ c]. *)
Lemma slice_middle a b c :
  Str.slice (String.length a) (String.length a + String.length b) (a ++ b ++ c)
  = b.
Proof.
  unfold Str.slice.
  pose proof (drop_app_length 0 a (b ++ c)) as H.
  rewrite Nat.add_0_r in H. cbn [Str.drop] in H. rewrite H.
  replace (String.length a + String.length b - String.length a)
    with (String.length b) by lia.
  apply take_app_length.
Qed.

Lemma search_from_month_tail py whole p :
  Re.search_from py sitemap_pattern whole "/sitemap-2023-7.xml" p
  = Some (Re.MkMatch whole (p + 1) (p + 19) [p + 9; p + 13; p + 14; p + 15]).
Proof.
  transitivity
    (Some (Re.MkMatch whole (S p) (S p + 1 + 1 + 1 + 1 + 1 + 1 + 1 + 1 + (1 + (1 + (1 + (1 + 0)))) + 1 + (1 + 0) + 1 + 1 + 1 + 1)
             [S p + 1 + 1 + 1 + 1 + 1 + 1 + 1 + 1;
              S p + 1 + 1 + 1 + 1 + 1 + 1 + 1 + 1 + (1 + (1 + (1 + (1 + 0))));
              S p + 1 + 1 + 1 + 1 + 1 + 1 + 1 + 1 + (1 + (1 + (1 + (1 + 0)))) + 1;
              S p + 1 + 1 + 1 + 1 + 1 + 1 + 1 + 1 + (1 + (1 + (1 + (1 + 0)))) + 1 + (1 + 0)])).
  - reflexivity.
  - f_equal. f_equal; [lia | lia |].
    f_equal; [lia|]. f_equal; [lia|]. f_equal; [lia|]. f_equal. lia.
Qed.

(** A URL that ends with the file name of a monthly sitemap, after a
    directory part in which the pattern finds nothing. *)
Lemma search_month_url py prefix :
  Re.search py sitemap_pattern prefix = None ->
  Re.search py sitemap_pattern (prefix ++ "/sitemap-2023-7.xml")
  = Some (Re.MkMatch (prefix ++ "/sitemap-2023-7.xml")
            (String.length prefix + 1) (String.length prefix + 19)
            [String.length prefix + 9; String.length prefix + 13;
             String.length prefix + 14; String.length prefix + 15]).
Proof.
  intros H. unfold Re.search in *.
  rewrite (search_from_extend py sitemap_pattern "/" "sitemap-2023-7.xml"
             prefix (prefix ++ "/sitemap-2023-7.xml") eq_refl prefix 0 H).
  now rewrite search_from_month_tail.
Qed.

Lemma month_url_groups prefix :
  Re.groups (Re.MkMatch (prefix ++ "/sitemap-2023-7.xml")
               (String.length prefix + 1) (String.length prefix + 19)
               [String.length prefix + 9; String.length prefix + 13;
                String.length prefix + 14; String.length prefix + 15])
  = ["2023"; "7"].
Proof.
  unfold Re.groups. cbn [Re.m_string Re.m_marks Re.groups_of].
  rewrite !slice_app_length. reflexivity.
Qed.

Lemma match_here_marks py : forall r s pos e ms,
  Re.match_here py r s pos = Some (e, ms) -> length ms = count_marks r.
Proof.
  induction r as [|[c|c lo hi|] r IH]; intros s pos e ms H;
    cbn [count_marks].
  - cbn in H. now injection H as _ <-.
  - rewrite match_here_one in H.
    destruct (Re.step py c s) as [[w rest]|]; [|discriminate].
    now apply IH in H.
  - apply match_here_rep_some in H as (k & w & rest & _ & _ & _ & H).
    now apply IH in H.
  - rewrite match_here_mark in H.
    destruct (Re.match_here py r s pos) as [[e' ms']|] eqn:E; [|discriminate].
    injection H as _ <-. cbn [length]. f_equal. now apply IH in E.
Qed.

(** A match found by [search]: where it starts and what it matched. *)
Lemma search_from_inv py r whole : forall s pos m,
  Re.search_from py r whole s pos = Some m ->
  exists pre s',
    s = (pre ++ s')%string /\
    Re.m_start m = pos + String.length pre /\
    Re.m_string m = whole /\
    Re.match_here py r s' (Re.m_start m) = Some (Re.m_end m, Re.m_marks m).
Proof.
  assert (Hhit : forall s pos e ms m,
             Re.match_here py r s pos = Some (e, ms) ->
             Some (Re.MkMatch whole pos e ms) = Some m ->
             exists pre s',
               s = (pre ++ s')%string /\
               Re.m_start m = pos + String.length pre /\
               Re.m_string m = whole /\
               Re.match_here py r s' (Re.m_start m)
               = Some (Re.m_end m, Re.m_marks m)).
  { intros s pos e ms m E H. injection H as <-. exists "", s.
    cbn [Re.m_start Re.m_end Re.m_marks Re.m_string append String.length].
    rewrite Nat.add_0_r. repeat split. exact E. }
  induction s as [|a s IH]; intros pos m H.
  - cbn [Re.search_from] in H.
    destruct (Re.match_here py r "" pos) as [[e ms]|] eqn:E; [|discriminate].
    now apply (Hhit _ _ _ _ _ E).
  - rewrite search_from_unfold in H.
    destruct (Re.match_here py r (String a s) pos) as [[e ms]|] eqn:E.
    + now apply (Hhit _ _ _ _ _ E).
    + destruct (IH _ _ H) as (pre & s' & -> & Hs & Hw & Hm).
      exists (String a pre), s'. cbn [append String.length].
      repeat split; [lia | exact Hw | exact Hm].
Qed.

Lemma search_from_found py r whole : forall pre s' pos,
  (forall p, Re.match_here py r s' p <> None) ->
  Re.search_from py r whole (pre ++ s') pos <> None.
Proof.
  induction pre as [|a pre IH]; intros s' pos H.
  - cbn [append]. destruct s' as [|b s']; cbn [Re.search_from];
      (destruct (Re.match_here py r _ pos) as [[e ms]|] eqn:E;
       [discriminate | exfalso; now apply (H pos)]).
  - cbn [append]. rewrite search_from_unfold.
    destruct (Re.match_here py r _ pos) as [[e ms]|]; [discriminate|].
    now apply IH.
Qed.

(** A match of the sitemap pattern has exactly two groups, so that the
    unpacking of [match.groups()] into year and month cannot fail. *)
Lemma sitemap_groups_pair py u m :
  Re.search py sitemap_pattern u = Some m ->
  exists year month, Re.groups m = [year; month].
Proof.
  intros H. unfold Re.search in H.
  apply search_from_inv in H as (pre & s' & _ & _ & _ & H).
  apply match_here_marks in H.
  change (count_marks sitemap_pattern) with 4 in H.
  unfold Re.groups.
  destruct (Re.m_marks m) as [|a [|b [|c [|d [|x ms]]]]]; try discriminate.
  cbn [Re.groups_of]. eauto.
Qed.

(** ** What a match of the sitemap pattern looks like *)

Lemma match_here_mark_inv py r s pos e ms :
  Re.match_here py (Re.Mark :: r) s pos = Some (e, ms) ->
  exists ms', ms = pos :: ms' /\ Re.match_here py r s pos = Some (e, ms').
Proof.
  rewrite match_here_mark.
  destruct (Re.match_here py r s pos) as [[e' ms']|]; [|discriminate].
  intros H; injection H as <- <-. eauto.
Qed.

Lemma match_here_lits_inv py r x : forall p s pos,
  Re.match_here py (Re.lits p ++ r) s pos = Some x ->
  exists s', s = (p ++ s')%string /\
             Re.match_here py r s' (pos + String.length p) = Some x.
Proof.
  induction p as [|a p IH]; intros s pos H.
  - exists s. cbn in *. now rewrite Nat.add_0_r.
  - cbn [Re.lits app] in H.
    destruct s as [|b s1]; [discriminate|].
    rewrite match_here_lit in H.
    destruct (Ascii.eqb b a) eqn:E; [|discriminate].
    apply Ascii.eqb_eq in E. subst b.
    destruct (IH _ _ H) as (s' & -> & H').
    exists s'. split; [reflexivity|].
    cbn [String.length].
    replace (pos + S (String.length p)) with (pos + 1 + String.length p) by lia.
    exact H'.
Qed.

Lemma match_here_lits py r : forall p s pos,
  Re.match_here py (Re.lits p ++ r) (p ++ s) pos
  = Re.match_here py r s (pos + String.length p).
Proof.
  induction p as [|a p IH]; intros s pos.
  - cbn. now rewrite Nat.add_0_r.
  - cbn [Re.lits app append String.length].
    rewrite match_here_lit, Ascii.eqb_refl, IH. f_equal. lia.
Qed.

Lemma is_digits_skip py n s :
  is_digits py n s = true <-> exists w, Re.skip py Re.CDigit n s = Some (w, "").
Proof.
  unfold is_digits. split.
  - destruct (Re.skip py Re.CDigit n s) as [[w [|a r]]|]; try discriminate.
    eauto.
  - intros [w ->]. reflexivity.
Qed.

(** A match of the sitemap pattern at the head of [s]: the text matched and
    the group boundaries. *)
Lemma match_here_sitemap_inv py s pos e ms :
  Re.match_here py sitemap_pattern s pos = Some (e, ms) ->
  exists year month rest,
    s = (month_file year month ++ rest)%string /\
    is_digits py 4 year = true /\
    (is_digits py 1 month = true \/ is_digits py 2 month = true) /\
    e = pos + String.length (month_file year month) /\
    ms = [pos + 8; pos + 8 + String.length year;
          pos + 8 + String.length year + 1;
          pos + 8 + String.length year + 1 + String.length month].
Proof.
  unfold sitemap_pattern. intros H.
  apply match_here_lits_inv in H as (s1 & -> & H).
  cbn [app String.length] in H.
  apply match_here_mark_inv in H as (ms1 & -> & H).
  apply match_here_rep_some in H as (k & w & r1 & Hlo & Hhi & Hk & H).
  cbn [within] in Hhi. assert (k = 4) by lia. subst k.
  destruct (skip_split _ _ _ _ _ _ Hk) as (year & -> & Hly & _ & Hy).
  apply match_here_mark_inv in H as (ms2 & -> & H).
  rewrite match_here_one in H. cbn [Re.step] in H.
  destruct r1 as [|a s2]; [discriminate|].
  destruct (Ascii.eqb a "-") eqn:Ea; [|discriminate].
  apply Ascii.eqb_eq in Ea. subst a.
  apply match_here_mark_inv in H as (ms3 & -> & H).
  apply match_here_rep_some in H as (j & w2 & r2 & Hlo2 & Hhi2 & Hj & H).
  cbn [within] in Hhi2.
  destruct (skip_split _ _ _ _ _ _ Hj) as (month & -> & Hlm & _ & Hm).
  apply match_here_mark_inv in H as (ms4 & -> & H).
  change (Re.lits ".xml") with (Re.lits ".xml" ++ []) in H.
  apply match_here_lits_inv in H as (s4 & -> & H).
  cbn in H. injection H as <- <-.
  exists year, month, s4.
  split.
  { unfold month_file.
    repeat (rewrite ?string_app_assoc; cbn [append]). reflexivity. }
  split; [apply is_digits_skip; eauto|].
  split.
  { assert (Hc : j = 1 \/ j = 2) by lia.
    destruct Hc as [-> | ->]; [left | right]; apply is_digits_skip; eauto. }
  subst w w2. split.
  - unfold month_file. rewrite !string_app_length. cbn [String.length]. lia.
  - reflexivity.
Qed.

Lemma month_file_groups pre year month post :
  Re.groups_of (pre ++ month_file year month ++ post)
    [String.length pre + 8; String.length pre + 8 + String.length year;
     String.length pre + 8 + String.length year + 1;
     String.length pre + 8 + String.length year + 1 + String.length month]
  = [year; month].
Proof.
  cbn [Re.groups_of]. f_equal; [|f_equal].
  - assert (E : (pre ++ month_file year month ++ post)%string
                = ((pre ++ "sitemap-") ++ year
                   ++ ("-" ++ month ++ ".xml" ++ post))%string).
    { unfold month_file.
      repeat (rewrite ?string_app_assoc; cbn [append]). reflexivity. }
    rewrite E.
    replace (String.length pre + 8) with (String.length (pre ++ "sitemap-"))
      by (rewrite string_app_length; reflexivity).
    apply slice_middle.
  - assert (E : (pre ++ month_file year month ++ post)%string
                = ((pre ++ "sitemap-" ++ year ++ "-") ++ month
                   ++ (".xml" ++ post))%string).
    { unfold month_file.
      repeat (rewrite ?string_app_assoc; cbn [append]). reflexivity. }
    rewrite E.
    replace (String.length pre + 8 + String.length year + 1)
      with (String.length (pre ++ "sitemap-" ++ year ++ "-"))
      by (rewrite !string_app_length; cbn [String.length]; lia).
    apply slice_middle.
Qed.

(** A match of the sitemap pattern sits on a file name
    [sitemap-YYYY-M.xml] of the URL, and its groups are the year and the
    month of that name. *)
Lemma sitemap_match_shape py u m :
  Re.search py sitemap_pattern u = Some m ->
  exists pre year month post,
    u = (pre ++ month_file year month ++ post)%string /\
    Re.groups m = [year; month] /\
    Re.group m = month_file year month /\
    is_digits py 4 year = true /\
    (is_digits py 1 month = true \/ is_digits py 2 month = true).
Proof.
  intros H. unfold Re.search in H.
  apply search_from_inv in H as (pre & s' & Hu & Hs & Hw & Hm).
  apply match_here_sitemap_inv in Hm
    as (year & month & rest & -> & Hy & Hmo & He & Hms).
  exists pre, year, month, rest.
  split; [exact Hu|]. split; [|split; [|split; assumption]].
  - unfold Re.groups. rewrite Hw, Hms, Hs, Hu. cbn [Nat.add].
    apply month_file_groups.
  - unfold Re.group. rewrite Hw, He, Hs, Hu. cbn [Nat.add].
    apply slice_middle.
Qed.

Lemma match_here_rep_found py c lo hi r s pos k w rest :
  lo <= k -> within hi k ->
  Re.skip py c k s = Some (w, rest) ->
  Re.match_here py r rest (pos + w) <> None ->
  Re.match_here py (Re.Rep c lo hi :: r) s pos <> None.
Proof.
  intros Hlo Hhi Hs H Hn. apply H.
  exact (proj1 (match_here_rep_none _ _ _ _ _ _ _) Hn k w rest Hlo Hhi Hs).
Qed.

Lemma match_here_mark_found py r s pos :
  Re.match_here py r s pos <> None ->
  Re.match_here py (Re.Mark :: r) s pos <> None.
Proof.
  rewrite match_here_mark.
  destruct (Re.match_here py r s pos) as [[e ms]|];
    [discriminate | contradiction].
Qed.

(** The sitemap pattern matches at the head of every text that starts with
    the file name of a monthly sitemap. *)
Lemma match_here_sitemap_complete py year month rest pos :
  is_digits py 4 year = true ->
  is_digits py 1 month = true \/ is_digits py 2 month = true ->
  Re.match_here py sitemap_pattern (month_file year month ++ rest) pos <> None.
Proof.
  intros Hy Hm. unfold sitemap_pattern, month_file.
  rewrite !string_app_assoc. rewrite match_here_lits. cbn [app].
  apply is_digits_skip in Hy as [w Hy].
  apply match_here_mark_found.
  apply (match_here_rep_found py _ _ _ _ _ _ 4 w
           ("-" ++ month ++ ".xml" ++ rest)%string);
    [lia | cbn; lia | exact (skip_app py _ _ _ _ _ _ Hy) |].
  apply match_here_mark_found. cbn [append].
  rewrite match_here_lit. cbn [Ascii.eqb Bool.eqb].
  apply match_here_mark_found.
  assert (Hk : exists k w2, 1 <= k <= 2 /\
                 Re.skip py Re.CDigit k month = Some (w2, "")).
  { destruct Hm as [Hm|Hm]; apply is_digits_skip in Hm as [w2 Hm];
      [exists 1, w2 | exists 2, w2]; split; (lia || exact Hm). }
  destruct Hk as (k & w2 & Hk & Hs).
  apply (match_here_rep_found py _ _ _ _ _ _ k w2 (".xml" ++ rest)%string);
    [lia | cbn; lia | exact (skip_app py _ _ _ _ _ _ Hs) |].
  apply match_here_mark_found.
  change (Re.lits ".xml") with (Re.lits ".xml" ++ []).
  rewrite match_here_lits. discriminate.
Qed.

(** The driver processes a URL exactly when it holds such a file name. *)
Lemma is_month_url_iff py u :
  is_month_url py u = true <->
  exists pre year month post,
    u = (pre ++ month_file year month ++ post)%string /\
    is_digits py 4 year = true /\
    (is_digits py 1 month = true \/ is_digits py 2 month = true).
Proof.
  unfold is_month_url. split.
  - destruct (Re.search py sitemap_pattern u) as [m|] eqn:E; [|discriminate].
    intros _.
    destruct (sitemap_match_shape py u m E)
      as (pre & year & month & post & Hu & _ & _ & H).
    exists pre, year, month, post. split; [exact Hu | exact H].
  - intros (pre & year & month & post & -> & Hy & Hm).
    destruct (Re.search py sitemap_pattern _) eqn:E; [reflexivity|].
    exfalso. revert E. unfold Re.search. apply search_from_found.
    intros p. now apply match_here_sitemap_complete.
Qed.

(** What [process_sitemap] does, in its three cases: a URL the pattern
    does not match, a sitemap that cannot be fetched, a sitemap that can. *)
Lemma process_sitemap_cases py world u st :
  (Re.search py sitemap_pattern u = None /\
   process_sitemap py world u st = (Ok tt, st)) \/
  (exists m year month e,
     Re.search py sitemap_pattern u = Some m /\ Re.groups m = [year; month] /\
     world u = Raise e /\
     process_sitemap py world u st =
     (Raise e,
      MkState (fetched st ++ [u])
        (stdout st
         ++ [(String "010" "Processing articles for " ++ year ++ "-" ++ month ++ "...")%string])
        (files st))) \/
  (exists m year month soup,
     Re.search py sitemap_pattern u = Some m /\ Re.groups m = [year; month] /\
     world u = Ok soup /\
     process_sitemap py world u st =
     let attempted := firstn 11 (map Soup.get_text (Soup.find_all "loc" soup)) in
     let value := dumped (successes py world attempted) in
     let lines :=
       stdout st
       ++ [(String "010" "Processing articles for " ++ year ++ "-" ++ month ++ "...")%string]
       ++ failure_lines py world attempted in
     match dump_error py value with
     | None =>
         (Ok tt,
          MkState (fetched st ++ u :: attempted)
            (lines ++ [("Saved articles for " ++ year ++ "-" ++ month ++ ".")%string])
            (Dict.set (files st) (output_name year month) (Dumped value)))
     | Some e =>
         (Raise e,
          MkState (fetched st ++ u :: attempted) lines
            (Dict.set (files st) (output_name year month) (Truncated value)))
     end).
Proof.
  destruct (Re.search py sitemap_pattern u) as [m|] eqn:Hs.
  - destruct (sitemap_groups_pair py u m Hs) as (year & month & Hg).
    destruct (world u) as [soup|e] eqn:Hw.
    + right. right. exists m, year, month, soup. repeat split; try assumption.
      now apply (process_sitemap_run _ _ _ m).
    + right. left. exists m, year, month, e. repeat split; try assumption.
      now apply (process_sitemap_fetch_fails _ _ _ m).
  - left. split; [reflexivity | now apply process_sitemap_skip].
Qed.

(** C9, as stated, fails: a URL that ends in [/sitemap-2023-7.xml] and
    holds the file name of another month before is processed as that other
    month, the first match of the pattern: year 1999, month 1. *)
Lemma C9_counterexample :
  two_months_url = ("https://h/sitemap-1999-1.xml" ++ "/sitemap-2023-7.xml")%string /\
  option_map Re.groups (Re.search sample_interp sitemap_pattern two_months_url)
    = Some ["1999"; "1"] /\
  process_sitemap sample_interp (fun _ => Ok []) two_months_url initial
    = (Ok tt,
       MkState [two_months_url]
         [String "010" "Processing articles for 1999-1...";
          "Saved articles for 1999-1."]
         [("articles_1999_1.json", Dumped (PList []))]).
Proof. repeat split; vm_compute; reflexivity. Qed.

(** C9 (amended): the driver reads year and month off a monthly sitemap
    URL with the pattern, at its first match. For a URL made of a part in
    which the pattern finds nothing and [/sitemap-2023-7.xml], the year is
    2023 and the month 7, and the driver works with them: it announces the
    month 2023-7, requests the URL, and, when that gives a document,
    writes the file [articles_2023_7.json]. A URL in which the pattern
    finds nothing is skipped: nothing is fetched, nothing is printed, no
    file is written and nothing is raised. Every match has exactly the two
    groups year and month. *)
Theorem C9_sitemap_pattern py world prefix st :
  Re.search py sitemap_pattern prefix = None ->
  let url := (prefix ++ "/sitemap-2023-7.xml")%string in
  let run := process_sitemap py world url st in
  (exists m, Re.search py sitemap_pattern url = Some m /\
             Re.groups m = ["2023"; "7"]) /\
  (exists lines,
     stdout (snd run)
     = stdout st ++ String "010" "Processing articles for 2023-7..." :: lines) /\
  (exists urls, fetched (snd run) = fetched st ++ url :: urls) /\
  (forall soup, world url = Ok soup ->
     exists content,
       Dict.lookup (files (snd run)) "articles_2023_7.json" = Some content /\
       (fst run = Ok tt ->
        content = Dumped (dumped (successes py world
                    (firstn 11 (map Soup.get_text (Soup.find_all "loc" soup))))))) /\
  (forall u st', Re.search py sitemap_pattern u = None ->
     process_sitemap py world u st' = (Ok tt, st')) /\
  (forall u m, Re.search py sitemap_pattern u = Some m ->
     exists year month, Re.groups m = [year; month]).
Proof.
  intros Hp url run.
  pose proof (search_month_url py prefix Hp) as Hs. fold url in Hs.
  pose proof (month_url_groups prefix) as Hg. fold url in Hg.
  split; [eexists; split; [exact Hs | exact Hg]|].
  assert (Hrun :
    (exists lines,
       stdout (snd run)
       = stdout st ++ String "010" "Processing articles for 2023-7..." :: lines) /\
    (exists urls, fetched (snd run) = fetched st ++ url :: urls) /\
    (forall soup, world url = Ok soup ->
       exists content,
         Dict.lookup (files (snd run)) "articles_2023_7.json" = Some content /\
         (fst run = Ok tt ->
          content = Dumped (dumped (successes py world
                      (firstn 11 (map Soup.get_text (Soup.find_all "loc" soup)))))))).
  { subst run. destruct (world url) as [soup|e] eqn:Hw.
    - rewrite (process_sitemap_run py world url _ "2023" "7" soup st Hs Hg Hw).
      cbv zeta.
      destruct (dump_error py _) as [e|]; cbn [fst snd stdout fetched files].
      + split; [eexists; cbn [app append]; reflexivity|].
        split; [eexists; reflexivity|].
        intros soup' Hs'. injection Hs' as <-.
        eexists. split; [apply dict_lookup_set | discriminate].
      + split; [eexists; rewrite <- app_assoc; cbn [app append]; reflexivity|].
        split; [eexists; reflexivity|].
        intros soup' Hs'. injection Hs' as <-.
        eexists. split; [apply dict_lookup_set | reflexivity].
    - rewrite (process_sitemap_fetch_fails py world url _ "2023" "7" e st Hs Hg Hw).
      cbn [fst snd stdout fetched files].
      split; [eexists; cbn [app append]; reflexivity|].
      split; [eexists; reflexivity|].
      intros soup' Hs'. discriminate. }
  destruct Hrun as (H1 & H2 & H3).
  repeat split; try assumption.
  - intros u st'. apply process_sitemap_skip.
  - apply sitemap_groups_pair.
Qed.

Lemma C9_sitemap_pattern_witness :
  let url := ("https://www.almayadeen.net/sitemaps" ++ "/sitemap-2023-7.xml")%string in
  let run := process_sitemap sample_interp scenario_world url initial in
  (exists m, Re.search sample_interp sitemap_pattern url = Some m /\
             Re.groups m = ["2023"; "7"]) /\
  (exists lines,
     stdout (snd run)
     = stdout initial ++ String "010" "Processing articles for 2023-7..." :: lines) /\
  (exists urls, fetched (snd run) = fetched initial ++ url :: urls) /\
  (forall soup, scenario_world url = Ok soup ->
     exists content,
       Dict.lookup (files (snd run)) "articles_2023_7.json" = Some content /\
       (fst run = Ok tt ->
        content = Dumped (dumped (successes sample_interp scenario_world
                    (firstn 11 (map Soup.get_text (Soup.find_all "loc" soup))))))) /\
  (forall u st', Re.search sample_interp sitemap_pattern u = None ->
     process_sitemap sample_interp scenario_world u st' = (Ok tt, st')) /\
  (forall u m, Re.search sample_interp sitemap_pattern u = Some m ->
     exists year month, Re.groups m = [year; month]).
Proof.
  apply (C9_sitemap_pattern sample_interp scenario_world
           "https://www.almayadeen.net/sitemaps" initial).
  vm_compute. reflexivity.
Defined.

(** ** What a match of the sitemap pattern looks like: the extras *)

(** X1: a match of the sitemap pattern sits on a file name
    [sitemap-YYYY-M.xml] inside the URL: the text matched is that name, and
    its two groups are the year, of exactly four decimal digit characters,
    and the month, of one or two; the digits are those of [\d], ASCII or
    not. *)
Theorem X1_sitemap_match_shape py u m :
  Re.search py sitemap_pattern u = Some m ->
  exists pre year month post,
    u = (pre ++ month_file year month ++ post)%string /\
    Re.groups m = [year; month] /\
    Re.group m = month_file year month /\
    is_digits py 4 year = true /\
    (is_digits py 1 month = true \/ is_digits py 2 month = true).
Proof. apply sitemap_match_shape. Qed.

(** A URL whose year and month are written in Arabic-Indic digits. *)
Lemma X1_sitemap_match_shape_witness :
  exists pre year month post,
    arabic_month_url = (pre ++ month_file year month ++ post)%string /\
    Re.groups (Re.MkMatch arabic_month_url 36 59 [44; 52; 53; 55])
      = [year; month] /\
    Re.group (Re.MkMatch arabic_month_url 36 59 [44; 52; 53; 55])
      = month_file year month /\
    is_digits sample_interp 4 year = true /\
    (is_digits sample_interp 1 month = true \/
     is_digits sample_interp 2 month = true).
Proof.
  apply (X1_sitemap_match_shape sample_interp arabic_month_url
           (Re.MkMatch arabic_month_url 36 59 [44; 52; 53; 55])).
  vm_compute. reflexivity.
Defined.

(** X2: the driver processes a sitemap URL exactly when the URL contains
    a file name [sitemap-YYYY-M.xml] with a year of four decimal digit
    characters and a month of one or two; every other URL is skipped. *)
Theorem X2_month_url_iff py world u :
  (is_month_url py u = true <->
   exists pre year month post,
     u = (pre ++ month_file year month ++ post)%string /\
     is_digits py 4 year = true /\
     (is_digits py 1 month = true \/ is_digits py 2 month = true)) /\
  (is_month_url py u = false ->
   forall st, process_sitemap py world u st = (Ok tt, st)) /\
  (is_month_url py u = true ->
   forall st, exists year month lines,
     stdout (snd (process_sitemap py world u st))
     = stdout st
       ++ (String "010" "Processing articles for " ++ year ++ "-" ++ month ++ "...")%string
       :: lines).
Proof.
  split; [apply is_month_url_iff|]. unfold is_month_url. split.
  - destruct (Re.search py sitemap_pattern u) eqn:E; [discriminate|].
    intros _ st. now apply process_sitemap_skip.
  - intros H st.
    destruct (process_sitemap_cases py world u st)
      as [[Hn _] | [(m & y & mo & e & _ & _ & _ & ->)
                   | (m & y & mo & soup & _ & _ & _ & ->)]].
    + rewrite Hn in H. discriminate.
    + exists y, mo, []. reflexivity.
    + exists y, mo. cbv zeta.
      destruct (dump_error py _); cbn [snd stdout]; eexists;
        rewrite <- ?app_assoc; cbn [app]; reflexivity.
Qed.

(** ** The files a run writes *)

Lemma string_app_inj_length : forall a b x y : string,
  String.length a = String.length b ->
  (a ++ x)%string = (b ++ y)%string -> a = b /\ x = y.
Proof.
  induction a as [|c a IH]; intros [|d b] x y Hl H; cbn in *;
    try discriminate.
  - split; [reflexivity | exact H].
  - injection H as -> H. injection Hl as Hl.
    destruct (IH _ _ _ Hl H) as [-> ->]. split; reflexivity.
Qed.

Lemma string_app_inv_tail a b t :
  (a ++ t)%string = (b ++ t)%string -> a = b.
Proof.
  intros H.
  assert (Hl : String.length a = String.length b).
  { apply (f_equal String.length) in H. rewrite !string_app_length in H. lia. }
  now apply string_app_inj_length in H as [-> _].
Qed.

(** Two texts cut at the first occurrence of [c]. *)
Lemma split_at_first c : forall a b x y,
  occurs c a = false -> occurs c b = false ->
  (a ++ String c x)%string = (b ++ String c y)%string -> a = b /\ x = y.
Proof.
  induction a as [|d a IH]; intros [|e b] x y Ha Hb H; cbn [append occurs] in *.
  - injection H as ->. split; reflexivity.
  - injection H as <- _. rewrite Ascii.eqb_refl in Hb. discriminate.
  - injection H as -> _. rewrite Ascii.eqb_refl in Ha. discriminate.
  - injection H as -> H.
    apply orb_false_iff in Ha as [_ Ha]. apply orb_false_iff in Hb as [_ Hb].
    destruct (IH _ _ _ Ha Hb H) as [-> ->]. split; reflexivity.
Qed.

Lemma occurs_app c : forall a b,
  occurs c (a ++ b) = occurs c a || occurs c b.
Proof.
  induction a as [|d a IH]; intros b; cbn [append occurs]; [reflexivity|].
  now rewrite IH, orb_assoc.
Qed.

Lemma high_not_underscore a :
  (N_of_ascii a <? 128)%N = false -> Ascii.eqb a "_" = false.
Proof.
  destruct a as [[] [] [] [] [] [] [] []]; intros H; try reflexivity;
    vm_compute in H; discriminate H.
Qed.

Lemma digit_not_underscore a :
  Json.is_digit a = true -> Ascii.eqb a "_" = false.
Proof.
  destruct a as [[] [] [] [] [] [] [] []]; intros H; try reflexivity;
    vm_compute in H; discriminate H.
Qed.

Lemma continuation_high a x :
  Re.continuation a = Some x -> (N_of_ascii a <? 128)%N = false.
Proof.
  intros H. destruct (N_of_ascii a <? 128)%N eqn:E; [|reflexivity].
  rewrite (continuation_ascii a E) in H. discriminate.
Qed.

(** No byte of a decimal digit character is an underscore. *)
Lemma step_digit_no_underscore py s w rest :
  Re.step py Re.CDigit s = Some (w, rest) ->
  exists d, s = (d ++ rest)%string /\ occurs "_" d = false.
Proof.
  cbn [Re.step].
  destruct (Re.decode_head s) as [[[cp w'] r]|] eqn:E; [|discriminate].
  destruct (Re.is_decimal py cp) eqn:Ed; [|discriminate].
  intros H; injection H as <- <-.
  revert E. unfold Re.decode_head. destruct s as [|a s1]; [discriminate|].
  cbv zeta.
  destruct (N_of_ascii a <? 128)%N eqn:E1.
  { intros H; injection H as <- <- <-. exists (String a "").
    split; [reflexivity|]. cbn [occurs].
    rewrite (is_decimal_ascii py a E1) in Ed.
    now rewrite (digit_not_underscore a Ed). }
  pose proof (high_not_underscore a E1) as Ha.
  destruct (N_of_ascii a <? 192)%N eqn:E2; [discriminate|].
  destruct (N_of_ascii a <? 224)%N eqn:E3.
  { destruct s1 as [|b s2]; [discriminate|].
    destruct (Re.continuation b) as [x|] eqn:Eb; [|discriminate].
    destruct (128 <=? _)%N eqn:Ec; [|discriminate].
    intros H; injection H as <- <- <-.
    exists (String a (String b "")). split; [reflexivity|]. cbn [occurs].
    now rewrite Ha, (high_not_underscore b (continuation_high _ _ Eb)). }
  destruct (N_of_ascii a <? 240)%N eqn:E4.
  { destruct s1 as [|b [|c s3]]; try discriminate.
    destruct (Re.continuation b) as [x|] eqn:Eb; [|discriminate].
    destruct (Re.continuation c) as [y|] eqn:Ec; [|discriminate].
    destruct (2048 <=? _)%N eqn:El; [|discriminate].
    intros H; injection H as <- <- <-.
    exists (String a (String b (String c ""))). split; [reflexivity|].
    cbn [occurs].
    now rewrite Ha, (high_not_underscore b (continuation_high _ _ Eb)),
      (high_not_underscore c (continuation_high _ _ Ec)). }
  destruct (N_of_ascii a <? 248)%N eqn:E5; [|discriminate].
  destruct s1 as [|b [|c [|d s4]]]; try discriminate.
  destruct (Re.continuation b) as [x|] eqn:Eb; [|discriminate].
  destruct (Re.continuation c) as [y|] eqn:Ec; [|discriminate].
  destruct (Re.continuation d) as [z|] eqn:Ed'; [|discriminate].
  destruct (65536 <=? _)%N eqn:El; [|discriminate].
  intros H; injection H as <- <- <-.
  exists (String a (String b (String c (String d "")))). split; [reflexivity|].
  cbn [occurs].
  now rewrite Ha, (high_not_underscore b (continuation_high _ _ Eb)),
    (high_not_underscore c (continuation_high _ _ Ec)),
    (high_not_underscore d (continuation_high _ _ Ed')).
Qed.

Lemma skip_digit_no_underscore py : forall k s w rest,
  Re.skip py Re.CDigit k s = Some (w, rest) ->
  exists d, s = (d ++ rest)%string /\ occurs "_" d = false.
Proof.
  induction k as [|k IH]; intros s w rest H; cbn [Re.skip] in H.
  - injection H as <- <-. exists "". split; reflexivity.
  - destruct (Re.step py Re.CDigit s) as [[w1 r1]|] eqn:E1; [|discriminate].
    destruct (Re.skip py Re.CDigit k r1) as [[w2 r2]|] eqn:E2; [|discriminate].
    injection H as <- <-.
    destruct (step_digit_no_underscore _ _ _ _ E1) as (d1 & -> & H1).
    destruct (IH _ _ _ E2) as (d2 & -> & H2).
    exists (d1 ++ d2)%string. split; [now rewrite string_app_assoc|].
    now rewrite occurs_app, H1, H2.
Qed.

Lemma is_digits_no_underscore py n s :
  is_digits py n s = true -> occurs "_" s = false.
Proof.
  intros H. apply is_digits_skip in H as [w H].
  destruct (skip_digit_no_underscore _ _ _ _ _ H) as (d & -> & Hd).
  now rewrite string_app_nil_r.
Qed.

(** The name of the output file determines year and month, when they are
    made of digits. *)
Lemma output_name_inj y1 m1 y2 m2 :
  occurs "_" y1 = false -> occurs "_" y2 = false ->
  output_name y1 m1 = output_name y2 m2 -> y1 = y2 /\ m1 = m2.
Proof.
  unfold output_name. intros H1 H2 H.
  cbn [append] in H. repeat injection H as H.
  change (y1 ++ String "_" (m1 ++ ".json") = y2 ++ String "_" (m2 ++ ".json"))%string
    in H.
  apply split_at_first in H as [-> H]; [|assumption..].
  split; [reflexivity|]. now apply string_app_inv_tail in H.
Qed.

Lemma dict_lookup_set_other V (d : list (string * V)) k k' v :
  k' <> k -> Dict.lookup (Dict.set d k v) k' = Dict.lookup d k'.
Proof.
  intros Hne. induction d as [|[k0 v0] d IH]; cbn [Dict.set Dict.lookup].
  - destruct (String.eqb k k') eqn:E; [|reflexivity].
    apply String.eqb_eq in E. congruence.
  - destruct (String.eqb k0 k) eqn:E0; cbn [Dict.lookup].
    + apply String.eqb_eq in E0. subst k0.
      destruct (String.eqb k k') eqn:E; [|reflexivity].
      apply String.eqb_eq in E. congruence.
    + now rewrite IH.
Qed.

(** X3: two monthly sitemaps are written to the same file only when they
    have the same year and the same month: the file name determines both. *)
Theorem X3_file_name_determines_month py u1 m1 y1 mo1 u2 m2 y2 mo2 :
  Re.search py sitemap_pattern u1 = Some m1 -> Re.groups m1 = [y1; mo1] ->
  Re.search py sitemap_pattern u2 = Some m2 -> Re.groups m2 = [y2; mo2] ->
  output_name y1 mo1 = output_name y2 mo2 ->
  y1 = y2 /\ mo1 = mo2.
Proof.
  intros Hs1 Hg1 Hs2 Hg2 Hn.
  destruct (sitemap_match_shape _ _ _ Hs1)
    as (p1 & a1 & b1 & q1 & _ & Hg1' & _ & Hy1 & _).
  destruct (sitemap_match_shape _ _ _ Hs2)
    as (p2 & a2 & b2 & q2 & _ & Hg2' & _ & Hy2 & _).
  rewrite Hg1 in Hg1'. rewrite Hg2 in Hg2'.
  injection Hg1' as -> ->. injection Hg2' as -> ->.
  apply output_name_inj;
    [exact (is_digits_no_underscore _ _ _ Hy1)
    | exact (is_digits_no_underscore _ _ _ Hy2) | exact Hn].
Qed.

Lemma X3_file_name_determines_month_witness :
  "2023" = "2023" /\ "7" = "7".
Proof.
  apply (X3_file_name_determines_month sample_interp
           month_url (Re.MkMatch month_url 36 54 [44; 48; 49; 50]) "2023" "7"
           "http://mirror/sitemap-2023-7.xml"
           (Re.MkMatch "http://mirror/sitemap-2023-7.xml" 14 32 [22; 26; 27; 28])
           "2023" "7");
    vm_compute; reflexivity.
Defined.

(** X4: processing a monthly sitemap leaves every file other than that
    month's own output file as it was, whatever happens. *)
Theorem X4_other_files_untouched py world u st name :
  (forall m year month,
     Re.search py sitemap_pattern u = Some m -> Re.groups m = [year; month] ->
     name <> output_name year month) ->
  Dict.lookup (files (snd (process_sitemap py world u st))) name
  = Dict.lookup (files st) name.
Proof.
  intros Hname.
  destruct (process_sitemap_cases py world u st)
    as [[_ ->] | [(m & y & mo & e & Hs & Hg & _ & ->)
                 | (m & y & mo & soup & Hs & Hg & _ & ->)]];
    cbv zeta; cbn [snd files]; try reflexivity.
  destruct (dump_error py _); cbn [snd files];
    apply dict_lookup_set_other; exact (Hname _ _ _ Hs Hg).
Qed.

Lemma X4_other_files_untouched_witness :
  Dict.lookup
    (files (snd (process_sitemap sample_interp scenario_world month_url
                   (MkState [] [] [("articles_2023_6.json", Dumped (PList []))]))))
    "articles_2023_6.json"
  = Dict.lookup
      (files (MkState [] [] [("articles_2023_6.json", Dumped (PList []))]))
      "articles_2023_6.json".
Proof.
  apply (X4_other_files_untouched sample_interp scenario_world month_url
           (MkState [] [] [("articles_2023_6.json", Dumped (PList []))])
           "articles_2023_6.json").
  intros m year month Hs Hg. vm_compute in Hs. injection Hs as <-.
  vm_compute in Hg. injection Hg as <- <-. discriminate.
Defined.

(** ** The requests a run makes *)

Lemma process_sitemap_fetch_bound py world u st :
  length (fetched (snd (process_sitemap py world u st)))
  <= length (fetched st) + 12.
Proof.
  destruct (process_sitemap_cases py world u st)
    as [[_ ->] | [(m & y & mo & e & _ & _ & _ & ->)
                 | (m & y & mo & soup & _ & _ & _ & ->)]];
    cbv zeta; cbn [snd fetched].
  - lia.
  - rewrite length_app. cbn. lia.
  - destruct (dump_error py _); cbn [snd fetched];
      rewrite length_app; cbn [length]; rewrite length_firstn; lia.
Qed.

Lemma for_each_fetch_bound py world : forall urls st,
  length (fetched (snd (for_each urls (process_sitemap py world) st)))
  <= length (fetched st) + 12 * length urls.
Proof.
  induction urls as [|u urls IH]; intros st; cbn [for_each].
  - cbn. lia.
  - unfold bind. pose proof (process_sitemap_fetch_bound py world u st) as Hb.
    destruct (process_sitemap py world u st) as [[[]|e] st1]; cbn [snd] in *.
    + specialize (IH st1). cbn [length]. lia.
    + cbn [length]. lia.
Qed.

Lemma main_run py world st :
  main py world st =
  let st1 := MkState (fetched st ++ [sitemap_index_url])
               (stdout st ++ ["Retrieving monthly sitemaps..."]) (files st) in
  match world sitemap_index_url with
  | Ok soup =>
      for_each (map Soup.get_text (Soup.find_all "loc" soup))
        (process_sitemap py world) st1
  | Raise e => (Raise e, st1)
  end.
Proof.
  unfold main, bind, print, get_monthly_sitemaps, bind, get_soup, ret.
  cbn [fetched stdout files].
  destruct (world sitemap_index_url); reflexivity.
Qed.

(** X5: a run makes one request for the sitemap index and at most twelve
    per monthly sitemap listed in it (the sitemap and eleven articles),
    whatever the pages hold and whichever requests fail. *)
Theorem X5_request_bound py world st :
  length (fetched (snd (main py world st)))
  <= length (fetched st) + 1
     + 12 * match world sitemap_index_url with
            | Ok soup => length (Soup.find_all "loc" soup)
            | Raise _ => 0
            end.
Proof.
  rewrite main_run. cbv zeta.
  destruct (world sitemap_index_url) as [soup|e].
  - etransitivity; [apply for_each_fetch_bound|].
    cbn [fetched]. rewrite length_app, length_map. cbn [length]. lia.
  - cbn [snd fetched]. rewrite length_app. cbn [length]. lia.
Qed.

Lemma for_each_app A (body : A -> M unit) : forall xs ys st,
  for_each (xs ++ ys) body st =
  match for_each xs body st with
  | (Ok _, st') => for_each ys body st'
  | (Raise e, st') => (Raise e, st')
  end.
Proof.
  induction xs as [|x xs IH]; intros ys st; cbn [app for_each].
  - reflexivity.
  - unfold bind. destruct (body x st) as [[[]|e] st1]; [apply IH | reflexivity].
Qed.

(** X6: a monthly sitemap that cannot be fetched ends the loop over the
    sitemaps: the exception leaves the loop, no file is written for that
    month, and the sitemaps listed after it are never requested. *)
Theorem X6_sitemap_failure_ends_run py world pre u post m year month e st st1 :
  for_each pre (process_sitemap py world) st = (Ok tt, st1) ->
  Re.search py sitemap_pattern u = Some m ->
  Re.groups m = [year; month] ->
  world u = Raise e ->
  for_each (pre ++ u :: post) (process_sitemap py world) st =
  (Raise e,
   MkState (fetched st1 ++ [u])
     (stdout st1
      ++ [(String "010" "Processing articles for " ++ year ++ "-" ++ month ++ "...")%string])
     (files st1)).
Proof.
  intros Hpre Hs Hg Hw. rewrite for_each_app, Hpre. cbn [for_each].
  unfold bind.
  now rewrite (process_sitemap_fetch_fails _ _ _ _ _ _ _ _ Hs Hg Hw).
Qed.

Lemma X6_sitemap_failure_ends_run_witness :
  for_each ([month_url] ++ august_url :: [september_url])
    (process_sitemap sample_interp scenario_world) initial =
  (Raise (RequestException "no such host"),
   MkState
     (fetched after_july ++ [august_url])
     (stdout after_july
      ++ [(String "010" "Processing articles for " ++ "2023" ++ "-" ++ "8" ++ "...")%string])
     (files after_july)).
Proof.
  apply (X6_sitemap_failure_ends_run sample_interp scenario_world [month_url]
           august_url [september_url]
           (Re.MkMatch august_url 36 54 [44; 48; 49; 50])
           "2023" "8" (RequestException "no such host") initial after_july).
  - vm_compute. reflexivity.
  - vm_compute. reflexivity.
  - vm_compute. reflexivity.
  - vm_compute. reflexivity.
Defined.

(** X8: sitemap URLs the pattern does not match have no effect on a run:
    the loop does what it does on the matching URLs alone. *)
Theorem X8_unmatched_urls_ignored py world urls st :
  for_each urls (process_sitemap py world) st
  = for_each (filter (is_month_url py) urls) (process_sitemap py world) st.
Proof.
  revert st. induction urls as [|u urls IH]; intros st; [reflexivity|].
  cbn [filter for_each]. unfold is_month_url at 1.
  destruct (Re.search py sitemap_pattern u) eqn:E.
  - cbn [for_each]. unfold bind.
    destruct (process_sitemap py world u st) as [[[]|e] st1];
      [apply IH | reflexivity].
  - unfold bind. rewrite (process_sitemap_skip _ _ _ _ E). apply IH.
Qed.

Lemma X2_month_url_iff_witness :
  is_month_url sample_interp arabic_month_url = true.
Proof.
  apply (proj1 (X2_month_url_iff sample_interp arabic_world arabic_month_url)).
  exists "https://www.almayadeen.net/sitemaps/", arabic_year, (arabic_digit 7), "".
  split; [reflexivity|]. split; [vm_compute; reflexivity|].
  left. vm_compute. reflexivity.
Defined.

(** ** SitemapParser *)

Lemma concat_one u : Str.concat [u] = u.
Proof. unfold Str.concat. cbn. apply string_app_nil_r. Qed.

Lemma find_all_cons name n doc :
  Soup.find_all name (n :: doc)
  = Soup.tags (fun n' _ => String.eqb n' name) n ++ Soup.find_all name doc.
Proof. reflexivity. Qed.

(** [find_all('loc')] on a document that lists [urls]. *)
Lemma find_all_lists_locs nodes urls :
  lists_locs nodes urls ->
  map Soup.get_text (Soup.find_all "loc" nodes) = urls.
Proof.
  induction 1 as [ | k s rest urls _ IH
                   | attrs k u rest urls Hk _ IH
                   | name attrs children rest urls1 urls2 Hn _ IH1 _ IH2 ].
  - reflexivity.
  - rewrite find_all_cons. cbn [Soup.tags app]. exact IH.
  - rewrite find_all_cons. cbn [Soup.tags]. rewrite String.eqb_refl.
    cbn [flat_map app Soup.tags map]. rewrite IH. f_equal.
    cbn [Soup.get_text]. change (Soup.interesting "loc") with [Soup.KString; Soup.KCData].
    cbn [flat_map Soup.strings app].
    destruct Hk as [-> | ->]; cbn [existsb Soup.strkind_eqb orb];
      rewrite app_nil_r; apply concat_one.
  - rewrite find_all_cons. cbn [Soup.tags].
    apply String.eqb_neq in Hn. rewrite Hn. cbn [app].
    rewrite map_app. f_equal; [exact IH1 | exact IH2].
Qed.

Lemma url_entries_list_locs : forall urls,
  lists_locs (flat_map (fun u => [url_entry u; newline]) urls) urls.
Proof.
  induction urls as [|u urls IH]; [constructor|].
  cbn [flat_map app].
  apply (@LL_tag "url" [] _ _ [u] urls); [discriminate | |].
  - apply LL_text. apply LL_loc; [now left|]. apply LL_text.
    apply (@LL_tag "lastmod" [] _ _ [] []); [discriminate | |].
    + apply LL_text. constructor.
    + apply LL_text. constructor.
  - apply LL_text. exact IH.
Qed.

Lemma parsed_sitemap_lists_locs urls : lists_locs (parsed_sitemap urls) urls.
Proof.
  unfold parsed_sitemap. apply LL_text. apply LL_text.
  rewrite <- (app_nil_r urls) at 2.
  apply LL_tag; [discriminate | | constructor].
  apply LL_text. apply url_entries_list_locs.
Qed.

(** X9: for a sitemap document whose [loc] elements hold the URLs [urls],
    whatever else the document holds (a declaration, white space, other
    elements beside and around the [loc] elements), [get_article_urls]
    makes one request and returns exactly those URLs, in the order of the
    document. *)
Theorem X9_get_article_urls_lists_locs world u doc urls st :
  world u = Ok doc ->
  lists_locs doc urls ->
  get_article_urls world u st =
  (Ok urls, MkState (fetched st ++ [u]) (stdout st) (files st)).
Proof.
  intros Hw Hl. unfold get_article_urls, bind, get_soup, ret. rewrite Hw.
  now rewrite (find_all_lists_locs _ _ Hl).
Qed.

Lemma X9_get_article_urls_lists_locs_witness :
  get_article_urls
    (fun _ => Ok (parsed_sitemap [article_url "a00"; article_url "a01"]))
    month_url initial =
  (Ok [article_url "a00"; article_url "a01"],
   MkState (fetched initial ++ [month_url]) (stdout initial) (files initial)).
Proof.
  apply (X9_get_article_urls_lists_locs
           (fun _ => Ok (parsed_sitemap [article_url "a00"; article_url "a01"]))
           month_url
           (parsed_sitemap [article_url "a00"; article_url "a01"])
           [article_url "a00"; article_url "a01"] initial).
  - reflexivity.
  - apply parsed_sitemap_lists_locs.
Defined.

(** ** Keywords *)

Lemma join_cons sep x y rest :
  Str.join sep (x :: y :: rest) = (x ++ sep ++ Str.join sep (y :: rest))%string.
Proof. reflexivity. Qed.

Lemma join_split c : forall s,
  Str.join (String c "") (Str.split c s) = s.
Proof.
  induction s as [|a s IH]; [reflexivity|].
  cbn [Str.split]. pose proof (split_nonempty c s) as Hne.
  destruct (Str.split c s) as [|piece rest] eqn:E; [contradiction|].
  destruct (Ascii.eqb a c) eqn:Ea.
  - apply Ascii.eqb_eq in Ea. subst a. rewrite join_cons, IH. reflexivity.
  - destruct rest as [|y rest].
    + cbn in *. now rewrite IH.
    + rewrite join_cons. rewrite join_cons in IH. now rewrite <- IH.
Qed.

Lemma split_length c : forall s,
  length (Str.split c s) = S (count_char c s).
Proof.
  induction s as [|a s IH]; [reflexivity|].
  cbn [Str.split count_char]. pose proof (split_nonempty c s) as Hne.
  destruct (Ascii.eqb a c).
  - cbn [length]. rewrite IH. reflexivity.
  - destruct (Str.split c s) as [|piece rest]; [contradiction|].
    cbn [length] in *. rewrite IH. reflexivity.
Qed.

Lemma split_no_sep c : forall s,
  Forall (fun piece => occurs c piece = false) (Str.split c s).
Proof.
  induction s as [|a s IH]; [repeat constructor|].
  cbn [Str.split]. pose proof (split_nonempty c s) as Hne.
  destruct (Ascii.eqb a c) eqn:Ea.
  - constructor; [reflexivity | exact IH].
  - destruct (Str.split c s) as [|piece rest]; [contradiction|].
    inversion IH as [|? ? Hp Hr]; subst.
    constructor; [|exact Hr]. cbn [occurs]. now rewrite Ea, Hp.
Qed.

Lemma article_of_soup_keywords py soup d s :
  metadata_of py soup = Ok (PDict d) ->
  Dict.lookup d "keywords" = Some (PStr s) ->
  article_of_soup py soup = Ok (record_of d (Str.split "," s)).
Proof.
  intros Hm Hk. rewrite (article_of_soup_eq _ _ _ Hm).
  now rewrite (dict_get_lookup _ _ _ _ Hk).
Qed.

(** X10: the keyword string of the metadata can be recovered from the
    record: joining the record's keywords with commas gives it back. *)
Theorem X10_keywords_join_back py soup d s :
  metadata_of py soup = Ok (PDict d) ->
  Dict.lookup d "keywords" = Some (PStr s) ->
  exists a, article_of_soup py soup = Ok a /\ Str.join "," (keywords a) = s.
Proof.
  intros Hm Hk. rewrite (article_of_soup_keywords _ _ _ _ Hm Hk).
  eexists. split; [reflexivity|]. cbn [keywords record_of]. apply join_split.
Qed.

Lemma X10_keywords_join_back_witness :
  exists a,
    article_of_soup sample_interp (article_page keywords_text ["text"]) = Ok a /\
    Str.join "," (keywords a) = "a,b,c".
Proof.
  apply (X10_keywords_join_back sample_interp
           (article_page keywords_text ["text"])
           [("title", PStr "T"); ("keywords", PStr "a,b,c")] "a,b,c").
  - vm_compute. reflexivity.
  - reflexivity.
Defined.

(** X11: the record has one keyword more than the keyword string has
    commas, empty keywords included, and no keyword contains a comma. *)
Theorem X11_keywords_count py soup d s :
  metadata_of py soup = Ok (PDict d) ->
  Dict.lookup d "keywords" = Some (PStr s) ->
  exists a,
    article_of_soup py soup = Ok a /\
    length (keywords a) = S (count_char "," s) /\
    Forall (fun k => occurs "," k = false) (keywords a).
Proof.
  intros Hm Hk. rewrite (article_of_soup_keywords _ _ _ _ Hm Hk).
  eexists. split; [reflexivity|]. cbn [keywords record_of].
  split; [apply split_length | apply split_no_sep].
Qed.

Lemma X11_keywords_count_witness :
  exists a,
    article_of_soup sample_interp (article_page keywords_text ["text"]) = Ok a /\
    length (keywords a) = S (count_char "," "a,b,c") /\
    Forall (fun k => occurs "," k = false) (keywords a).
Proof.
  apply (X11_keywords_count sample_interp (article_page keywords_text ["text"])
           [("title", PStr "T"); ("keywords", PStr "a,b,c")] "a,b,c").
  - vm_compute. reflexivity.
  - reflexivity.
Defined.

(** ** Fields and keys *)

(** X12: a field whose key the metadata lacks is null in the record,
    except classes, which is the empty list, and html, which is the empty
    string; this holds key by key, whatever other keys are present. *)
Theorem X12_absent_key_default py soup d a f :
  metadata_of py soup = Ok (PDict d) ->
  article_of_soup py soup = Ok a ->
  In f field_names -> f <> "keywords" ->
  Dict.lookup d f = None ->
  Dict.lookup (asdict a) f = Some (default_of f).
Proof.
  intros Hm Ha Hin Hne Hl. rewrite (article_of_soup_eq _ _ _ Hm) in Ha.
  destruct (py_split_comma _) as [kws|]; [|discriminate].
  injection Ha as <-.
  unfold field_names in Hin. cbn [asdict map fst] in Hin.
  repeat (destruct Hin as [<- | Hin];
          [ first [ now contradiction Hne
                  | cbn; unfold Dict.get; now rewrite Hl ] | ]).
  destruct Hin.
Qed.

Lemma X12_absent_key_default_witness :
  Dict.lookup (asdict (record_of [("title", PStr "T"); ("keywords", PStr "a,b,c")]
                         ["a"; "b"; "c"])) "html"
  = Some (default_of "html").
Proof.
  apply (X12_absent_key_default sample_interp
           (article_page keywords_text ["text"])
           [("title", PStr "T"); ("keywords", PStr "a,b,c")]).
  - vm_compute. reflexivity.
  - vm_compute. reflexivity.
  - vm_compute. tauto.
  - discriminate.
  - reflexivity.
Defined.

Lemma dict_get_ext d d' k (default : pyval) :
  Dict.lookup d k = Dict.lookup d' k -> Dict.get d k default = Dict.get d' k default.
Proof. unfold Dict.get. now intros ->. Qed.

(** X13: the record depends on the metadata through the sixteen declared
    keys only: two pages whose metadata agree on those keys give the same
    outcome, whatever other keys either holds. *)
Theorem X13_only_declared_keys py soup soup' d d' :
  metadata_of py soup = Ok (PDict d) ->
  metadata_of py soup' = Ok (PDict d') ->
  (forall f, In f field_names -> Dict.lookup d f = Dict.lookup d' f) ->
  article_of_soup py soup = article_of_soup py soup'.
Proof.
  intros Hm Hm' Hf.
  rewrite (article_of_soup_eq _ _ _ Hm), (article_of_soup_eq _ _ _ Hm').
  assert (Hg : forall f default, In f field_names ->
                 Dict.get d f default = Dict.get d' f default).
  { intros f default Hin. apply dict_get_ext. now apply Hf. }
  assert (Hin : forall f, existsb (String.eqb f) field_names = true ->
                  In f field_names).
  { intros f H. apply existsb_exists in H as (x & Hx & E).
    apply String.eqb_eq in E. now subst. }
  rewrite (Hg "keywords" _ (Hin "keywords" eq_refl)).
  destruct (py_split_comma _) as [kws|]; [|reflexivity].
  unfold record_of.
  rewrite (Hg "type" _ (Hin "type" eq_refl)), (Hg "postid" _ (Hin "postid" eq_refl)),
    (Hg "title" _ (Hin "title" eq_refl)), (Hg "url" _ (Hin "url" eq_refl)),
    (Hg "thumbnail" _ (Hin "thumbnail" eq_refl)),
    (Hg "video_duration" _ (Hin "video_duration" eq_refl)),
    (Hg "word_count" _ (Hin "word_count" eq_refl)), (Hg "lang" _ (Hin "lang" eq_refl)),
    (Hg "published_time" _ (Hin "published_time" eq_refl)),
    (Hg "last_updated" _ (Hin "last_updated" eq_refl)),
    (Hg "description" _ (Hin "description" eq_refl)), (Hg "author" _ (Hin "author" eq_refl)),
    (Hg "classes" _ (Hin "classes" eq_refl)), (Hg "html" _ (Hin "html" eq_refl)),
    (Hg "lite_url" _ (Hin "lite_url" eq_refl)).
  reflexivity.
Qed.

Lemma X13_only_declared_keys_witness :
  article_of_soup sample_interp (article_page keywords_text ["text"])
  = article_of_soup sample_interp (article_page extra_key_text []).
Proof.
  apply (X13_only_declared_keys sample_interp
           (article_page keywords_text ["text"])
           (article_page extra_key_text [])
           [("title", PStr "T"); ("keywords", PStr "a,b,c")]
           [("title", PStr "T"); ("keywords", PStr "a,b,c");
            ("tracking", PDict [("id", PInt 7)])]).
  - vm_compute. reflexivity.
  - vm_compute. reflexivity.
  - intros f Hin. vm_compute in Hin.
    repeat (destruct Hin as [<- | Hin]; [reflexivity|]). destruct Hin.
Defined.

(** ** extract_metadata and the text around the object *)

Lemma greedy_brace_span_skip : forall pre s,
  occurs "{" pre = false ->
  greedy_brace_span (pre ++ s) = greedy_brace_span s.
Proof.
  induction pre as [|a pre IH]; intros s H; [reflexivity|].
  cbn [occurs] in H. apply orb_false_iff in H as [Ha Hp].
  cbn [append greedy_brace_span]. rewrite Ha. now apply IH.
Qed.

Lemma upto_last_no_more c : forall body post,
  occurs c post = false ->
  upto_last c (body ++ String c post) = Some (body ++ String c "")%string.
Proof.
  assert (Hnone : forall post, occurs c post = false -> upto_last c post = None).
  { induction post as [|a post IH]; intros H; [reflexivity|].
    cbn [occurs] in H. apply orb_false_iff in H as [Ha Hp].
    cbn [upto_last]. now rewrite (IH Hp), Ha. }
  induction body as [|a body IH]; intros post H; cbn [append upto_last].
  - now rewrite (Hnone _ H), Ascii.eqb_refl.
  - now rewrite (IH _ H).
Qed.

(** X14: text before the first opening brace and after the last closing
    brace of the script does not matter: [extract_metadata] gives what it
    gives on the object text alone, a value or an exception. *)
Theorem X14_surrounding_text_ignored py pre body post :
  occurs "{" pre = false ->
  occurs "}" post = false ->
  extract_metadata py (pre ++ String "{" (body ++ String "}" post))
  = extract_metadata py (String "{" (body ++ String "}" "")).
Proof.
  intros Hpre Hpost. rewrite !extract_metadata_span.
  rewrite (greedy_brace_span_skip _ _ Hpre). cbn [greedy_brace_span].
  change (Ascii.eqb "{" "{") with true. cbv iota.
  rewrite (upto_last_no_more "}" body post Hpost).
  rewrite (upto_last_no_more "}" body "" eq_refl). reflexivity.
Qed.

Lemma X14_surrounding_text_ignored_witness :
  extract_metadata sample_interp
    ("window.meta = " ++ String "{"
       ((String Str.dquote "a" ++ String Str.dquote ": 1")
        ++ String "}" "; render();"))
  = extract_metadata sample_interp
      (String "{" ((String Str.dquote "a" ++ String Str.dquote ": 1")
                   ++ String "}" "")).
Proof.
  apply (X14_surrounding_text_ignored sample_interp "window.meta = "
           (String Str.dquote "a" ++ String Str.dquote ": 1")%string
           "; render();");
    reflexivity.
Defined.

(** ** What ends up in a month's file *)


Lemma successes_none py world : forall urls,
  (forall u, In u urls -> exists e, outcome py world u = Raise e) ->
  successes py world urls = [].
Proof.
  induction urls as [|u urls IH]; intros H; [reflexivity|].
  unfold successes in *. cbn [flat_map].
  destruct (H u (or_introl eq_refl)) as [e ->]. cbn [app].
  apply IH. intros x Hx. apply H. now right.
Qed.


Lemma dump_error_empty py : dump_error py (dumped []) = None.
Proof. reflexivity. Qed.

(** X15: a month whose sitemap was fetched always gets its file, even
    when no article could be extracted: the file then holds the empty
    list. *)
Theorem X15_file_written_when_all_fail py world u m year month soup st :
  Re.search py sitemap_pattern u = Some m ->
  Re.groups m = [year; month] ->
  world u = Ok soup ->
  (forall x, In x (firstn 11 (map Soup.get_text (Soup.find_all "loc" soup))) ->
     exists e, outcome py world x = Raise e) ->
  fst (process_sitemap py world u st) = Ok tt /\
  Dict.lookup (files (snd (process_sitemap py world u st))) (output_name year month)
  = Some (Dumped (PList [])).
Proof.
  intros Hs Hg Hw Hall.
  rewrite (process_sitemap_run _ _ _ _ _ _ _ _ Hs Hg Hw). cbv zeta.
  rewrite (successes_none _ _ _ Hall), dump_error_empty.
  cbn [fst snd files]. split; [reflexivity|]. apply dict_lookup_set.
Qed.

Lemma X15_file_written_when_all_fail_witness :
  fst (process_sitemap sample_interp barren_world month_url initial) = Ok tt /\
  Dict.lookup
    (files (snd (process_sitemap sample_interp barren_world month_url initial)))
    (output_name "2023" "7")
  = Some (Dumped (PList [])).
Proof.
  apply (X15_file_written_when_all_fail sample_interp barren_world month_url
           (Re.MkMatch month_url 36 54 [44; 48; 49; 50]) "2023" "7"
           (urlset [article_url "a00"; article_url "a01"]) initial).
  - vm_compute. reflexivity.
  - vm_compute. reflexivity.
  - reflexivity.
  - intros x Hx. vm_compute in Hx.
    destruct Hx as [<- | [<- | []]];
      exists (RequestException "connection refused"); reflexivity.
Defined.



(** ** The run as a whole *)

Lemma for_each_changed_file py world : forall urls st name,
  Dict.lookup (files (snd (for_each urls (process_sitemap py world) st))) name
  <> Dict.lookup (files st) name ->
  exists u m year month,
    In u urls /\ Re.search py sitemap_pattern u = Some m /\
    Re.groups m = [year; month] /\ name = output_name year month.
Proof.
  induction urls as [|u urls IH]; intros st name H.
  - now contradiction H.
  - cbn [for_each] in H. unfold bind in H.
    destruct (String.eqb name
                match option_map Re.groups (Re.search py sitemap_pattern u) with
                | Some [y; mo] => output_name y mo
                | _ => ""
                end) eqn:En.
    + apply String.eqb_eq in En.
      destruct (process_sitemap_cases py world u st)
        as [[Hn E] | [(m & y & mo & e & Hs & Hg & _ & E)
                     | (m & y & mo & soup & Hs & Hg & _ & E)]].
      * rewrite E in H. cbv beta iota in H.
        destruct (IH _ _ H) as (u' & m & y & mo & Hin & Hrest).
        exists u', m, y, mo. split; [now right | exact Hrest].
      * rewrite Hs in En. cbn [option_map] in En. rewrite Hg in En.
        exists u, m, y, mo. repeat split; try assumption. now left.
      * rewrite Hs in En. cbn [option_map] in En. rewrite Hg in En.
        exists u, m, y, mo. repeat split; try assumption. now left.
    + apply String.eqb_neq in En.
      assert (H1 : Dict.lookup (files (snd (process_sitemap py world u st))) name
                   = Dict.lookup (files st) name).
      { destruct (process_sitemap_cases py world u st)
          as [[Hn E] | [(m & y & mo & e & Hs & Hg & _ & E)
                       | (m & y & mo & soup & Hs & Hg & _ & E)]];
          rewrite E; cbv zeta; try reflexivity.
        rewrite Hs in En. cbn [option_map] in En. rewrite Hg in En.
        destruct (dump_error py _); cbn [snd files];
          now apply dict_lookup_set_other. }
      destruct (process_sitemap py world u st) as [[[]|e] st1];
        cbn [snd] in H1.
      * rewrite <- H1 in H.
        destruct (IH _ _ H) as (u' & m' & y' & mo' & Hin & Hrest).
        exists u', m', y', mo'. split; [now right | exact Hrest].
      * cbn [snd] in H. exfalso. apply H. exact H1.
Qed.

(** X17: a run creates or changes only files named
    [articles_YYYY_M.json], for a year of four decimal digit characters and
    a month of one or two, read off a sitemap URL of the index; the digits
    are those of [\d], ASCII or not. *)
Theorem X17_only_month_files_written py world st name :
  Dict.lookup (files (snd (main py world st))) name <> Dict.lookup (files st) name ->
  exists year month,
    name = output_name year month /\
    is_digits py 4 year = true /\
    (is_digits py 1 month = true \/ is_digits py 2 month = true).
Proof.
  rewrite main_run. cbv zeta.
  destruct (world sitemap_index_url) as [soup|e].
  - intros H.
    apply (for_each_changed_file py world _
             (MkState (fetched st ++ [sitemap_index_url])
                (stdout st ++ ["Retrieving monthly sitemaps..."]) (files st)))
      in H as (u & m & y & mo & _ & Hs & Hg & ->).
    destruct (sitemap_match_shape _ _ _ Hs)
      as (pre & y' & mo' & post & _ & Hg' & _ & Hshape).
    rewrite Hg in Hg'. injection Hg' as -> ->.
    exists y', mo'. split; [reflexivity | exact Hshape].
  - cbn [snd files]. intros H. exfalso. apply H. reflexivity.
Qed.

(** A month written in Arabic-Indic digits gets a file named with them. *)
Lemma X17_only_month_files_written_witness :
  exists year month,
    arabic_file = output_name year month /\
    is_digits sample_interp 4 year = true /\
    (is_digits sample_interp 1 month = true \/
     is_digits sample_interp 2 month = true).
Proof.
  apply (X17_only_month_files_written sample_interp arabic_world initial
           arabic_file).
  vm_compute. discriminate.
Defined.

(** A month that can be fetched and dumped: the run of the month
    succeeds, leaves whole files whole, and leaves the file of the month
    whole. *)
Lemma process_sitemap_ok py world u st :
  (is_month_url py u = true -> month_ok py world u) ->
  fst (process_sitemap py world u st) = Ok tt /\
  (forall name v,
     Dict.lookup (files st) name = Some (Dumped v) ->
     exists v',
       Dict.lookup (files (snd (process_sitemap py world u st))) name
       = Some (Dumped v')) /\
  (forall m year month,
     Re.search py sitemap_pattern u = Some m -> Re.groups m = [year; month] ->
     exists v,
       Dict.lookup (files (snd (process_sitemap py world u st)))
         (output_name year month) = Some (Dumped v)).
Proof.
  intros Hok.
  destruct (process_sitemap_cases py world u st)
    as [[Hn E] | [(m & y & mo & e & Hs & Hg & Hw & E)
                 | (m & y & mo & soup & Hs & Hg & Hw & E)]].
  - rewrite E. cbn [fst snd]. split; [reflexivity|]. split; [eauto|].
    intros m y mo Hs. congruence.
  - destruct Hok as (soup & Hsoup & _);
      [unfold is_month_url; now rewrite Hs | congruence].
  - destruct Hok as (soup' & Hsoup & Hd);
      [unfold is_month_url; now rewrite Hs|].
    rewrite Hw in Hsoup. injection Hsoup as <-.
    rewrite E. cbv zeta. unfold month_records in Hd. rewrite Hd.
    cbn [fst snd files]. split; [reflexivity|]. split.
    + intros name v Hv.
      destruct (String.eqb name (output_name y mo)) eqn:En.
      * apply String.eqb_eq in En. subst name. rewrite dict_lookup_set. eauto.
      * apply String.eqb_neq in En.
        rewrite dict_lookup_set_other by exact En. eauto.
    + intros m' y' mo' Hs' Hg'. rewrite Hs in Hs'. injection Hs' as <-.
      rewrite Hg in Hg'. injection Hg' as <- <-.
      rewrite dict_lookup_set. eauto.
Qed.

Lemma for_each_keeps_dumped py world : forall urls st name v,
  (forall u, In u urls -> is_month_url py u = true -> month_ok py world u) ->
  Dict.lookup (files st) name = Some (Dumped v) ->
  exists v',
    Dict.lookup (files (snd (for_each urls (process_sitemap py world) st))) name
    = Some (Dumped v').
Proof.
  induction urls as [|u urls IH]; intros st name v Hall H; cbn [for_each].
  - cbn. eauto.
  - unfold bind.
    destruct (process_sitemap_ok py world u st (Hall u (or_introl eq_refl)))
      as (Hok & Hkeep & _).
    destruct (Hkeep _ _ H) as [v1 H1].
    destruct (process_sitemap py world u st) as [[[]|e] st1];
      cbn [fst snd] in *; [|discriminate].
    apply (IH _ _ v1); [|exact H1]. intros x Hx. apply Hall. now right.
Qed.

Lemma for_each_all_fetched py world : forall urls st,
  (forall u, In u urls -> is_month_url py u = true -> month_ok py world u) ->
  fst (for_each urls (process_sitemap py world) st) = Ok tt /\
  forall u m year month,
    In u urls -> Re.search py sitemap_pattern u = Some m ->
    Re.groups m = [year; month] ->
    exists v,
      Dict.lookup (files (snd (for_each urls (process_sitemap py world) st)))
        (output_name year month) = Some (Dumped v).
Proof.
  induction urls as [|u urls IH]; intros st Hall.
  - split; [reflexivity | intros ? ? ? ? []].
  - cbn [for_each]. unfold bind.
    assert (Hrest : forall x, In x urls -> is_month_url py x = true ->
                      month_ok py world x).
    { intros x Hx. apply Hall. now right. }
    destruct (process_sitemap_ok py world u st (Hall u (or_introl eq_refl)))
      as (Hok & _ & Hfile).
    pose proof (for_each_keeps_dumped py world urls) as Hkeep.
    destruct (process_sitemap py world u st) as [[[]|e] st1];
      cbn [fst snd] in *; [|discriminate].
    destruct (IH st1 Hrest) as [Hok' Hfiles]. split; [exact Hok'|].
    intros x mx yx mox [<- | Hx] Hsx Hgx.
    + destruct (Hfile _ _ _ Hsx Hgx) as [v Hv].
      exact (Hkeep st1 _ v Hrest Hv).
    + now apply (Hfiles x mx).
Qed.

(** X18: failures of single articles never fail a run: when the index
    can be fetched, and every monthly sitemap it lists can be fetched and
    the dump of its records does not raise, [main] returns normally, and at
    the end there is a file, written whole, for every month listed,
    whatever happened to the articles. *)
Theorem X18_run_succeeds_when_sitemaps_fetch py world soup st :
  world sitemap_index_url = Ok soup ->
  (forall u, In u (map Soup.get_text (Soup.find_all "loc" soup)) ->
     is_month_url py u = true -> month_ok py world u) ->
  fst (main py world st) = Ok tt /\
  forall u m year month,
    In u (map Soup.get_text (Soup.find_all "loc" soup)) ->
    Re.search py sitemap_pattern u = Some m ->
    Re.groups m = [year; month] ->
    exists v,
      Dict.lookup (files (snd (main py world st))) (output_name year month)
      = Some (Dumped v).
Proof.
  intros Hw Hall. rewrite main_run, Hw. cbv zeta.
  now apply for_each_all_fetched.
Qed.

Lemma X18_run_succeeds_when_sitemaps_fetch_witness :
  fst (main sample_interp scenario_world initial) = Ok tt /\
  forall u m year month,
    In u (map Soup.get_text
            (Soup.find_all "loc"
               [Soup.NTag "sitemapindex" []
                  [Soup.NTag "sitemap" [] [loc month_url]]])) ->
    Re.search sample_interp sitemap_pattern u = Some m ->
    Re.groups m = [year; month] ->
    exists v,
      Dict.lookup (files (snd (main sample_interp scenario_world initial)))
        (output_name year month) = Some (Dumped v).
Proof.
  apply (X18_run_succeeds_when_sitemaps_fetch sample_interp scenario_world
           [Soup.NTag "sitemapindex" []
              [Soup.NTag "sitemap" [] [loc month_url]]] initial).
  - reflexivity.
  - intros u Hu _. vm_compute in Hu. destruct Hu as [<- | []].
    exists (urlset (map article_url article_names)).
    split; [reflexivity | vm_compute; reflexivity].
Defined.

Lemma for_each_raise_source py world e : forall urls st,
  fst (for_each urls (process_sitemap py world) st) = Raise e ->
  exists u,
    In u urls /\ is_month_url py u = true /\
    (world u = Raise e \/
     exists soup,
       world u = Ok soup /\
       dump_error py (dumped (month_records py world soup)) = Some e).
Proof.
  induction urls as [|u urls IH]; intros st H; [discriminate|].
  cbn [for_each] in H. unfold bind in H.
  destruct (process_sitemap_cases py world u st)
    as [[_ E] | [(m & y & mo & e' & Hs & _ & Hw & E)
                | (m & y & mo & soup & Hs & _ & Hw & E)]];
    rewrite E in H; cbv beta iota zeta in H.
  - destruct (IH _ H) as (x & Hx & Hrest). exists x. split; [now right | exact Hrest].
  - cbn [fst] in H. injection H as <-. exists u.
    split; [now left|]. split; [|now left].
    unfold is_month_url. now rewrite Hs.
  - destruct (dump_error py _) as [e'|] eqn:Ed.
    + cbn [fst] in H. injection H as <-. exists u.
      split; [now left|]. split; [unfold is_month_url; now rewrite Hs|].
      right. exists soup. split; [exact Hw | exact Ed].
    + destruct (IH _ H) as (x & Hx & Hrest).
      exists x. split; [now right | exact Hrest].
Qed.

(** X7: an exception that leaves [main] is that of fetching the sitemap
    index, that of fetching a monthly sitemap the pattern matches, or that
    of dumping the records of such a month to its file; the exceptions
    raised while an article is fetched and extracted never leave [main]. *)
Theorem X7_exceptions_come_from_sitemaps py world st e :
  fst (main py world st) = Raise e ->
  world sitemap_index_url = Raise e \/
  exists soup u,
    world sitemap_index_url = Ok soup /\
    In u (map Soup.get_text (Soup.find_all "loc" soup)) /\
    is_month_url py u = true /\
    (world u = Raise e \/
     exists month_soup,
       world u = Ok month_soup /\
       dump_error py (dumped (month_records py world month_soup)) = Some e).
Proof.
  rewrite main_run. cbv zeta.
  destruct (world sitemap_index_url) as [soup|e0].
  - intros H. right. apply for_each_raise_source in H as (u & Hin & Hm & Hw).
    exists soup, u. repeat split; assumption.
  - cbn [fst]. intros H. injection H as <-. now left.
Qed.

(** The run whose one record cannot be written. *)
Lemma X7_exceptions_come_from_sitemaps_witness :
  with_index [month_url] surrogate_world sitemap_index_url
    = Raise Dump.surrogate_error \/
  exists soup u,
    with_index [month_url] surrogate_world sitemap_index_url = Ok soup /\
    In u (map Soup.get_text (Soup.find_all "loc" soup)) /\
    is_month_url sample_interp u = true /\
    (with_index [month_url] surrogate_world u = Raise Dump.surrogate_error \/
     exists month_soup,
       with_index [month_url] surrogate_world u = Ok month_soup /\
       dump_error sample_interp
         (dumped (month_records sample_interp
                    (with_index [month_url] surrogate_world) month_soup))
       = Some Dump.surrogate_error).
Proof.
  apply (X7_exceptions_come_from_sitemaps sample_interp
           (with_index [month_url] surrogate_world) initial
           Dump.surrogate_error).
  vm_compute. reflexivity.
Defined.

(** ** Sanity checks of the model on concrete inputs *)

Example brace_nested :
  option_map Re.group
    (Re.search sample_interp brace_pattern "var x = {'a': {'b': 1}} ; } end")
  = Some "{'a': {'b': 1}} ; }".
Proof. reflexivity. Qed.

Example sitemap_two_digit_month :
  option_map Re.groups
    (Re.search sample_interp sitemap_pattern
       "https://www.almayadeen.net/sitemaps/sitemap-2023-12.xml")
  = Some ["2023"; "12"].
Proof. reflexivity. Qed.

Example sitemap_arabic_digits :
  option_map Re.groups
    (Re.search sample_interp sitemap_pattern arabic_month_url)
  = Some [arabic_year; arabic_digit 7].
Proof. vm_compute. reflexivity. Qed.

Example sitemap_five_digits :
  Re.search sample_interp sitemap_pattern "https://h/sitemap-20231-7.xml" = None.
Proof. vm_compute. reflexivity. Qed.

Example loads_nested :
  Json.loads sample_interp
    (Str.js "{'a': [1, -2.5e3, null, true], 'b': {'c': 'x\ny\u00e9'}, 'a': 'z'}")
  = Json.POk
      (PDict [("a", PStr "z");
              ("b", PDict [("c", PStr (String "x" (String "010" (String "y"
                                 (String "195" (String "169" ""))))))])]).
Proof. vm_compute. reflexivity. Qed.

Example loads_numbers :
  Json.loads sample_interp "[0, -12, 3.25, 1e5, 7E-2, -0]"
  = Json.POk (PList [PInt 0; PInt (-12); PFloat "3.25"; PFloat "1e5";
                     PFloat "7E-2"; PInt 0]).
Proof. vm_compute. reflexivity. Qed.

Example loads_rejects :
  map (Json.loads sample_interp) ["{'a': 1}"; "[1,]"; "01"; "{} x"; ""]
  = [Json.PErr; Json.PErr; Json.PErr; Json.PErr; Json.PErr].
Proof. vm_compute. reflexivity. Qed.

Example loads_too_deep :
  json_loads (MkInterp sample_nd 4300 3 990) "[[[[1]]]]"
  = Raised (RecursionError
      "maximum recursion depth exceeded while decoding a JSON array from a unicode string").
Proof. vm_compute. reflexivity. Qed.

Example loads_surrogate :
  json_loads sample_interp surrogate_text
  = Loaded (PDict [("title", PStr (String "237" (String "160" (String "128" ""))))]).
Proof. vm_compute. reflexivity. Qed.

Example split_examples :
  Str.split "," "a,b,c" = ["a"; "b"; "c"] /\
  Str.split "," "" = [""] /\
  Str.split "," "a,,b," = ["a"; ""; "b"; ""].
Proof. repeat split. Qed.
